(** * SecBoot: a shallow embedding of the secure bootloader's trust core

    The development follows the C sources under [Secure/Core]:

    - [secboot_aes.c]: PKCS#7 padding, word/byte conversion, the AES wrapper;
    - [secboot_crc.c], [secboot_sha256.c], [secboot_ecdsa.c]: thin wrappers
      around the STM32L5 HAL peripherals;
    - [secboot_bootmanager.c]: [get_AES_key], [SECBOOT_BootManager_Init],
      [SECBOOT_BootManager_VerifyBootloaderCRC],
      [SECBOOT_BootManager_VerifyAppSignature], [SECBOOT_BootManager_JumpTo];
    - [secboot_diag.c]: the flash log, the failure handlers and the response
      escalation.

    Memory is a byte-addressed store (the target is a little-endian
    Cortex-M33), bytes are [Byte.byte], 32-bit words are [Z] with their
    wrap-around written out.  The vendor HAL is not part of the repository:
    it is an interface ([HAL]) the functions are parameterised by.  Functions
    that may not return (lockdown, the jump into the non-secure image) produce
    an [outcome]. *)

From Stdlib Require Import ZArith List Lia Bool.
From coqutil Require Import Byte Word.LittleEndianList.
Import ListNotations.
Local Open Scope Z_scope.

(* ===================================================================== *)
(** * Part I: definitions *)
(* ===================================================================== *)

(** ** Machine integers *)

Definition u8 (z : Z) : Z := z mod 2 ^ 8.
Definition u32 (z : Z) : Z := z mod 2 ^ 32.

(** A buffer of exactly [n] elements holding the first [n] elements of [l]
    (what a callee leaves in a caller's fixed-size array). *)
Definition fit {A : Type} (d : A) (n : nat) (l : list A) : list A :=
  firstn n (l ++ repeat d n).

(** [memcmp(a, b, n) == 0] on byte buffers. *)
Fixpoint bytes_eqb (a b : list byte) : bool :=
  match a, b with
  | [], [] => true
  | x :: a', y :: b' => Byte.eqb x y && bytes_eqb a' b'
  | _, _ => false
  end.

(** ** Byte-addressed memory *)

Module Mem.

Definition mem : Type := Z -> byte.

Fixpoint load_bytes (m : mem) (a : Z) (n : nat) : list byte :=
  match n with
  | O => []
  | S k => m a :: load_bytes m (a + 1) k
  end.

Definition store_byte (m : mem) (a : Z) (b : byte) : mem :=
  fun x => if x =? a then b else m x.

Fixpoint store_bytes (m : mem) (a : Z) (bs : list byte) : mem :=
  match bs with
  | [] => m
  | b :: bs' => store_bytes (store_byte m a b) (a + 1) bs'
  end.

(** [*(uint32_t* )a] on a little-endian target. *)
Definition load32 (m : mem) (a : Z) : Z := le_combine (load_bytes m a 4).

Definition store32 (m : mem) (a : Z) (v : Z) : mem := store_bytes m a (le_split 4 v).

(** [n] consecutive 32-bit words starting at [a]. *)
Fixpoint load_words (m : mem) (a : Z) (n : nat) : list Z :=
  match n with
  | O => []
  | S k => load32 m a :: load_words m (a + 4) k
  end.

Definition memset (m : mem) (a : Z) (c : byte) (n : nat) : mem :=
  store_bytes m a (repeat c n).

(** Every byte of [a, a+n) reads as erased flash. *)
Definition erased (m : mem) (a : Z) (n : nat) : bool :=
  forallb (Byte.eqb Byte.xff) (load_bytes m a n).

End Mem.
Import Mem.

(** ** HAL status codes (stm32l5xx_hal_def.h) *)

Inductive HAL_StatusTypeDef : Type :=
| HAL_OK | HAL_ERROR | HAL_BUSY | HAL_TIMEOUT.

Inductive HAL_PKA_StateTypeDef : Type :=
| HAL_PKA_STATE_RESET | HAL_PKA_STATE_READY | HAL_PKA_STATE_BUSY | HAL_PKA_STATE_ERROR.

Definition HAL_is_OK (st : HAL_StatusTypeDef) : bool :=
  match st with HAL_OK => true | _ => false end.

(** ** Status enumerations of the SecBoot modules *)

(** secboot_crc.h *)
Inductive SECBOOT_CRC_StatusTypeDef : Type :=
| SECBOOT_CRC_OK
| SECBOOT_CRC_ERROR
| SECBOOT_CRC_INVALID_PARAM
| SECBOOT_CRC_INIT_FAILED
| SECBOOT_CRC_MISMATCH.

(** The enumerators' integer values, in declaration order from 0. *)
Definition crc_status_value (st : SECBOOT_CRC_StatusTypeDef) : Z :=
  match st with
  | SECBOOT_CRC_OK => 0
  | SECBOOT_CRC_ERROR => 1
  | SECBOOT_CRC_INVALID_PARAM => 2
  | SECBOOT_CRC_INIT_FAILED => 3
  | SECBOOT_CRC_MISMATCH => 4
  end.

(** secboot_sha256.h (the header is not part of the sources; the
    enumerators are the ones secboot_sha256.c returns). *)
Inductive SECBOOT_SHA_StatusTypeDef : Type :=
| SECBOOT_SHA256_OK
| SECBOOT_SHA256_ERROR_INIT
| SECBOOT_SHA256_ERROR_NULL_PTR
| SECBOOT_SHA256_ERROR_INVALID_LENGTH
| SECBOOT_SHA256_ERROR_COMPUTE.

(** secboot_ecdsa.h *)
Inductive SECBOOT_ECDSA_StatusTypeDef : Type :=
| SECBOOT_ECDSA_OK
| SECBOOT_ECDSA_ERROR
| SECBOOT_ECDSA_INVALID_PARAM
| SECBOOT_ECDSA_INVALID_STATE
| SECBOOT_ECDSA_PKA_INIT_FAIL
| SECBOOT_ECDSA_PKA_COMP_ERROR
| SECBOOT_ECDSA_PKA_TIMEOUT
| SECBOOT_ECDSA_VERIFICATION_SUCCESS
| SECBOOT_ECDSA_VERIFICATION_FAIL
| SECBOOT_ECDSA_INVALID_SIGNATURE
| SECBOOT_ECDSA_INVALID_PUBKEY.

(** secboot_aes.h *)
Inductive SECBOOT_AES_StatusTypeDef : Type :=
| SECBOOT_AES_OK
| SECBOOT_AES_ERROR
| SECBOOT_AES_INVALID_PARAM
| SECBOOT_AES_PADDING_ERROR.

(** secboot_aes.c, internal *)
Inductive PKCS7_Status : Type :=
| PKCS7_PAD_OK | PKCS7_PAD_NOK | PKCS7_UNPAD_OK | PKCS7_UNPAD_NOK.

(** secboot_bootmanager.h *)
Inductive SECBOOT_BOOTMANAGER_StatusTypeDef : Type :=
| SECBOOT_BOOTMANAGER_OK
| SECBOOT_BOOTMANAGER_ERROR
| SECBOOT_BOOTMANAGER_INVALID_SIGNATURE
| SECBOOT_BOOTMANAGER_INVALID_HASH
| SECBOOT_BOOTMANAGER_INVALID_HEADER
| SECBOOT_BOOTMANAGER_FLASH_ERROR
| SECBOOT_BOOTMANAGER_INVALID_CRC
| SECBOOT_BOOTMANAGER_DECRYPTION_ERROR
| SECBOOT_BOOTMANAGER_VERSION_ROLLBACK
| SECBOOT_BOOTMANAGER_SECURE_VIOLATION
| SECBOOT_BOOTMANAGER_HW_SECURE_FAULT
| SECBOOT_BOOTMANAGER_JUMP_FAILED.

Definition bootmanager_is_OK (st : SECBOOT_BOOTMANAGER_StatusTypeDef) : bool :=
  match st with SECBOOT_BOOTMANAGER_OK => true | _ => false end.

(** secboot_diag.h *)
Inductive SECBOOT_Diag_TypeDef : Type :=
| SECBOOT_DIAG_OK
| SECBOOT_DIAG_ERROR
| SECBOOT_DIAG_INVALID_PARAM
| SECBOOT_DIAG_FLASH_FAIL
| SECBOOT_DIAG_TAMPERED.

Inductive SECBOOT_Diag_ResponseLevel : Type :=
| SECBOOT_DIAG_RESP_NONE
| SECBOOT_DIAG_RESP_WARN
| SECBOOT_DIAG_RESP_RECOVER
| SECBOOT_DIAG_RESP_LOCKDOWN.

(** ** Constants (secboot_config.h, secboot_bootmanager.h, secboot_diag.h, secboot_aes.h) *)

Definition SECBOOT_DIAG_LOG_BASE : Z := 0x0C00A000.
Definition SECBOOT_DIAG_LOG_SIZE : Z := 64.
Definition SECBOOT_DIAG_MAX_LOGS : Z := 16.
Definition SECBOOT_BACKUP_IMAGE_ADDR : Z := 0x08073000.

Definition BOOTLOADER_START_ADDR : Z := 0x0C000000.
Definition AES_KEY_OFFSET : Z := BOOTLOADER_START_ADDR + 0x8000.
Definition AES_KEY_SIZE : Z := 32.
Definition AES_IV_OFFSET : Z := BOOTLOADER_START_ADDR + 0x8020.
Definition AES_IV_SIZE : Z := 16.
Definition ECC_PUBKEY_OFFSET : Z := BOOTLOADER_START_ADDR + 0x8030.
Definition FW_MAGIC_NUMBER : Z := 0xDEADBEEF.
Definition FW_HASH_SIZE : Z := 32.
Definition FW_SIGNATURE_SIZE : Z := 64.

Definition AES_BLOCK_SIZE : Z := 16.
Definition KEY_WORD_SIZE : Z := 4.
Definition IV_WORD_SIZE : Z := 4.

Definition SECBOOT_ECDSA_SHA256_DIGEST_SIZE : Z := 32.

(** Event types ([SECBOOT_Diag_EventType]).  The logger range-checks the
    value it receives, so the type is kept as the integer C passes. *)
Definition SECBOOT_DIAG_CRC_FAIL : Z := 0x10.
Definition SECBOOT_DIAG_SIG_FAIL : Z := 0x20.
Definition SECBOOT_DIAG_SECURE_VIOLATION : Z := 0x30.
Definition SECBOOT_DIAG_ROLLBACK_ATTEMPT : Z := 0x40.

(** Failure codes used by the recovery path. *)
Definition SIG_FAIL_BACKUP_IMAGE : Z := 0x21.
Definition ROLLBACK_NORMAL_RECOVERY : Z := 0x40.
Definition ROOLBACK_JUMP_FAILED : Z := 0x45.

(** Offsets of the packed [FirmwareHeader_TypeDef]. *)
Definition OFS_magicNumber : Z := 0.
Definition OFS_imageSize : Z := 4.
Definition OFS_version : Z := 8.
Definition OFS_entryPoint : Z := 12.
Definition OFS_firmwareHash : Z := 16.
Definition OFS_signature : Z := 48.
Definition OFS_headerCRC : Z := 112.

(** ** Machine state *)

(** Calls of the boot manager and diagnostics API, recorded as they are
    entered (ghost state: the C code keeps no such record). *)
Inductive call : Type :=
| CallLogEvent (event code data : Z)
| CallVerifyAppSignature (image_address : Z)
| CallJumpTo (image_address : Z)
| CallRecovery
| CallLockdown.

(** Operations handed to the peripherals (ghost state as well). *)
Inductive hw_op : Type :=
| OpCrc (data : list byte)
| OpFlashProgram (addr data : Z)
| OpHash (pInput inputLength : Z)
| OpEcdsaVerif (digest : list byte)
| OpGpioWrite.

Record machine : Type := mkMachine {
  memory : mem;                 (* flash and RAM *)
  log_index : Z;                (* [static uint32_t log_index] of the logger *)
  uwTick : Z;                   (* the HAL tick counter behind HAL_GetTick *)
  stack_residue : nat -> byte;  (* stale stack bytes around the logger's [entry] *)
  calls : list call;            (* newest first *)
  hw : list hw_op               (* newest first *)
}.

Definition set_memory (m : mem) (s : machine) : machine :=
  mkMachine m (log_index s) (uwTick s) (stack_residue s) (calls s) (hw s).

Definition set_log_index (i : Z) (s : machine) : machine :=
  mkMachine (memory s) i (uwTick s) (stack_residue s) (calls s) (hw s).

Definition record_call (c : call) (s : machine) : machine :=
  mkMachine (memory s) (log_index s) (uwTick s) (stack_residue s) (c :: calls s) (hw s).

Definition record_hw (o : hw_op) (s : machine) : machine :=
  mkMachine (memory s) (log_index s) (uwTick s) (stack_residue s) (calls s) (o :: hw s).

Definition HAL_GetTick (s : machine) : Z := u32 (uwTick s).

(** ** The vendor HAL as an interface

    The answers of the peripherals.  Nothing below depends on how they are
    computed: the CRC unit, the HASH and PKA engines, the AES engine and the
    flash controller are collaborators. *)
Class HAL : Type := {
  (* CRC unit, configured by SECBOOT_CRC_Init; the buffer is given as bytes *)
  HAL_CRC_Calculate : list byte -> Z;
  (* HAL_FLASH_Program(FLASH_TYPEPROGRAM_DOUBLEWORD, addr, data) *)
  HAL_FLASH_Program : mem -> Z -> Z -> HAL_StatusTypeDef * mem;
  (* HASH peripheral *)
  HAL_HASHEx_SHA256_Start : list byte -> HAL_StatusTypeDef;
  HAL_HASHEx_SHA256_Finish : list byte -> HAL_StatusTypeDef * list byte;
  (* PKA peripheral: digest, R, S, Qx, Qy *)
  HAL_PKA_GetState : HAL_PKA_StateTypeDef;
  get_prime256v1_curve : bool;   (* the pointer returned is not NULL *)
  HAL_PKA_ECDSAVerif :
    list byte -> list byte -> list byte -> list byte -> list byte -> HAL_StatusTypeDef;
  HAL_PKA_ECDSAVerif_IsValidSignature :
    list byte -> list byte -> list byte -> list byte -> list byte -> bool;
  (* device identity *)
  HAL_GetUIDw0 : Z;
  HAL_GetUIDw1 : Z;
  HAL_GetUIDw2 : Z;
  (* AES engine: key words, IV words, input words *)
  HAL_CRYP_Init : HAL_StatusTypeDef;
  HAL_CRYP_Decrypt : list Z -> list Z -> list Z -> HAL_StatusTypeDef * list Z;
  HAL_CRYP_DeInit : HAL_StatusTypeDef;
  (* the non-secure image's reset handler, entered at the given address:
     [None] when it never returns, the memory it leaves otherwise *)
  NonSecureApp_ResetHandler : Z -> mem -> option mem
}.

(** ** Outcomes of functions that may not return *)

Inductive outcome (A : Type) : Type :=
| Returns (a : A) (s : machine)       (* control comes back to the caller *)
| Halted (s : machine)                (* [while(1);] *)
| Transferred (target : Z) (s : machine)  (* the non-secure image runs *)
| OutOfFuel.                          (* artefact of the encoding of recursion *)

Arguments Returns {A} a s.
Arguments Halted {A} s.
Arguments Transferred {A} target s.
Arguments OutOfFuel {A}.

Definition M (A : Type) : Type := machine -> outcome A.

Definition ret {A : Type} (a : A) : M A := fun s => Returns a s.

Definition bind {A B : Type} (c : M A) (k : A -> M B) : M B :=
  fun s =>
    match c s with
    | Returns a s' => k a s'
    | Halted s' => Halted s'
    | Transferred t s' => Transferred t s'
    | OutOfFuel => OutOfFuel
    end.

(** A function that always returns, lifted. *)
Definition lift {A : Type} (f : machine -> A * machine) : M A :=
  fun s => let '(a, s') := f s in Returns a s'.

Notation "x <- c ;; k" := (bind c (fun x => k))
  (at level 61, c at next level, right associativity).
Notation "c ;;; k" := (bind c (fun _ => k))
  (at level 61, right associativity).

(** The final machine state of an outcome, when there is one. *)
Definition final_state {A : Type} (o : outcome A) : option machine :=
  match o with
  | Returns _ s | Halted s | Transferred _ s => Some s
  | OutOfFuel => None
  end.

(** ** secboot_crc.c *)

Section Crc.
Context {hal : HAL}.

(** [SECBOOT_CRC_Calculate(pData, dataLength, pCrcResult)].  A pointer is
    [None] when it is NULL; the buffer is given with the [dataLength] bytes
    it holds, the cell behind [pCrcResult] with its current value.  The
    result is the status, the new content of the cell and the machine. *)
Definition SECBOOT_CRC_Calculate (pData : option (list byte)) (pCrcResult : option Z)
  (s : machine) : SECBOOT_CRC_StatusTypeDef * option Z * machine :=
  match pData, pCrcResult with
  | Some data, Some _ =>
      (SECBOOT_CRC_OK, Some (u32 (HAL_CRC_Calculate data)), record_hw (OpCrc data) s)
  | _, _ => (SECBOOT_CRC_INVALID_PARAM, pCrcResult, s)
  end.

End Crc.

(** ** secboot_sha256.c *)

Section Sha256.
Context {hal : HAL}.

(** [SECBOOT_SHA256_Compute(pInput, inputLength, pOutputHash)] with
    [pOutputHash] pointing to a 32-byte local buffer whose content is
    [out].  Returns the status, the buffer afterwards and the machine. *)
Definition SECBOOT_SHA256_Compute (pInput inputLength : Z) (out : list byte) (s : machine)
  : SECBOOT_SHA_StatusTypeDef * list byte * machine :=
  if pInput =? 0 then (SECBOOT_SHA256_ERROR_NULL_PTR, out, s)
  else if inputLength =? 0 then (SECBOOT_SHA256_ERROR_INVALID_LENGTH, out, s)
  else
    let data := load_bytes (memory s) pInput (Z.to_nat inputLength) in
    let s1 := record_hw (OpHash pInput inputLength) s in
    match HAL_HASHEx_SHA256_Start data with
    | HAL_OK =>
        match HAL_HASHEx_SHA256_Finish data with
        | (HAL_OK, digest) => (SECBOOT_SHA256_OK, fit Byte.x00 32 digest, s1)
        | (_, digest) => (SECBOOT_SHA256_ERROR_COMPUTE, fit Byte.x00 32 digest, s1)
        end
    | _ => (SECBOOT_SHA256_ERROR_COMPUTE, out, s1)
    end.

End Sha256.

(** ** secboot_ecdsa.c *)

Section Ecdsa.
Context {hal : HAL}.

(** [SECBOOT_ECDSA_Verify_Signature(pDigest, DigestLen, pSignature, pPubKey)]:
    the digest is a local buffer, signature and public key are addresses
    ([SECBOOT_ECC_Signature] is R then S, [SECBOOT_ECC_PublicKey] Qx then Qy,
    32 bytes each). *)
Definition SECBOOT_ECDSA_Verify_Signature
  (pDigest : list byte) (DigestLen : Z) (pSignature pPubKey : Z) (s : machine)
  : SECBOOT_ECDSA_StatusTypeDef * machine :=
  if (pSignature =? 0) || (pPubKey =? 0) then (SECBOOT_ECDSA_INVALID_PARAM, s)
  else if negb (DigestLen =? SECBOOT_ECDSA_SHA256_DIGEST_SIZE) then (SECBOOT_ECDSA_INVALID_PARAM, s)
  else
    match HAL_PKA_GetState with
    | HAL_PKA_STATE_READY =>
        if negb get_prime256v1_curve then (SECBOOT_ECDSA_ERROR, s)
        else
          let R := load_bytes (memory s) pSignature 32 in
          let S := load_bytes (memory s) (pSignature + 32) 32 in
          let Qx := load_bytes (memory s) pPubKey 32 in
          let Qy := load_bytes (memory s) (pPubKey + 32) 32 in
          let s1 := record_hw (OpEcdsaVerif pDigest) s in
          match HAL_PKA_ECDSAVerif pDigest R S Qx Qy with
          | HAL_OK =>
              if HAL_PKA_ECDSAVerif_IsValidSignature pDigest R S Qx Qy
              then (SECBOOT_ECDSA_VERIFICATION_SUCCESS, s1)
              else (SECBOOT_ECDSA_VERIFICATION_FAIL, s1)
          | HAL_TIMEOUT => (SECBOOT_ECDSA_PKA_TIMEOUT, s1)
          | _ => (SECBOOT_ECDSA_PKA_COMP_ERROR, s1)
          end
    | _ => (SECBOOT_ECDSA_INVALID_STATE, s)
    end.

End Ecdsa.

(** ** secboot_aes.c *)

Module AES.

(** [size_t] on the 32-bit target. *)
Definition size_t (z : Z) : Z := z mod 2 ^ 32.

Definition uint16_t (z : Z) : Z := z mod 2 ^ 16.

(** [PKCS7_Pad(input, len, output, out_len)]: [len] is the length of the
    input buffer; the result is the status, the bytes written to [output]
    and [*out_len]. *)
Definition PKCS7_Pad (input : list byte) : PKCS7_Status * list byte * Z :=
  let len := size_t (Z.of_nat (length input)) in
  let pad_len := u8 (AES_BLOCK_SIZE - len mod AES_BLOCK_SIZE) in
  let output := input ++ repeat (byte.of_Z pad_len) (Z.to_nat pad_len) in
  (PKCS7_PAD_OK, output, size_t (len + pad_len)).

(** The validation loop of [PKCS7_Unpad]:
    [for (i = 0; i < pad; i++) if (input[input_len - 1 - i] != pad) return NOK]. *)
Fixpoint padding_bytes_ok (input : list byte) (input_len pad i : Z) (n : nat) : bool :=
  match n with
  | O => true
  | S k =>
      if byte.unsigned (nth (Z.to_nat (input_len - 1 - i)) input Byte.x00) =? pad
      then padding_bytes_ok input input_len pad (i + 1) k
      else false
  end.

(** [PKCS7_Unpad(input, input_len, output, output_len)].  [input] is [None]
    for a NULL pointer; [output_null] and [output_len_null] say whether the
    two out-pointers are NULL.  The result is the status and, when something
    was written, the bytes copied to [output] with [*output_len]. *)
Definition PKCS7_Unpad (input : option (list byte)) (input_len : Z)
  (output_null output_len_null : bool) : PKCS7_Status * option (list byte * Z) :=
  match input with
  | None => (PKCS7_UNPAD_NOK, None)
  | Some inp =>
      if output_null || output_len_null then (PKCS7_UNPAD_NOK, None)
      else if (input_len =? 0) || negb (input_len mod AES_BLOCK_SIZE =? 0)
      then (PKCS7_UNPAD_NOK, None)
      else
        let pad := byte.unsigned (nth (Z.to_nat (input_len - 1)) inp Byte.x00) in
        if (pad =? 0) || (pad >? AES_BLOCK_SIZE) || (pad >? input_len)
        then (PKCS7_UNPAD_NOK, None)
        else if negb (padding_bytes_ok inp input_len pad 0 (Z.to_nat pad))
        then (PKCS7_UNPAD_NOK, None)
        else
          let output_len := input_len - pad in
          (PKCS7_UNPAD_OK, Some (firstn (Z.to_nat output_len) inp, output_len))
  end.

(** One big-endian word out of four bytes. *)
Definition be_word (b0 b1 b2 b3 : byte) : Z :=
  Z.lor (Z.lor (Z.lor (Z.shiftl (byte.unsigned b0) 24) (Z.shiftl (byte.unsigned b1) 16))
               (Z.shiftl (byte.unsigned b2) 8))
        (byte.unsigned b3).

(** [a[i] = v].  A store past the end of the modelled array is dropped
    (in C it lands in whatever follows the array). *)
Fixpoint upd (a : list Z) (i : nat) (v : Z) : list Z :=
  match a, i with
  | [], _ => []
  | _ :: a', O => v :: a'
  | x :: a', S j => x :: upd a' j v
  end.

Fixpoint bytes_to_uint32_be_loop (input : list byte) (output : list Z) (i n : nat) : list Z :=
  match n with
  | O => output
  | S k =>
      let w := be_word (nth (4 * i + 0) input Byte.x00) (nth (4 * i + 1) input Byte.x00)
                       (nth (4 * i + 2) input Byte.x00) (nth (4 * i + 3) input Byte.x00) in
      bytes_to_uint32_be_loop input (upd output i w) (S i) k
  end.

(** [bytes_to_uint32_be(input, input_len, output)]: [input_len / 4] words
    are stored from index 0. *)
Definition bytes_to_uint32_be (input : list byte) (input_len : Z) (output : list Z) : list Z :=
  bytes_to_uint32_be_loop input output 0 (Z.to_nat (input_len / 4)).

(** [uint32_to_bytes_be(input, word_count, output)]. *)
Definition uint32_to_bytes_be (input : list Z) (word_count : nat) : list byte :=
  flat_map (fun w => [byte.of_Z (Z.shiftr w 24); byte.of_Z (Z.shiftr w 16);
                      byte.of_Z (Z.shiftr w 8); byte.of_Z w])
           (firstn word_count input).

(** [SECBOOT_AES_Context], without the HAL handle. *)
Record SECBOOT_AES_Context : Type := mkCtx {
  ctx_key : list Z;
  ctx_iv : list Z
}.

Definition zero_words (n : nat) : list Z := repeat 0 n.

Section WithHAL.
Context {hal : HAL}.

(** [SECBOOT_AES_Init(ctx, key, iv)]; [None] is a NULL pointer.  Returns the
    status and the context afterwards. *)
Definition SECBOOT_AES_Init (ctx : option SECBOOT_AES_Context) (key iv : option (list Z))
  : SECBOOT_AES_StatusTypeDef * option SECBOOT_AES_Context :=
  match ctx, key, iv with
  | Some _, Some k, Some v =>
      let c := mkCtx (fit 0 (Z.to_nat KEY_WORD_SIZE) k) (fit 0 (Z.to_nat IV_WORD_SIZE) v) in
      match HAL_CRYP_Init with
      | HAL_OK => (SECBOOT_AES_OK, Some c)
      | _ => (SECBOOT_AES_ERROR, Some c)
      end
  | _, _, _ => (SECBOOT_AES_INVALID_PARAM, ctx)
  end.

(** [SECBOOT_AES_DeInit(ctx)]. *)
Definition SECBOOT_AES_DeInit (ctx : option SECBOOT_AES_Context)
  : SECBOOT_AES_StatusTypeDef * option SECBOOT_AES_Context :=
  match ctx with
  | None => (SECBOOT_AES_INVALID_PARAM, None)
  | Some c =>
      match HAL_CRYP_DeInit with
      | HAL_OK =>
          (SECBOOT_AES_OK,
           Some (mkCtx (zero_words (Z.to_nat KEY_WORD_SIZE)) (zero_words (Z.to_nat IV_WORD_SIZE))))
      | _ => (SECBOOT_AES_ERROR, Some c)
      end
  end.

(** [SECBOOT_AES_Decrypt(ctx, ciphertext, ciphertext_len, plaintext, plaintext_len)]:
    [ciphertext_len] counts words; the HAL takes the count as a [uint16_t],
    so the engine is handed [ciphertext_len mod 65536] words, and the
    elements of [plaintextPadded_words] it leaves read 0 here.  Returns the
    status and, on success, the bytes copied to [plaintext] with
    [*plaintext_len]. *)
Definition SECBOOT_AES_Decrypt (ctx : SECBOOT_AES_Context) (ciphertext : list Z)
  (ciphertext_len : Z) : SECBOOT_AES_StatusTypeDef * option (list byte * Z) :=
  let plaintextPadded_words_len := ciphertext_len in
  let plaintextPadded_bytes_len := ciphertext_len * 4 in
  match HAL_CRYP_Decrypt (ctx_key ctx) (ctx_iv ctx)
          (firstn (Z.to_nat (uint16_t ciphertext_len)) ciphertext) with
  | (HAL_OK, out) =>
      let plaintextPadded_words := fit 0 (Z.to_nat plaintextPadded_words_len) out in
      let plaintextPadded_bytes :=
        uint32_to_bytes_be plaintextPadded_words (Z.to_nat plaintextPadded_words_len) in
      match PKCS7_Unpad (Some plaintextPadded_bytes) plaintextPadded_bytes_len false false with
      | (PKCS7_UNPAD_OK, Some (unpadded, n)) => (SECBOOT_AES_OK, Some (unpadded, n))
      | _ => (SECBOOT_AES_PADDING_ERROR, None)
      end
  | _ => (SECBOOT_AES_ERROR, None)
  end.

End WithHAL.

End AES.

(** ** secboot_bootmanager.c *)

Module BootManager.
Import AES.

(** [AES_Secrets_TypeDef]. *)
Record AES_Secrets_TypeDef : Type := mkSecrets {
  AES_key : list Z;
  AES_iv : list Z
}.

(** The locals of [get_AES_key] as they stand when it returns.  [Aes_key]
    is declared with [KEY_WORD_SIZE] = 4 words, but the function indexes it
    up to [AES_KEY_SIZE/sizeof(uint32_t)] = 8 words: [Aes_key_region] is the
    array followed by the four words that come after it in the frame.
    [Aes_iv] is declared with [AES_IV_SIZE] = 16 words, of which the first
    four are used. *)
Record key_frame : Type := mkFrame {
  AES_ctx : SECBOOT_AES_Context;
  Aes_key_region : list Z;
  Aes_iv : list Z;
  temp_key : list Z;
  temp_iv : list Z;
  decrypted_key : list byte
}.

(** The key validation loop:
    [for (i = 0; i < AES_KEY_SIZE/sizeof(uint32_t); i++)
       if (Aes_key[i] != 0 && Aes_key[i] != 0xFFFFFFFF) { valid_key = true; break; }]. *)
Fixpoint key_validation_loop (Aes_key : list Z) (i n : nat) : bool :=
  match n with
  | O => false
  | S k =>
      let w := nth i Aes_key 0 in
      if negb (w =? 0x00000000) && negb (w =? 0xFFFFFFFF) then true
      else key_validation_loop Aes_key (S i) k
  end.

Section WithHAL.
Context {hal : HAL}.

(** [get_AES_key(AES_secret)].  [after_Aes_key] is what the four stack
    words following [Aes_key] hold (which local they belong to, if any, is
    the compiler's choice: the model keeps them apart from the other
    buffers); the result is the status, the secrets written through
    [AES_secret] and the locals at return.  When the decrypted key is 20
    bytes or longer, [bytes_to_uint32_be] also stores past the array; these
    stores are kept in [Aes_key_region], so what the result says of the
    other locals describes the code for shorter keys only. *)
Definition get_AES_key (after_Aes_key : list Z) (m : mem)
  : SECBOOT_AES_StatusTypeDef * AES_Secrets_TypeDef * key_frame :=
  let AES_ctx0 := mkCtx (zero_words 4) (zero_words 4) in
  let Aes_key0 := zero_words (Z.to_nat KEY_WORD_SIZE) ++ fit 0 4 after_Aes_key in
  let decrypted_key0 := repeat Byte.x00 (Z.to_nat AES_KEY_SIZE) in
  let status0 := SECBOOT_AES_ERROR in
  (* 1. temporary key from the device UID *)
  let temp_key1 := [u32 HAL_GetUIDw0; u32 HAL_GetUIDw1; u32 HAL_GetUIDw2; FW_MAGIC_NUMBER] in
  let temp_iv1 := load_words m AES_IV_OFFSET (Z.to_nat (AES_IV_SIZE / 4)) in
  let Aes_iv1 := load_words m AES_IV_OFFSET (Z.to_nat (AES_IV_SIZE / 4))
                 ++ zero_words (Z.to_nat (AES_IV_SIZE - AES_IV_SIZE / 4)) in
  (* 3. - 5. *)
  let '(ctx1, Aes_key1, decrypted_key1, status1) :=
    match SECBOOT_AES_Init (Some AES_ctx0) (Some temp_key1) (Some temp_iv1) with
    | (SECBOOT_AES_OK, Some c) =>
        match SECBOOT_AES_Decrypt c (load_words m AES_KEY_OFFSET (Z.to_nat (AES_KEY_SIZE / 4)))
                                  (AES_KEY_SIZE / 4) with
        | (SECBOOT_AES_OK, Some (plain, decrypted_key_len)) =>
            let dk := fit Byte.x00 (Z.to_nat AES_KEY_SIZE) plain in
            let k := bytes_to_uint32_be dk decrypted_key_len Aes_key0 in
            let valid_key := key_validation_loop k 0 (Z.to_nat (AES_KEY_SIZE / 4)) in
            (c, k, dk, if valid_key then SECBOOT_AES_OK else SECBOOT_AES_ERROR)
        | _ => (c, Aes_key0, decrypted_key0, status0)
        end
    | (_, Some c) => (c, Aes_key0, decrypted_key0, status0)
    | (_, None) => (AES_ctx0, Aes_key0, decrypted_key0, status0)
    end in
  (* 6. secure memory cleanup: the three loops *)
  let temp_key2 := map (fun _ => 0x00000000) temp_key1 in
  let temp_iv2 := map (fun _ => 0x00000000) temp_iv1 in
  let decrypted_key2 := map (fun _ => Byte.x00) decrypted_key1 in
  let secret := mkSecrets (firstn (Z.to_nat (AES_IV_SIZE / 4)) Aes_key1)
                          (firstn (Z.to_nat (AES_IV_SIZE / 4)) Aes_iv1) in
  let '(status2, ctx2) :=
    match SECBOOT_AES_DeInit (Some ctx1) with
    | (SECBOOT_AES_OK, Some c) => (status1, c)
    | (_, Some c) => (SECBOOT_AES_ERROR, c)
    | (_, None) => (SECBOOT_AES_ERROR, ctx1)
    end in
  (status2, secret, mkFrame ctx2 Aes_key1 Aes_iv1 temp_key2 temp_iv2 decrypted_key2).

(** [SECBOOT_BootManager_VerifyAppSignature(image_address)].  The header is
    read in place through [pAppHeader]; [public_key] and [signature] are
    pointers to the provisioned key and into the header, so the closing
    [memset]s store to those addresses (memory is a plain byte store here:
    the stores take effect; a write-protected flash faults at the first of
    them instead).  The [memset] of the local digest
    buffer [pDigitApp] leaves no trace in the machine. *)
Definition SECBOOT_BootManager_VerifyAppSignature (image_address : Z) (s0 : machine)
  : SECBOOT_BOOTMANAGER_StatusTypeDef * machine :=
  let s := record_call (CallVerifyAppSignature image_address) s0 in
  let pDigitApp := repeat Byte.x00 (Z.to_nat FW_HASH_SIZE) in
  let pAppHeader := image_address in
  let pAppBinary := load32 (memory s) (pAppHeader + OFS_entryPoint) in
  (* 1. magic number *)
  if negb (load32 (memory s) (pAppHeader + OFS_magicNumber) =? FW_MAGIC_NUMBER)
  then (SECBOOT_BOOTMANAGER_INVALID_HEADER, s)
  else
    (* 2. hash of the payload *)
    match SECBOOT_SHA256_Compute pAppBinary (load32 (memory s) (pAppHeader + OFS_imageSize))
                                 pDigitApp s with
    | (SECBOOT_SHA256_OK, digest, s1) =>
        if negb (bytes_eqb digest
                   (load_bytes (memory s1) (pAppHeader + OFS_firmwareHash) (Z.to_nat FW_HASH_SIZE)))
        then (SECBOOT_BOOTMANAGER_INVALID_HASH, s1)
        else
          (* 3. signature *)
          let public_key := ECC_PUBKEY_OFFSET in
          let signature := pAppHeader + OFS_signature in
          match SECBOOT_ECDSA_Verify_Signature digest FW_HASH_SIZE signature public_key s1 with
          | (SECBOOT_ECDSA_VERIFICATION_SUCCESS, s2) =>
              let m1 := memset (memory s2) public_key Byte.x00 64 in
              let m2 := memset m1 signature Byte.x00 64 in
              (SECBOOT_BOOTMANAGER_OK, set_memory m2 s2)
          | (_, s2) => (SECBOOT_BOOTMANAGER_INVALID_SIGNATURE, s2)
          end
    | (_, _, s1) => (SECBOOT_BOOTMANAGER_ERROR, s1)
    end.

(** [SECBOOT_BootManager_JumpTo(jump_to_address)]: the vector table and the
    stack pointer of the non-secure world are set from the header's entry
    point, then the reset handler found at [entryPoint + 4] is called. *)
Definition SECBOOT_BootManager_JumpTo (jump_to_address : Z)
  : M SECBOOT_BOOTMANAGER_StatusTypeDef :=
  fun s0 =>
    let s := record_call (CallJumpTo jump_to_address) s0 in
    let entryPoint := load32 (memory s) (jump_to_address + OFS_entryPoint) in
    let NonSecureApp := load32 (memory s) (entryPoint + 4) in
    match NonSecureApp_ResetHandler NonSecureApp (memory s) with
    | None => Transferred NonSecureApp s
    | Some m' => Returns SECBOOT_BOOTMANAGER_JUMP_FAILED (set_memory m' s)
    end.

End WithHAL.

(** A firmware version: [uint8_t version[FW_VERSION_SIZE]],
    major.minor.patch.build. *)
Record Version : Type := mkVersion {
  major : byte;
  minor : byte;
  patch : byte;
  build : byte
}.

Definition version_bytes (v : Version) : list byte :=
  [major v; minor v; patch v; build v].

(** Modelled from the spec: the "lexicographic 4-tuple compare" of
    [check_rollback], as a comparison of two byte strings, first byte most
    significant. *)
Fixpoint lex_compare (a b : list byte) : comparison :=
  match a, b with
  | [], [] => Eq
  | [], _ :: _ => Lt
  | _ :: _, [] => Gt
  | x :: a', y :: b' =>
      match byte.unsigned x ?= byte.unsigned y with
      | Eq => lex_compare a' b'
      | c => c
      end
  end.

(** Modelled from the spec: [SECBOOT_BootManager_CheckRollbackProtection] is
    declared in secboot_bootmanager.h, its body is not among the sources.
    The spec: "lexicographic 4-tuple compare; candidate <= current =>
    VERSION_ROLLBACK; else OK". *)
Definition SECBOOT_BootManager_CheckRollbackProtection (currentVersion newVersion : Version)
  : SECBOOT_BOOTMANAGER_StatusTypeDef :=
  match lex_compare (version_bytes newVersion) (version_bytes currentVersion) with
  | Gt => SECBOOT_BOOTMANAGER_OK
  | _ => SECBOOT_BOOTMANAGER_VERSION_ROLLBACK
  end.

(** The version as one number, major byte most significant. *)
Definition version_number (v : Version) : Z :=
  ((byte.unsigned (major v) * 256 + byte.unsigned (minor v)) * 256
   + byte.unsigned (patch v)) * 256 + byte.unsigned (build v).

End BootManager.

(** ** secboot_diag.c *)

Module Diag.
Import BootManager.

(** [SECBOOT_Diag_LogEntry]. *)
Record SECBOOT_Diag_LogEntry : Type := mkEntry {
  timestamp : Z;
  event : Z;
  error_code : Z;
  context_data : Z;
  crc : Z
}.

(** The object representation of an entry: little-endian 32-bit fields, the
    event type held in a 32-bit word, three padding bytes after
    [error_code]; [sizeof(entry)] is 20 and the CRC field is the last word.
    (This is the layout with [int]-sized enumerations; a compiler that packs
    enumerations into one byte makes the object 16 bytes, with the fields
    after [timestamp] at other offsets.  The first word is the tick and the
    object ends within 20 bytes either way.)
    Padding bytes are never written by the logger: they hold the stack's
    stale content, [residue k] at offset [k] from [&entry]. *)
Definition entry_bytes (residue : nat -> byte) (e : SECBOOT_Diag_LogEntry) : list byte :=
  le_split 4 (timestamp e) ++ le_split 4 (event e)
  ++ [byte.of_Z (error_code e)] ++ map residue (seq 9 3)
  ++ le_split 4 (context_data e) ++ le_split 4 (crc e).

Definition sizeof_entry : nat := 20.
Definition sizeof_crc : nat := 4.

(** What [pData[0 .. SECBOOT_DIAG_LOG_SIZE/8 - 1]] reads through
    [(uint64_t* )&entry]: the 20 bytes of the entry, then the 44 bytes that
    follow it on the stack. *)
Definition entry_window (residue : nat -> byte) (e : SECBOOT_Diag_LogEntry) : list byte :=
  entry_bytes residue e ++ map residue (seq 20 44).

(** [n] little-endian 64-bit words out of a byte buffer. *)
Fixpoint doublewords (bs : list byte) (n : nat) : list Z :=
  match n with
  | O => []
  | S k => le_combine (firstn 8 bs) :: doublewords (skipn 8 bs) k
  end.

(** The stored CRC of an entry read back as bytes ([written_entry.crc]). *)
Definition stored_crc (written : list byte) : Z :=
  le_combine (firstn sizeof_crc (skipn (sizeof_entry - sizeof_crc) written)).

(** The fields the CRC covers ([sizeof(entry) - sizeof(entry.crc)] bytes). *)
Definition crc_covered (object : list byte) : list byte :=
  firstn (sizeof_entry - sizeof_crc) object.

Section WithHAL.
Context {hal : HAL}.

(** The programming loop
    [for (i = 0; i < SECBOOT_DIAG_LOG_SIZE/8; i++)
       if (HAL_FLASH_Program(DOUBLEWORD, log_addr + i*8, pData[i]) != HAL_OK) return ERROR]:
    the status of the last call made and the machine afterwards. *)
Fixpoint program_entry (log_addr : Z) (pData : list Z) (i : Z) (s : machine)
  : HAL_StatusTypeDef * machine :=
  match pData with
  | [] => (HAL_OK, s)
  | d :: rest =>
      let '(st, m') := HAL_FLASH_Program (memory s) (log_addr + i * 8) d in
      let s' := set_memory m' (record_hw (OpFlashProgram (log_addr + i * 8) d) s) in
      match st with
      | HAL_OK => program_entry log_addr rest (i + 1) s'
      | _ => (st, s')
      end
  end.

(** [SECBOOT_Diag_LogEvent(event, code, data)].  [HAL_FLASH_Unlock] and
    [HAL_FLASH_Lock] bracket the programming; whether a locked controller
    accepts a double word is part of [HAL_FLASH_Program]'s answer. *)
Definition SECBOOT_Diag_LogEvent (event code data : Z) (s0 : machine)
  : SECBOOT_Diag_TypeDef * machine :=
  let s := record_call (CallLogEvent event code data) s0 in
  (* 1. parameters *)
  if event >? SECBOOT_DIAG_ROLLBACK_ATTEMPT then (SECBOOT_DIAG_INVALID_PARAM, s)
  else
    (* 2. the entry, [entry.crc = 0] *)
    let entry := mkEntry (HAL_GetTick s) event (u8 code) (u32 data) 0 in
    let temp_crc := crc entry in
    match SECBOOT_CRC_Calculate (Some (crc_covered (entry_bytes (stack_residue s) entry)))
                                (Some temp_crc) s with
    | (SECBOOT_CRC_OK, _, sa) =>
        (* 4.1 next position *)
        let log_addr := u32 (SECBOOT_DIAG_LOG_BASE + log_index sa * SECBOOT_DIAG_LOG_SIZE) in
        (* 4.2 erased? *)
        if negb (load32 (memory sa) log_addr =? 0xFFFFFFFF) then (SECBOOT_DIAG_TAMPERED, sa)
        else
          (* 4.3 program [entry] in 64-bit chunks *)
          let pData := doublewords (entry_window (stack_residue sa) entry)
                                   (Z.to_nat (SECBOOT_DIAG_LOG_SIZE / 8)) in
          match program_entry log_addr pData 0 sa with
          | (HAL_OK, sb) =>
              (* 5. index *)
              let sc := set_log_index ((log_index sb + 1) mod SECBOOT_DIAG_MAX_LOGS) sb in
              (* 6. read back and verify *)
              let written_entry := load_bytes (memory sc) log_addr sizeof_entry in
              match SECBOOT_CRC_Calculate (Some (crc_covered written_entry)) (Some 0) sc with
              | (SECBOOT_CRC_OK, Some verify_crc, sd) =>
                  if negb (stored_crc written_entry =? verify_crc)
                  then (SECBOOT_DIAG_TAMPERED, sd)
                  else (SECBOOT_DIAG_OK, sd)
              | (_, _, sd) => (SECBOOT_DIAG_ERROR, sd)
              end
          | (_, sb) => (SECBOOT_DIAG_ERROR, sb)
          end
    | (_, _, sa) => (SECBOOT_DIAG_ERROR, sa)
    end.

Definition get_tick : M Z := fun s => Returns (HAL_GetTick s) s.

(** [system_lockdown()]: [while(1);]. *)
Definition system_lockdown : M unit :=
  fun s => Halted (record_call CallLockdown s).

(** [try_recovery_from_backup()].  It calls [SECBOOT_Diag_ExecuteResponse],
    which calls it: the executor is an argument here and the knot is tied
    in [ExecuteResponse_fuel]. *)
Definition try_recovery_from_backup
  (ExecuteResponse : SECBOOT_Diag_ResponseLevel -> M unit) : M unit :=
  fun s0 =>
    (* 1. log the attempt *)
    (t <- get_tick ;;
     lift (SECBOOT_Diag_LogEvent SECBOOT_DIAG_ROLLBACK_ATTEMPT ROLLBACK_NORMAL_RECOVERY t) ;;;
     (* 2. verify the backup *)
     st <- lift (SECBOOT_BootManager_VerifyAppSignature SECBOOT_BACKUP_IMAGE_ADDR) ;;
     if negb (bootmanager_is_OK st) then
       (* 3. log the signature failure *)
       lift (SECBOOT_Diag_LogEvent SECBOOT_DIAG_ROLLBACK_ATTEMPT SIG_FAIL_BACKUP_IMAGE 0) ;;;
       ExecuteResponse SECBOOT_DIAG_RESP_LOCKDOWN ;;;
       ret tt
     else
       (* 4. jump *)
       jst <- SECBOOT_BootManager_JumpTo SECBOOT_BACKUP_IMAGE_ADDR ;;
       (if negb (bootmanager_is_OK jst) then
          (* 5. log the jump failure *)
          t' <- get_tick ;;
          lift (SECBOOT_Diag_LogEvent SECBOOT_DIAG_ROLLBACK_ATTEMPT ROOLBACK_JUMP_FAILED t') ;;;
          ret tt
        else ret tt) ;;;
       (* 6. final fallback *)
       ExecuteResponse SECBOOT_DIAG_RESP_LOCKDOWN ;;;
       (fun s => Halted s))
      (record_call CallRecovery s0).

(** [SECBOOT_Diag_ExecuteResponse(level)], with fuel for the call back from
    [try_recovery_from_backup]. *)
Fixpoint ExecuteResponse_fuel (fuel : nat) (level : SECBOOT_Diag_ResponseLevel) : M unit :=
  match level with
  | SECBOOT_DIAG_RESP_WARN => fun s => Returns tt (record_hw OpGpioWrite s)
  | SECBOOT_DIAG_RESP_RECOVER =>
      match fuel with
      | O => fun _ => OutOfFuel
      | S f => try_recovery_from_backup (ExecuteResponse_fuel f)
      end
  | SECBOOT_DIAG_RESP_LOCKDOWN => system_lockdown
  | SECBOOT_DIAG_RESP_NONE => ret tt
  end.

(** The recovery path only calls back with LOCKDOWN, which needs no fuel:
    one unit is enough (see [ExecuteResponse_fuel_enough]). *)
Definition SECBOOT_Diag_ExecuteResponse : SECBOOT_Diag_ResponseLevel -> M unit :=
  ExecuteResponse_fuel 1.

(** [SECBOOT_Diag_HandleCrcFail(status)]. *)
Definition SECBOOT_Diag_HandleCrcFail (status : SECBOOT_CRC_StatusTypeDef)
  : M SECBOOT_Diag_ResponseLevel :=
  (* 1. always log first *)
  t <- get_tick ;;
  lift (SECBOOT_Diag_LogEvent SECBOOT_DIAG_CRC_FAIL (u8 (crc_status_value status)) t) ;;;
  (* 2. response *)
  let response :=
    match status with
    | SECBOOT_CRC_MISMATCH => SECBOOT_DIAG_RESP_RECOVER
    | SECBOOT_CRC_INVALID_PARAM => SECBOOT_DIAG_RESP_WARN
    | _ => SECBOOT_DIAG_RESP_LOCKDOWN
    end in
  (* 3. execute *)
  SECBOOT_Diag_ExecuteResponse response ;;;
  ret response.

End WithHAL.

End Diag.

(** ** Reference peripherals

    Executable stand-ins for the HAL, used to run the functions above on
    concrete inputs.  The CRC unit and the flash controller follow the
    STM32L5 behaviour the sources configure and rely on; the hash, signature
    and cipher engines are test doubles. *)

Module Bench.
Import AES BootManager Diag.

(** The CRC unit as [SECBOOT_CRC_Init] sets it up: polynomial 0x04C11DB7,
    initial value 0xFFFFFFFF, no input or output inversion, byte input. *)
Definition crc32_shift (c : Z) : Z :=
  if Z.testbit c 31 then Z.lxor (u32 (Z.shiftl c 1)) 0x04C11DB7 else u32 (Z.shiftl c 1).

Definition crc32_byte (c : Z) (b : byte) : Z :=
  Nat.iter 8 crc32_shift (Z.lxor c (Z.shiftl (byte.unsigned b) 24)).

Definition crc32_unit (data : list byte) : Z := fold_left crc32_byte data 0xFFFFFFFF.

(** Double-word programming of flash: accepted on an erased double word
    only (erase before program), refused without effect otherwise. *)
Definition flash_program_doubleword (m : mem) (addr data : Z) : HAL_StatusTypeDef * mem :=
  if erased m addr 8 then (HAL_OK, store_bytes m addr (le_split 8 data)) else (HAL_ERROR, m).

(** Test doubles: the digest is the first 32 bytes of the data, a signature
    is valid when its R component repeats the digest, decryption is the
    identity. *)
Definition toy_digest (data : list byte) : list byte := fit Byte.x00 32 data.

Definition toy_signature_valid (digest R S Qx Qy : list byte) : bool := bytes_eqb R digest.

Definition bench_HAL : HAL := {|
  HAL_CRC_Calculate := crc32_unit;
  HAL_FLASH_Program := flash_program_doubleword;
  HAL_HASHEx_SHA256_Start := fun _ => HAL_OK;
  HAL_HASHEx_SHA256_Finish := fun data => (HAL_OK, toy_digest data);
  HAL_PKA_GetState := HAL_PKA_STATE_READY;
  get_prime256v1_curve := true;
  HAL_PKA_ECDSAVerif := fun _ _ _ _ _ => HAL_OK;
  HAL_PKA_ECDSAVerif_IsValidSignature := toy_signature_valid;
  HAL_GetUIDw0 := 0x00330041;
  HAL_GetUIDw1 := 0x3436510A;
  HAL_GetUIDw2 := 0x20373538;
  HAL_CRYP_Init := HAL_OK;
  HAL_CRYP_Decrypt := fun _ _ cipher => (HAL_OK, cipher);
  HAL_CRYP_DeInit := HAL_OK;
  NonSecureApp_ResetHandler := fun _ _ => None
|}.

(** Erased memory and a machine fresh out of reset. *)
Definition erased_mem : mem := fun _ => Byte.xff.

Definition reset_machine (m : mem) : machine :=
  mkMachine m 0 0 (fun _ => Byte.x00) [] [].

End Bench.


(** ** Observations used in the statements *)

(** The operations and calls recorded between two machine states. *)
Definition hw_since (s s' : machine) : list hw_op :=
  firstn (length (hw s') - length (hw s)) (hw s').

Definition calls_since (s s' : machine) : list call :=
  firstn (length (calls s') - length (calls s)) (calls s').

(** The value a function returned, when it did return. *)
Definition returned {A : Type} (o : outcome A) : option A :=
  match o with
  | Returns a _ => Some a
  | _ => None
  end.

(** Fields of the firmware header at [a]. *)
Definition header_magicNumber (m : mem) (a : Z) : Z := load32 m (a + OFS_magicNumber).
Definition header_imageSize (m : mem) (a : Z) : Z := load32 m (a + OFS_imageSize).
Definition header_entryPoint (m : mem) (a : Z) : Z := load32 m (a + OFS_entryPoint).
Definition header_firmwareHash (m : mem) (a : Z) : list byte :=
  load_bytes m (a + OFS_firmwareHash) 32.
Definition header_signature (m : mem) (a : Z) : list byte :=
  load_bytes m (a + OFS_signature) 64.
Definition header_headerCRC (m : mem) (a : Z) : Z := load32 m (a + OFS_headerCRC).

(** The provisioned public key. *)
Definition stored_public_key (m : mem) : list byte := load_bytes m ECC_PUBKEY_OFFSET 64.

(** A word that is neither all-zero nor all-one. *)
Definition nondegenerate (w : Z) : bool := negb (w =? 0x00000000) && negb (w =? 0xFFFFFFFF).

(** The plaintext the engine must produce for [SECBOOT_AES_Decrypt] to hand
    back sixteen zero bytes: four zero words and one block of padding. *)
Definition zero_key_plaintext : list Z :=
  [0; 0; 0; 0; 0x10101010; 0x10101010; 0x10101010; 0x10101010].

(** The address of the log slot the next entry goes to. *)
Definition next_log_addr (s : machine) : Z :=
  u32 (SECBOOT_DIAG_LOG_BASE + log_index s * SECBOOT_DIAG_LOG_SIZE).

(** ** A test image and provisioning data for the reference peripherals *)

Module Fixture.
Import Bench.

(** The version a.b.c.d. *)
Definition version (a b c d : Z) : BootManager.Version :=
  BootManager.mkVersion (byte.of_Z a) (byte.of_Z b) (byte.of_Z c) (byte.of_Z d).

Definition image_addr : Z := SECBOOT_BACKUP_IMAGE_ADDR.
Definition entry_point : Z := image_addr + 0x100.

Definition payload : list byte :=
  map byte.of_Z [0x00; 0x20; 0x00; 0x20; 0x09; 0x31; 0x07; 0x08;
                 0x11; 0x12; 0x13; 0x14; 0x15; 0x16; 0x17; 0x18;
                 0x21; 0x22; 0x23; 0x24; 0x25; 0x26; 0x27; 0x28;
                 0x31; 0x32; 0x33; 0x34; 0x35; 0x36; 0x37; 0x38].

(** A header for [payload]: hash and signature are the ones the test
    doubles accept; size and header CRC are left to the caller. *)
Definition header (imageSize headerCRC : Z) : list byte :=
  le_split 4 FW_MAGIC_NUMBER ++ le_split 4 imageSize
  ++ map byte.of_Z [1; 0; 0; 0]
  ++ le_split 4 entry_point
  ++ toy_digest payload
  ++ (toy_digest payload ++ repeat (byte.of_Z 0x5A) 32)
  ++ le_split 4 headerCRC.

Definition public_key : list byte :=
  map byte.of_Z [0x6B; 0x17; 0xD1; 0xF2; 0xE1; 0x2C; 0x42; 0x47;
                 0xF8; 0xBC; 0xE6; 0xE5; 0x63; 0xA4; 0x40; 0xF2;
                 0x77; 0x03; 0x7D; 0x81; 0x2D; 0xEB; 0x33; 0xA0;
                 0xF4; 0xA1; 0x39; 0x45; 0xD8; 0x98; 0xC2; 0x96;
                 0x4F; 0xE3; 0x42; 0xE2; 0xFE; 0x1A; 0x7F; 0x9B;
                 0x8E; 0xE7; 0xEB; 0x4A; 0x7C; 0x0F; 0x9E; 0x16;
                 0x2B; 0xCE; 0x33; 0x57; 0x6B; 0x31; 0x5E; 0xCE;
                 0xCB; 0xB6; 0x40; 0x68; 0x37; 0xBF; 0x51; 0xF5].

(** Flash with the public key provisioned and an image in the backup slot. *)
Definition flash_with_image (imageSize headerCRC : Z) : mem :=
  store_bytes
    (store_bytes
       (store_bytes erased_mem ECC_PUBKEY_OFFSET public_key)
       image_addr (header imageSize headerCRC))
    entry_point payload.

(** The machine after reset with a well-formed image in the backup slot;
    its header CRC field holds 0. *)
Definition good_machine : machine := reset_machine (flash_with_image 32 0).

(** A wrapped key that decrypts (the cipher double is the identity) to
    sixteen zero bytes and one block of padding, and a provisioned IV. *)
Definition blank_wrapped_key : list byte :=
  repeat Byte.x00 16 ++ repeat (byte.of_Z 0x10) 16.

Definition provisioned_iv : list byte :=
  map byte.of_Z [0xA0; 0xA1; 0xA2; 0xA3; 0xA4; 0xA5; 0xA6; 0xA7;
                 0xA8; 0xA9; 0xAA; 0xAB; 0xAC; 0xAD; 0xAE; 0xAF].

Definition flash_with_blank_key : mem :=
  store_bytes (store_bytes erased_mem AES_KEY_OFFSET blank_wrapped_key)
              AES_IV_OFFSET provisioned_iv.

(** A log region whose first slot is erased except for one byte in its
    second double word. *)
Definition flash_with_dirty_slot : mem :=
  store_byte erased_mem (SECBOOT_DIAG_LOG_BASE + 8) Byte.x00.

End Fixture.

(** ** The remaining functions of the modules

    [SECBOOT_AES_Encrypt], [SECBOOT_CRC_Init] and [SECBOOT_CRC_Verify],
    [SECBOOT_SHA256_Init], [SECBOOT_ECDSA_Init] and [SECBOOT_ECDSA_DeInit],
    [SECBOOT_BootManager_Init] and [SECBOOT_BootManager_VerifyBootloaderCRC],
    [SECBOOT_Diag_HandleSigFail]. *)

(** More constants (secboot_config.h, secboot_diag.h). *)
Definition BOOTLOADER_SIZE : Z := 32 * 1024.
Definition BOOTLOADER_CRC_OFFSET : Z := BOOTLOADER_START_ADDR + 0x8070.

Definition SIG_FAIL_MAIN_IMAGE : Z := 0x20.
Definition SIG_FAIL_CONFIG_SIGNATURE : Z := 0x22.
Definition SIG_FAIL_KEY_EXPIRED : Z := 0x23.
Definition SIG_FAIL_HW_CRYPTO_ERROR : Z := 0x24.

(** The enumerators' integer values (secboot_ecdsa.h gives them). *)
Definition ecdsa_status_value (st : SECBOOT_ECDSA_StatusTypeDef) : Z :=
  match st with
  | SECBOOT_ECDSA_OK => 0
  | SECBOOT_ECDSA_ERROR => 1
  | SECBOOT_ECDSA_INVALID_PARAM => 2
  | SECBOOT_ECDSA_INVALID_STATE => 3
  | SECBOOT_ECDSA_PKA_INIT_FAIL => 4
  | SECBOOT_ECDSA_PKA_COMP_ERROR => 5
  | SECBOOT_ECDSA_PKA_TIMEOUT => 6
  | SECBOOT_ECDSA_VERIFICATION_SUCCESS => 7
  | SECBOOT_ECDSA_VERIFICATION_FAIL => 8
  | SECBOOT_ECDSA_INVALID_SIGNATURE => 9
  | SECBOOT_ECDSA_INVALID_PUBKEY => 10
  end.

(** The peripherals [SECBOOT_BootManager_Init] makes secure, in the order of
    its table [secure_peripherals]. *)
Inductive secure_peripheral : Type :=
| GTZC_PERIPH_USART1
| GTZC_PERIPH_CRC
| GTZC_PERIPH_ICACHE_REG
| GTZC_PERIPH_AES
| GTZC_PERIPH_HASH
| GTZC_PERIPH_RNG
| GTZC_PERIPH_PKA.

Definition secure_peripherals : list secure_peripheral :=
  [GTZC_PERIPH_USART1; GTZC_PERIPH_CRC; GTZC_PERIPH_ICACHE_REG; GTZC_PERIPH_AES;
   GTZC_PERIPH_HASH; GTZC_PERIPH_RNG; GTZC_PERIPH_PKA].

(** The answers of the HAL calls these functions make in addition to those
    of [HAL].  [SRAM1_BASE] and [SRAM2_BASE] are the device header's. *)
Class HAL_init : Type := {
  HAL_CRC_Init : HAL_StatusTypeDef;
  HAL_HASH_Init : HAL_StatusTypeDef;
  HAL_PKA_Init : HAL_StatusTypeDef;
  HAL_PKA_DeInit : HAL_StatusTypeDef;
  (* key words, IV words, input words *)
  HAL_CRYP_Encrypt : list Z -> list Z -> list Z -> HAL_StatusTypeDef * list Z;
  (* HAL_GTZC_TZSC_ConfigPeriphAttributes(periph, SEC|NPRIV) *)
  HAL_GTZC_TZSC_ConfigPeriphAttributes : secure_peripheral -> HAL_StatusTypeDef;
  (* HAL_GTZC_MPCBB_ConfigMem(base, cfg): base and [MPCBB_SecConfig_array] *)
  HAL_GTZC_MPCBB_ConfigMem : Z -> list Z -> HAL_StatusTypeDef;
  SRAM1_BASE : Z;
  SRAM2_BASE : Z
}.

(** *** secboot_aes.c: encryption *)

Module AES_Encrypt.
Import AES.

Section WithHAL.
Context {hal : HAL} {hal_init : HAL_init}.

(** [SECBOOT_AES_Encrypt(ctx, plaintext, plaintext_len, ciphertext, ciphertext_len)].
    [None] is a NULL pointer, the two booleans say whether the out-pointers
    are NULL; [plaintext_len] is the length of the plaintext buffer.  The
    variable-length arrays start with unspecified content: every element of
    [padded_words_input] is stored by [bytes_to_uint32_be] before it is
    read, and [cipher_output] is what the engine wrote, any element it left
    (a word count above 65535 is cut by the cast to [uint16_t]) reading 0
    here.  The result is the status and, on success, the words copied to
    [ciphertext] with [*ciphertext_len]. *)
Definition SECBOOT_AES_Encrypt (ctx : option SECBOOT_AES_Context) (plaintext : option (list byte))
  (ciphertext_null ciphertext_len_null : bool)
  : SECBOOT_AES_StatusTypeDef * option (list Z * Z) :=
  match ctx, plaintext with
  | Some c, Some p =>
      if ciphertext_null || ciphertext_len_null then (SECBOOT_AES_INVALID_PARAM, None)
      else
        let plaintext_len := size_t (Z.of_nat (length p)) in
        let padding_size_bytes :=
          size_t (plaintext_len + AES_BLOCK_SIZE - plaintext_len mod AES_BLOCK_SIZE) in
        let padding_size_words := padding_size_bytes / 4 in
        match PKCS7_Pad p with
        | (PKCS7_PAD_OK, padded_bytes_input, padded_bytes_len) =>
            let padded_words_len := padded_bytes_len / 4 in
            let padded_words_input :=
              bytes_to_uint32_be padded_bytes_input padded_bytes_len
                                 (zero_words (Z.to_nat padding_size_words)) in
            match HAL_CRYP_Encrypt (ctx_key c) (ctx_iv c)
                    (firstn (Z.to_nat (uint16_t padded_words_len)) padded_words_input) with
            | (HAL_OK, out) =>
                let cipher_output := fit 0 (Z.to_nat padding_size_words) out in
                (SECBOOT_AES_OK,
                 Some (firstn (Z.to_nat padded_words_len) cipher_output, padded_words_len))
            | _ => (SECBOOT_AES_ERROR, None)
            end
        | _ => (SECBOOT_AES_PADDING_ERROR, None)
        end
  | _, _ => (SECBOOT_AES_INVALID_PARAM, None)
  end.

End WithHAL.
End AES_Encrypt.

(** *** secboot_crc.c: initialisation and verification *)

Module CRC.

Section WithHAL.
Context {hal : HAL} {hal_init : HAL_init}.

(** [SECBOOT_CRC_Init()]. *)
Definition SECBOOT_CRC_Init : SECBOOT_CRC_StatusTypeDef :=
  match HAL_CRC_Init with
  | HAL_OK => SECBOOT_CRC_OK
  | _ => SECBOOT_CRC_INIT_FAILED
  end.

(** [SECBOOT_CRC_Verify(pData, dataLength, expectedCrc)]; the local
    [computedCrc] is passed by address to [SECBOOT_CRC_Calculate]. *)
Definition SECBOOT_CRC_Verify (pData : option (list byte)) (expectedCrc : Z) (s : machine)
  : SECBOOT_CRC_StatusTypeDef * machine :=
  match SECBOOT_CRC_Calculate pData (Some 0) s with
  | (SECBOOT_CRC_OK, Some computedCrc, s') =>
      if negb (computedCrc =? u32 expectedCrc) then (SECBOOT_CRC_MISMATCH, s')
      else (SECBOOT_CRC_OK, s')
  | (status, _, s') => (status, s')
  end.

End WithHAL.
End CRC.

(** *** secboot_sha256.c and secboot_ecdsa.c: initialisation *)

Module CryptoInit.

(** The two function-local [static bool is_initialized] flags: the one of
    [SECBOOT_ECDSA_Init] and the one of [SECBOOT_ECDSA_DeInit] are distinct
    objects. *)
Record ecdsa_statics : Type := mkStatics {
  Init_is_initialized : bool;
  DeInit_is_initialized : bool
}.

Definition statics_at_reset : ecdsa_statics := mkStatics false false.

(** Calls made to the PKA driver and its clock (ghost record). *)
Inductive pka_call : Type :=
| PKA_CLK_ENABLE
| PKA_CLK_DISABLE
| PKA_Init
| PKA_DeInit.

Section WithHAL.
Context {hal : HAL} {hal_init : HAL_init}.

(** [SECBOOT_SHA256_Init()]. *)
Definition SECBOOT_SHA256_Init : SECBOOT_SHA_StatusTypeDef :=
  match HAL_HASH_Init with
  | HAL_OK => SECBOOT_SHA256_OK
  | _ => SECBOOT_SHA256_ERROR_INIT
  end.

(** [SECBOOT_ECDSA_Init()]: the status, the flags afterwards and the driver
    calls made, in order. *)
Definition SECBOOT_ECDSA_Init (st : ecdsa_statics)
  : SECBOOT_ECDSA_StatusTypeDef * ecdsa_statics * list pka_call :=
  if Init_is_initialized st then (SECBOOT_ECDSA_INVALID_STATE, st, [])
  else
    match HAL_PKA_Init with
    | HAL_OK =>
        match HAL_PKA_GetState with
        | HAL_PKA_STATE_READY =>
            (SECBOOT_ECDSA_OK, mkStatics true (DeInit_is_initialized st),
             [PKA_CLK_ENABLE; PKA_Init])
        | _ => (SECBOOT_ECDSA_PKA_INIT_FAIL, st, [PKA_CLK_ENABLE; PKA_Init; PKA_DeInit])
        end
    | HAL_TIMEOUT => (SECBOOT_ECDSA_PKA_TIMEOUT, st, [PKA_CLK_ENABLE; PKA_Init; PKA_CLK_DISABLE])
    | _ => (SECBOOT_ECDSA_PKA_INIT_FAIL, st, [PKA_CLK_ENABLE; PKA_Init; PKA_CLK_DISABLE])
    end.

(** [SECBOOT_ECDSA_DeInit()]. *)
Definition SECBOOT_ECDSA_DeInit (st : ecdsa_statics)
  : SECBOOT_ECDSA_StatusTypeDef * ecdsa_statics * list pka_call :=
  if negb (DeInit_is_initialized st) then (SECBOOT_ECDSA_INVALID_STATE, st, [])
  else
    match HAL_PKA_DeInit with
    | HAL_OK =>
        (SECBOOT_ECDSA_OK, mkStatics (Init_is_initialized st) false,
         [PKA_DeInit; PKA_CLK_DISABLE])
    | HAL_TIMEOUT => (SECBOOT_ECDSA_PKA_TIMEOUT, st, [PKA_DeInit; PKA_CLK_DISABLE])
    | _ => (SECBOOT_ECDSA_ERROR, st, [PKA_DeInit; PKA_CLK_DISABLE])
    end.

End WithHAL.

(** A request to the ECDSA module together with the answers the HAL gives
    while it is served. *)
Inductive ecdsa_request : Type :=
| RequestInit (hal : HAL) (hal_init : HAL_init)
| RequestDeInit (hal_init : HAL_init).

Definition serve (rq : ecdsa_request) (st : ecdsa_statics)
  : SECBOOT_ECDSA_StatusTypeDef * ecdsa_statics * list pka_call :=
  match rq with
  | RequestInit h hi => SECBOOT_ECDSA_Init (hal := h) (hal_init := hi) st
  | RequestDeInit hi => SECBOOT_ECDSA_DeInit (hal_init := hi) st
  end.

(** A sequence of requests served one after the other: each request with
    the status it got, and the flags at the end. *)
Fixpoint serve_all (rqs : list ecdsa_request) (st : ecdsa_statics)
  : list (ecdsa_request * SECBOOT_ECDSA_StatusTypeDef) * ecdsa_statics :=
  match rqs with
  | [] => ([], st)
  | rq :: rest =>
      let '(status, st', _) := serve rq st in
      let '(answers, st'') := serve_all rest st' in
      ((rq, status) :: answers, st'')
  end.

End CryptoInit.

(** *** secboot_bootmanager.c: initialisation and the bootloader self-check *)

Module BootInit.
Import CryptoInit CRC.

(** The HAL and module calls of [SECBOOT_BootManager_Init], as they are
    made (ghost record). *)
Inductive init_step : Type :=
| StepPeriph (p : secure_peripheral)
| StepMPCBB (base : Z) (SecConfig : list Z)
| StepECDSA_Init
| StepCRC_Init
| StepSHA256_Init.

(** [memset(&a[i], c, n * sizeof(uint32_t))] with [v] the word made of four
    bytes [c]. *)
Definition memset_words (a : list Z) (i n : nat) (v : Z) : list Z :=
  firstn i a ++ repeat v n ++ skipn (i + n) a.

(** [MPCBB_SecConfig_array] has one word per super-block, 24 on this
    device. *)
Definition MPCBB_NB_VCTR : nat := 24.

Section WithHAL.
Context {hal : HAL} {hal_init : HAL_init}.

(** Step 1, the loop over [secure_peripherals] with its [break]. *)
Fixpoint configure_peripherals (ps : list secure_peripheral)
  : SECBOOT_BOOTMANAGER_StatusTypeDef * list init_step :=
  match ps with
  | [] => (SECBOOT_BOOTMANAGER_OK, [])
  | p :: rest =>
      match HAL_GTZC_TZSC_ConfigPeriphAttributes p with
      | HAL_OK =>
          let '(status, steps) := configure_peripherals rest in
          (status, StepPeriph p :: steps)
      | _ => (SECBOOT_BOOTMANAGER_SECURE_VIOLATION, [StepPeriph p])
      end
  end.

(** [SECBOOT_BootManager_Init()]: the status, the ECDSA module's flags
    afterwards and the steps taken. *)
Definition SECBOOT_BootManager_Init (st : ecdsa_statics)
  : SECBOOT_BOOTMANAGER_StatusTypeDef * ecdsa_statics * list init_step :=
  let MPCBB_SecConfig0 := repeat 0 MPCBB_NB_VCTR in
  (* 1. peripheral security attributes *)
  let '(status1, steps1) := configure_peripherals secure_peripherals in
  (* 2. SRAM1 *)
  let '(status2, SecConfig2, steps2) :=
    if bootmanager_is_OK status1 then
      let cfg := memset_words (memset_words MPCBB_SecConfig0 0 12 0xFFFFFFFF) 12 12 0x00000000 in
      match HAL_GTZC_MPCBB_ConfigMem SRAM1_BASE cfg with
      | HAL_OK => (status1, cfg, steps1 ++ [StepMPCBB SRAM1_BASE cfg])
      | _ => (SECBOOT_BOOTMANAGER_SECURE_VIOLATION, cfg, steps1 ++ [StepMPCBB SRAM1_BASE cfg])
      end
    else (status1, MPCBB_SecConfig0, steps1) in
  (* 3. SRAM2 *)
  let '(status3, steps3) :=
    if bootmanager_is_OK status2 then
      let cfg := memset_words SecConfig2 0 8 0x00000000 in
      match HAL_GTZC_MPCBB_ConfigMem SRAM2_BASE cfg with
      | HAL_OK => (status2, steps2 ++ [StepMPCBB SRAM2_BASE cfg])
      | _ => (SECBOOT_BOOTMANAGER_SECURE_VIOLATION, steps2 ++ [StepMPCBB SRAM2_BASE cfg])
      end
    else (status2, steps2) in
  (* 4. cryptographic modules *)
  let '(status4, st4, steps4) :=
    if bootmanager_is_OK status3 then
      match SECBOOT_ECDSA_Init st with
      | (SECBOOT_ECDSA_OK, st', _) => (status3, st', steps3 ++ [StepECDSA_Init])
      | (_, st', _) => (SECBOOT_BOOTMANAGER_HW_SECURE_FAULT, st', steps3 ++ [StepECDSA_Init])
      end
    else (status3, st, steps3) in
  let '(status5, steps5) :=
    if bootmanager_is_OK status4 then
      match SECBOOT_CRC_Init with
      | SECBOOT_CRC_OK => (status4, steps4 ++ [StepCRC_Init])
      | _ => (SECBOOT_BOOTMANAGER_HW_SECURE_FAULT, steps4 ++ [StepCRC_Init])
      end
    else (status4, steps4) in
  let '(status6, steps6) :=
    if bootmanager_is_OK status5 then
      match SECBOOT_SHA256_Init with
      | SECBOOT_SHA256_OK => (status5, steps5 ++ [StepSHA256_Init])
      | _ => (SECBOOT_BOOTMANAGER_HW_SECURE_FAULT, steps5 ++ [StepSHA256_Init])
      end
    else (status5, steps5) in
  (status6, st4, steps6).

(** [SECBOOT_BootManager_VerifyBootloaderCRC()]: the CRC of the
    [BOOTLOADER_SIZE] bytes at [BOOTLOADER_START_ADDR] against the word
    stored at [BOOTLOADER_CRC_OFFSET]. *)
Definition SECBOOT_BootManager_VerifyBootloaderCRC (s : machine)
  : SECBOOT_BOOTMANAGER_StatusTypeDef * machine :=
  let Bootloader_start := BOOTLOADER_START_ADDR in
  let Bootloader_size := u32 BOOTLOADER_SIZE in
  let stored_crc_addr := BOOTLOADER_CRC_OFFSET in
  let pData :=
    if Bootloader_start =? 0 then None
    else Some (load_bytes (memory s) Bootloader_start (Z.to_nat Bootloader_size)) in
  match SECBOOT_CRC_Calculate pData (Some 0) s with
  | (SECBOOT_CRC_OK, Some computed_crc, s') =>
      let stored_crc := load32 (memory s') stored_crc_addr in
      if stored_crc =? computed_crc then (SECBOOT_BOOTMANAGER_OK, s')
      else (SECBOOT_BOOTMANAGER_INVALID_CRC, s')
  | (_, _, s') => (SECBOOT_BOOTMANAGER_ERROR, s')
  end.

End WithHAL.
End BootInit.

(** *** secboot_diag.c: signature failures *)

Module DiagSig.
Import Diag.

Section WithHAL.
Context {hal : HAL}.

(** The [switch] of [SECBOOT_Diag_HandleSigFail]: error code and response. *)
Definition sig_fail_policy (status : SECBOOT_ECDSA_StatusTypeDef)
  : Z * SECBOOT_Diag_ResponseLevel :=
  match status with
  | SECBOOT_ECDSA_VERIFICATION_FAIL => (SIG_FAIL_MAIN_IMAGE, SECBOOT_DIAG_RESP_LOCKDOWN)
  | SECBOOT_ECDSA_INVALID_SIGNATURE => (SIG_FAIL_CONFIG_SIGNATURE, SECBOOT_DIAG_RESP_LOCKDOWN)
  | SECBOOT_ECDSA_INVALID_PUBKEY => (SIG_FAIL_KEY_EXPIRED, SECBOOT_DIAG_RESP_LOCKDOWN)
  | SECBOOT_ECDSA_PKA_TIMEOUT
  | SECBOOT_ECDSA_PKA_COMP_ERROR => (SIG_FAIL_HW_CRYPTO_ERROR, SECBOOT_DIAG_RESP_RECOVER)
  | _ => (0x2F, SECBOOT_DIAG_RESP_LOCKDOWN)
  end.

(** [SECBOOT_Diag_HandleSigFail(status)]. *)
Definition SECBOOT_Diag_HandleSigFail (status : SECBOOT_ECDSA_StatusTypeDef)
  : M SECBOOT_Diag_ResponseLevel :=
  let '(error_code, response) := sig_fail_policy status in
  (* log with the error code and the raw status *)
  lift (SECBOOT_Diag_LogEvent SECBOOT_DIAG_SIG_FAIL error_code (ecdsa_status_value status)) ;;;
  (* execute the response *)
  SECBOOT_Diag_ExecuteResponse response ;;;
  ret response.

End WithHAL.
End DiagSig.

(** Reference answers for the additional HAL calls: everything succeeds,
    encryption is the identity (as [Bench.bench_HAL]'s decryption). *)
Definition bench_HAL_init : HAL_init := {|
  HAL_CRC_Init := HAL_OK;
  HAL_HASH_Init := HAL_OK;
  HAL_PKA_Init := HAL_OK;
  HAL_PKA_DeInit := HAL_OK;
  HAL_CRYP_Encrypt := fun _ _ plain => (HAL_OK, plain);
  HAL_GTZC_TZSC_ConfigPeriphAttributes := fun _ => HAL_OK;
  HAL_GTZC_MPCBB_ConfigMem := fun _ _ => HAL_OK;
  SRAM1_BASE := 0x30000000;
  SRAM2_BASE := 0x30030000
|}.

(** [Bench.bench_HAL] with an AES engine that answers [init] to
    [HAL_CRYP_Init] and [deinit] to [HAL_CRYP_DeInit]. *)
Definition bench_HAL_CRYP (init deinit : HAL_StatusTypeDef) : HAL := {|
  HAL_CRC_Calculate := Bench.crc32_unit;
  HAL_FLASH_Program := Bench.flash_program_doubleword;
  HAL_HASHEx_SHA256_Start := fun _ => HAL_OK;
  HAL_HASHEx_SHA256_Finish := fun data => (HAL_OK, Bench.toy_digest data);
  HAL_PKA_GetState := HAL_PKA_STATE_READY;
  get_prime256v1_curve := true;
  HAL_PKA_ECDSAVerif := fun _ _ _ _ _ => HAL_OK;
  HAL_PKA_ECDSAVerif_IsValidSignature := Bench.toy_signature_valid;
  HAL_GetUIDw0 := 0x00330041;
  HAL_GetUIDw1 := 0x3436510A;
  HAL_GetUIDw2 := 0x20373538;
  HAL_CRYP_Init := init;
  HAL_CRYP_Decrypt := fun _ _ cipher => (HAL_OK, cipher);
  HAL_CRYP_DeInit := deinit;
  NonSecureApp_ResetHandler := fun _ _ => None
|}.

(** *** Sequences of log calls *)

Module DiagLog.
Import Diag.

(** The machine when the tick counter has reached [t] (the SysTick
    interrupt runs between the calls). *)
Definition at_tick (t : Z) (s : machine) : machine :=
  mkMachine (memory s) (log_index s) t (stack_residue s) (calls s) (hw s).

Section WithHAL.
Context {hal : HAL}.

(** [SECBOOT_Diag_LogEvent] called once per element, each call at its own
    tick: the statuses in order and the machine at the end. *)
Fixpoint log_all (events : list (Z * Z * Z * Z)) (s : machine)
  : list SECBOOT_Diag_TypeDef * machine :=
  match events with
  | [] => ([], s)
  | (t, event, code, data) :: rest =>
      let '(status, s1) := SECBOOT_Diag_LogEvent event code data (at_tick t s) in
      let '(statuses, s2) := log_all rest s1 in
      (status :: statuses, s2)
  end.

End WithHAL.

(** The log after [k] entries: slots below [k] have their first word
    programmed, the others are erased, and slot [k] is next. *)
Definition log_filled (k : Z) (s : machine) : Prop :=
  log_index s = k mod SECBOOT_DIAG_MAX_LOGS /\
  (forall j, 0 <= j < k ->
     load32 (memory s) (SECBOOT_DIAG_LOG_BASE + j * SECBOOT_DIAG_LOG_SIZE) <> 0xFFFFFFFF) /\
  (forall j, k <= j < SECBOOT_DIAG_MAX_LOGS ->
     erased (memory s) (SECBOOT_DIAG_LOG_BASE + j * SECBOOT_DIAG_LOG_SIZE) 64 = true).

(** A call is loggable when its event passes the parameter check and its
    tick is not the erased pattern. *)
Definition loggable (e : Z * Z * Z * Z) : Prop :=
  snd (fst (fst e)) <= SECBOOT_DIAG_ROLLBACK_ATTEMPT /\ u32 (fst (fst (fst e))) <> 0xFFFFFFFF.

End DiagLog.

(* ===================================================================== *)
(** * Part II: properties *)
(* ===================================================================== *)

(** ** Memory *)

Lemma load_bytes_length (m : mem) (n : nat) (a : Z) : length (load_bytes m a n) = n.
Proof.
  revert a. induction n as [|n IH]; intros a; simpl; [reflexivity|].
  now rewrite IH.
Qed.

Lemma load_bytes_ext (m1 m2 : mem) (n : nat) (a : Z) :
  (forall x, a <= x < a + Z.of_nat n -> m1 x = m2 x) ->
  load_bytes m1 a n = load_bytes m2 a n.
Proof.
  revert a. induction n as [|n IH]; intros a H; simpl; [reflexivity|].
  rewrite (H a) by lia. f_equal. apply IH. intros x Hx. apply H. lia.
Qed.

(** Case analysis on the integer comparisons of the goal. *)
Ltac zcases :=
  repeat match goal with
    | |- context [?a <=? ?b] => destruct (Z.leb_spec a b)
    | |- context [?a <? ?b] => destruct (Z.ltb_spec a b)
    | |- context [?a >? ?b] => rewrite (Z.gtb_ltb a b)
    | |- context [?a =? ?b] => destruct (Z.eqb_spec a b)
    end;
  cbn [andb orb negb]; try lia.

Lemma store_bytes_read (bs : list byte) (m : mem) (a x : Z) :
  store_bytes m a bs x =
  if (a <=? x) && (x <? a + Z.of_nat (length bs))
  then nth (Z.to_nat (x - a)) bs Byte.x00
  else m x.
Proof.
  revert m a. induction bs as [|b bs IH]; intros m a.
  - simpl. zcases; reflexivity.
  - cbn [store_bytes length]. rewrite IH. unfold store_byte.
    zcases; try reflexivity.
    + replace (Z.to_nat (x - a)) with (S (Z.to_nat (x - (a + 1)))) by lia. reflexivity.
    + subst x. rewrite Z.sub_diag. reflexivity.
Qed.

Lemma store_bytes_other (bs : list byte) (m : mem) (a x : Z) :
  x < a \/ a + Z.of_nat (length bs) <= x -> store_bytes m a bs x = m x.
Proof.
  intros H. rewrite store_bytes_read. zcases; reflexivity.
Qed.

Lemma load_store_disjoint (bs : list byte) (m : mem) (a b : Z) (n : nat) :
  b + Z.of_nat n <= a \/ a + Z.of_nat (length bs) <= b ->
  load_bytes (store_bytes m a bs) b n = load_bytes m b n.
Proof.
  intros H. apply load_bytes_ext. intros x Hx. apply store_bytes_other. lia.
Qed.

Lemma load_bytes_nth (m : mem) (n : nat) (a : Z) (i : nat) :
  (i < n)%nat -> nth i (load_bytes m a n) Byte.x00 = m (a + Z.of_nat i).
Proof.
  revert a i. induction n as [|n IH]; intros a i Hi; [lia|].
  destruct i as [|i]; simpl load_bytes; cbn [nth].
  - f_equal. lia.
  - rewrite IH by lia. f_equal. lia.
Qed.

Lemma load_bytes_characterised (m : mem) (a : Z) (bs : list byte) :
  (forall i, (i < length bs)%nat -> m (a + Z.of_nat i) = nth i bs Byte.x00) ->
  load_bytes m a (length bs) = bs.
Proof.
  revert a. induction bs as [|b bs IH]; intros a H; simpl; [reflexivity|].
  f_equal.
  - specialize (H 0%nat). cbn [nth length] in H. rewrite Z.add_0_r in H. apply H. lia.
  - apply IH. intros i Hi. specialize (H (S i)). cbn [nth length] in H.
    rewrite <- H by lia. f_equal. lia.
Qed.

Lemma load_store_same (bs : list byte) (m : mem) (a : Z) :
  load_bytes (store_bytes m a bs) a (length bs) = bs.
Proof.
  apply load_bytes_characterised. intros i Hi. rewrite store_bytes_read.
  zcases. f_equal. lia.
Qed.

Lemma memset_read (m : mem) (a : Z) (c : byte) (n : nat) (x : Z) :
  memset m a c n x = if (a <=? x) && (x <? a + Z.of_nat n) then c else m x.
Proof.
  unfold memset. rewrite store_bytes_read, repeat_length.
  destruct ((a <=? x) && (x <? a + Z.of_nat n)) eqn:E; [|reflexivity].
  apply andb_prop in E. destruct E as [E1 E2].
  apply nth_repeat_lt. lia.
Qed.

Lemma fit_length {A : Type} (d : A) (n : nat) (l : list A) : length (fit d n l) = n.
Proof.
  unfold fit. rewrite length_firstn, length_app, repeat_length. lia.
Qed.

Lemma bytes_eqb_eq (a b : list byte) : bytes_eqb a b = true <-> a = b.
Proof.
  revert b. induction a as [|x a IH]; intros [|y b]; simpl; split; intros H;
    try reflexivity; try discriminate.
  - apply andb_prop in H. destruct H as [H1 H2].
    apply Byte.byte_dec_bl in H1. apply IH in H2. now subst.
  - injection H as -> ->. apply andb_true_intro. split.
    + now apply Byte.byte_dec_lb.
    + now apply IH.
Qed.

(** ** PKCS#7 padding (secboot_aes.c) *)

Module PKCS7_Facts.
Import AES.

Lemma pad_len_range (len : Z) :
  0 <= len ->
  u8 (AES_BLOCK_SIZE - len mod AES_BLOCK_SIZE) = AES_BLOCK_SIZE - len mod AES_BLOCK_SIZE
  /\ 1 <= AES_BLOCK_SIZE - len mod AES_BLOCK_SIZE <= AES_BLOCK_SIZE.
Proof.
  intros Hlen. unfold AES_BLOCK_SIZE, u8.
  pose proof (Z.mod_pos_bound len 16 ltac:(lia)) as Hr.
  split; [apply Z.mod_small|]; lia.
Qed.

Lemma padded_length_aligned (len : Z) :
  (len + (AES_BLOCK_SIZE - len mod AES_BLOCK_SIZE)) mod AES_BLOCK_SIZE = 0.
Proof.
  unfold AES_BLOCK_SIZE.
  rewrite (Z.div_mod len 16) at 1 by lia.
  replace (16 * (len / 16) + len mod 16 + (16 - len mod 16)) with ((len / 16 + 1) * 16) by lia.
  apply Z.mod_mul. lia.
Qed.

(** Every byte the validation loop looks at is a padding byte. *)
Lemma padding_bytes_ok_after_pad (input : list byte) (p : byte) (padn : nat) :
  forall (n : nat) (i : Z),
    0 <= i -> i + Z.of_nat n <= Z.of_nat padn ->
    padding_bytes_ok (input ++ repeat p padn)
      (Z.of_nat (length input) + Z.of_nat padn) (byte.unsigned p) i n = true.
Proof.
  induction n as [|n IH]; intros i Hi Hn; [reflexivity|].
  cbn [padding_bytes_ok].
  rewrite app_nth2 by lia.
  rewrite nth_repeat_lt by lia.
  rewrite Z.eqb_refl. apply IH; lia.
Qed.

Lemma last_byte_after_pad (input : list byte) (p : byte) (padn : nat) :
  (0 < padn)%nat ->
  nth (Z.to_nat (Z.of_nat (length input) + Z.of_nat padn - 1)) (input ++ repeat p padn) Byte.x00 = p.
Proof.
  intros Hp. rewrite app_nth2 by lia. apply nth_repeat_lt. lia.
Qed.

End PKCS7_Facts.

(** C10.  Padding a byte sequence with [PKCS7_Pad] and removing the padding
    with [PKCS7_Unpad] succeeds and gives back the sequence and its length.
    The lengths are [size_t] values: the sequence and its padded copy are
    buffers of the 32-bit target, so the padded length is below 2^32. *)
Theorem PKCS7_Pad_Unpad_roundtrip (input : list byte) :
  Z.of_nat (length input) + AES_BLOCK_SIZE < 2 ^ 32 ->
  fst (fst (AES.PKCS7_Pad input)) = PKCS7_PAD_OK /\
  AES.PKCS7_Unpad (Some (snd (fst (AES.PKCS7_Pad input)))) (snd (AES.PKCS7_Pad input)) false false
  = (PKCS7_UNPAD_OK, Some (input, Z.of_nat (length input))).
Proof.
  intros Hfit. split; [reflexivity|].
  unfold AES.PKCS7_Pad. cbn [fst snd].
  set (len := Z.of_nat (length input)) in *.
  assert (Hlen : 0 <= len) by (subst len; lia).
  assert (Hsz : AES.size_t len = len) by (apply Z.mod_small; unfold AES_BLOCK_SIZE in Hfit; lia).
  rewrite Hsz.
  destruct (PKCS7_Facts.pad_len_range len Hlen) as [Hu8 Hpad].
  rewrite Hu8.
  set (pad_len := AES_BLOCK_SIZE - len mod AES_BLOCK_SIZE) in *.
  assert (Hout : AES.size_t (len + pad_len) = len + pad_len)
    by (apply Z.mod_small; unfold AES_BLOCK_SIZE in *; lia).
  rewrite Hout.
  assert (Hbyte : byte.unsigned (byte.of_Z pad_len) = pad_len).
  { rewrite byte.unsigned_of_Z. apply Z.mod_small. unfold AES_BLOCK_SIZE in *. lia. }
  assert (Hnat : Z.of_nat (Z.to_nat pad_len) = pad_len) by lia.
  unfold AES.PKCS7_Unpad. cbn [orb].
  assert (Hal : (len + pad_len) mod AES_BLOCK_SIZE = 0)
    by (subst pad_len; apply PKCS7_Facts.padded_length_aligned).
  rewrite Hal.
  replace (len + pad_len =? 0) with false by (symmetry; apply Z.eqb_neq; lia).
  cbn [orb negb Z.eqb].
  assert (Hlast :
    nth (Z.to_nat (len + pad_len - 1))
        (input ++ repeat (byte.of_Z pad_len) (Z.to_nat pad_len)) Byte.x00 = byte.of_Z pad_len).
  { rewrite <- Hnat at 1. apply PKCS7_Facts.last_byte_after_pad. lia. }
  rewrite Hlast, Hbyte.
  replace (pad_len =? 0) with false by (symmetry; apply Z.eqb_neq; lia).
  replace (pad_len >? AES_BLOCK_SIZE) with false by (symmetry; rewrite Z.gtb_ltb; apply Z.ltb_ge; lia).
  replace (pad_len >? len + pad_len) with false by (symmetry; rewrite Z.gtb_ltb; apply Z.ltb_ge; lia).
  cbn [orb].
  pose proof (PKCS7_Facts.padding_bytes_ok_after_pad input (byte.of_Z pad_len)
                (Z.to_nat pad_len) (Z.to_nat pad_len) 0 ltac:(lia) ltac:(lia)) as Hok.
  rewrite Hbyte, Hnat in Hok. fold len in Hok. rewrite Hok. cbn [negb].
  replace (len + pad_len - pad_len) with len by lia.
  subst len. rewrite Nat2Z.id, firstn_app, Nat.sub_diag, firstn_all. cbn [firstn].
  rewrite app_nil_r. reflexivity.
Qed.

(** The round trip on a 5-byte message: one block comes out, eleven bytes
    of padding, and the message is recovered. *)
Lemma PKCS7_Pad_Unpad_roundtrip_witness :
  Z.of_nat (length (map byte.of_Z [1; 2; 3; 4; 5])) + AES_BLOCK_SIZE < 2 ^ 32 /\
  (fst (fst (AES.PKCS7_Pad (map byte.of_Z [1; 2; 3; 4; 5]))) = PKCS7_PAD_OK /\
   AES.PKCS7_Unpad (Some (snd (fst (AES.PKCS7_Pad (map byte.of_Z [1; 2; 3; 4; 5])))))
     (snd (AES.PKCS7_Pad (map byte.of_Z [1; 2; 3; 4; 5]))) false false
   = (PKCS7_UNPAD_OK, Some (map byte.of_Z [1; 2; 3; 4; 5],
                            Z.of_nat (length (map byte.of_Z [1; 2; 3; 4; 5]))))).
Proof.
  split.
  - vm_compute. reflexivity.
  - apply (PKCS7_Pad_Unpad_roundtrip (map byte.of_Z [1; 2; 3; 4; 5])). vm_compute. reflexivity.
Defined.

(** What [PKCS7_Pad] produces on that message. *)
Example PKCS7_Pad_five_bytes :
  AES.PKCS7_Pad (map byte.of_Z [1; 2; 3; 4; 5])
  = (PKCS7_PAD_OK, map byte.of_Z [1; 2; 3; 4; 5; 11; 11; 11; 11; 11; 11; 11; 11; 11; 11; 11], 16).
Proof. vm_compute. reflexivity. Qed.

(** Malformed padding is refused: a block whose last byte is 0. *)
Example PKCS7_Unpad_rejects_zero_pad :
  AES.PKCS7_Unpad (Some (repeat Byte.x00 16)) 16 false false = (PKCS7_UNPAD_NOK, None).
Proof. vm_compute. reflexivity. Qed.

(** ** Rollback protection (secboot_bootmanager.h) *)

Module Rollback_Facts.
Import BootManager.

(** The byte-wise lexicographic order of two versions is the order of the
    numbers major.minor.patch.build read in base 256. *)
Lemma lex_compare_version_number (a b : Version) :
  lex_compare (version_bytes a) (version_bytes b) = (version_number a ?= version_number b).
Proof.
  destruct a as [a1 a2 a3 a4], b as [b1 b2 b3 b4].
  unfold version_bytes, version_number. cbn [major minor patch build lex_compare].
  pose proof (byte.unsigned_range a1). pose proof (byte.unsigned_range a2).
  pose proof (byte.unsigned_range a3). pose proof (byte.unsigned_range a4).
  pose proof (byte.unsigned_range b1). pose proof (byte.unsigned_range b2).
  pose proof (byte.unsigned_range b3). pose proof (byte.unsigned_range b4).
  change (2 ^ 8) with 256 in *.
  symmetry.
  destruct (Z.compare_spec (byte.unsigned a1) (byte.unsigned b1));
    [ destruct (Z.compare_spec (byte.unsigned a2) (byte.unsigned b2));
      [ destruct (Z.compare_spec (byte.unsigned a3) (byte.unsigned b3));
        [ destruct (Z.compare_spec (byte.unsigned a4) (byte.unsigned b4)) | | ] | | ] | | ];
    first [ apply Z.compare_eq_iff; lia | apply Z.compare_lt_iff; lia | apply Z.compare_gt_iff; lia ].
Qed.

End Rollback_Facts.

(** C7.  [check_rollback] compares the two 4-byte versions
    lexicographically: it answers VERSION_ROLLBACK exactly when the candidate
    is lower than or equal to the current version, and OK otherwise; equal
    versions are rejected, 1.0.0.1 over 1.0.0.0 is accepted, 1.1.9.9 over
    1.2.0.0 is rejected. *)
Theorem CheckRollbackProtection_lexicographic :
  (forall cur cand : BootManager.Version,
      BootManager.SECBOOT_BootManager_CheckRollbackProtection cur cand
      = SECBOOT_BOOTMANAGER_VERSION_ROLLBACK
      <-> BootManager.version_number cand <= BootManager.version_number cur) /\
  (forall cur cand : BootManager.Version,
      BootManager.SECBOOT_BootManager_CheckRollbackProtection cur cand = SECBOOT_BOOTMANAGER_OK
      <-> BootManager.version_number cur < BootManager.version_number cand) /\
  BootManager.SECBOOT_BootManager_CheckRollbackProtection
    (Fixture.version 1 0 0 0) (Fixture.version 1 0 0 0) = SECBOOT_BOOTMANAGER_VERSION_ROLLBACK /\
  BootManager.SECBOOT_BootManager_CheckRollbackProtection
    (Fixture.version 1 0 0 0) (Fixture.version 1 0 0 1) = SECBOOT_BOOTMANAGER_OK /\
  BootManager.SECBOOT_BootManager_CheckRollbackProtection
    (Fixture.version 1 2 0 0) (Fixture.version 1 1 9 9) = SECBOOT_BOOTMANAGER_VERSION_ROLLBACK.
Proof.
  split; [|split; [|repeat split; vm_compute; reflexivity]].
  - intros cur cand. unfold BootManager.SECBOOT_BootManager_CheckRollbackProtection.
    rewrite Rollback_Facts.lex_compare_version_number.
    destruct (Z.compare_spec (BootManager.version_number cand) (BootManager.version_number cur));
      split; intros; try reflexivity; try discriminate; lia.
  - intros cur cand. unfold BootManager.SECBOOT_BootManager_CheckRollbackProtection.
    rewrite Rollback_Facts.lex_compare_version_number.
    destruct (Z.compare_spec (BootManager.version_number cand) (BootManager.version_number cur));
      split; intros; try reflexivity; try discriminate; lia.
Qed.

(** ** Key unwrap (secboot_bootmanager.c, get_AES_key) *)

Module KeyUnwrap_Facts.
Import AES BootManager.

Lemma map_const_repeat {A B : Type} (c : B) (l : list A) :
  map (fun _ => c) l = repeat c (length l).
Proof. induction l as [|x l IH]; simpl; [reflexivity|now rewrite IH]. Qed.

Lemma load_words_length (m : mem) (n : nat) (a : Z) : length (load_words m a n) = n.
Proof. revert a. induction n as [|n IH]; intros a; simpl; [reflexivity|now rewrite IH]. Qed.

Lemma fit_exact {A : Type} (d : A) (n : nat) (l : list A) : length l = n -> fit d n l = l.
Proof.
  intros <-. unfold fit. rewrite firstn_app, Nat.sub_diag, firstn_all. cbn [firstn].
  apply app_nil_r.
Qed.

(** The validation loop looks at the [n] words from index [i] on. *)
Lemma key_validation_loop_existsb (k : list Z) (n i : nat) :
  (i + n <= length k)%nat ->
  key_validation_loop k i n = existsb nondegenerate (firstn n (skipn i k)).
Proof.
  revert i. induction n as [|n IH]; intros i Hlen; [reflexivity|].
  cbn [key_validation_loop].
  destruct (skipn i k) as [|w rest] eqn:Hskip.
  { apply (f_equal (@length Z)) in Hskip. rewrite length_skipn in Hskip. simpl in Hskip. lia. }
  assert (Hnth : nth i k 0 = w).
  { rewrite <- (firstn_skipn i k) at 1. rewrite app_nth2 by (rewrite length_firstn; lia).
    rewrite length_firstn, Hskip. replace (i - Nat.min i (length k))%nat with 0%nat by lia.
    reflexivity. }
  assert (Hrest : skipn (S i) k = rest).
  { replace (S i) with (1 + i)%nat by lia. rewrite <- skipn_skipn, Hskip. reflexivity. }
  rewrite Hnth. cbn [firstn existsb]. fold (nondegenerate w).
  destruct (nondegenerate w); [reflexivity|].
  rewrite IH by lia. rewrite Hrest. reflexivity.
Qed.

Section WithHAL.
Context {hal : HAL}.

(** Case analysis along the paths of [get_AES_key]. *)
Ltac get_AES_key_paths :=
  unfold get_AES_key;
  destruct (SECBOOT_AES_Init _ _ _) as [ist [c|]]; destruct ist;
  try (destruct (SECBOOT_AES_Decrypt _ _ _) as [dst [[plain n]|]]; destruct dst);
  destruct (SECBOOT_AES_DeInit _) as [ds [c'|]]; destruct ds.

(** The three scrub loops run on every path. *)
Lemma get_AES_key_frame (after : list Z) (m : mem) :
  temp_key (snd (get_AES_key after m)) = repeat 0 4 /\
  temp_iv (snd (get_AES_key after m)) = repeat 0 4 /\
  decrypted_key (snd (get_AES_key after m)) = repeat Byte.x00 32.
Proof.
  get_AES_key_paths;
    cbn [snd temp_key temp_iv decrypted_key];
    rewrite !map_const_repeat, ?fit_length, ?load_words_length, ?repeat_length;
    repeat split; reflexivity.
Qed.

Lemma SECBOOT_AES_Init_ok (c0 : SECBOOT_AES_Context) (k v : list Z) :
  HAL_CRYP_Init = HAL_OK ->
  length k = 4%nat -> length v = 4%nat ->
  SECBOOT_AES_Init (Some c0) (Some k) (Some v) = (SECBOOT_AES_OK, Some (mkCtx k v)).
Proof.
  intros H Hk Hv. unfold SECBOOT_AES_Init. rewrite H.
  change (Z.to_nat KEY_WORD_SIZE) with 4%nat. change (Z.to_nat IV_WORD_SIZE) with 4%nat.
  rewrite !fit_exact by assumption. reflexivity.
Qed.

Lemma SECBOOT_AES_Decrypt_zero_key (c : SECBOOT_AES_Context) (cipher : list Z) :
  length cipher = 8%nat ->
  HAL_CRYP_Decrypt (ctx_key c) (ctx_iv c) cipher = (HAL_OK, zero_key_plaintext) ->
  SECBOOT_AES_Decrypt c cipher (AES_KEY_SIZE / 4) = (SECBOOT_AES_OK, Some (repeat Byte.x00 16, 16)).
Proof.
  intros Hlen H. unfold SECBOOT_AES_Decrypt.
  change (Z.to_nat (uint16_t (AES_KEY_SIZE / 4))) with 8%nat.
  rewrite firstn_all2 by lia. rewrite H. vm_compute. reflexivity.
Qed.

Lemma get_AES_key_zero_key (after : list Z) (m : mem) :
  HAL_CRYP_Init = HAL_OK ->
  HAL_CRYP_DeInit = HAL_OK ->
  HAL_CRYP_Decrypt [u32 HAL_GetUIDw0; u32 HAL_GetUIDw1; u32 HAL_GetUIDw2; FW_MAGIC_NUMBER]
                   (load_words m AES_IV_OFFSET 4) (load_words m AES_KEY_OFFSET 8)
  = (HAL_OK, zero_key_plaintext) ->
  fst (fst (get_AES_key after m))
  = (if existsb nondegenerate (fit 0 4 after) then SECBOOT_AES_OK else SECBOOT_AES_ERROR)
  /\ AES_key (snd (fst (get_AES_key after m))) = [0; 0; 0; 0].
Proof.
  intros Hinit Hdeinit Hdec. unfold get_AES_key.
  change (Z.to_nat (AES_IV_SIZE / 4)) with 4%nat.
  change (Z.to_nat (AES_KEY_SIZE / 4)) with 8%nat.
  rewrite SECBOOT_AES_Init_ok by (auto using load_words_length).
  rewrite (SECBOOT_AES_Decrypt_zero_key (mkCtx _ _) _ (load_words_length _ _ _) Hdec).
  unfold SECBOOT_AES_DeInit. rewrite Hdeinit.
  change (bytes_to_uint32_be (fit Byte.x00 (Z.to_nat AES_KEY_SIZE) (repeat Byte.x00 16)) 16
            (zero_words (Z.to_nat KEY_WORD_SIZE) ++ fit 0 4 after))
    with ([0; 0; 0; 0] ++ fit 0 4 after).
  rewrite key_validation_loop_existsb
    by (rewrite length_app, fit_length; simpl; lia).
  cbn [skipn]. rewrite firstn_all2 by (rewrite length_app, fit_length; simpl; lia).
  rewrite existsb_app. cbn [existsb nondegenerate Z.eqb negb andb orb fst snd AES_key firstn app].
  split; [|reflexivity].
  destruct (existsb nondegenerate (fit 0 4 after)); reflexivity.
Qed.

End WithHAL.
End KeyUnwrap_Facts.

(** C8.  Whatever path [get_AES_key] takes and whatever status it returns,
    when it returns every word of the device-derived key buffer [temp_key],
    of the temporary IV buffer [temp_iv] and every byte of the decrypted
    plaintext buffer [decrypted_key] is zero. *)
Theorem get_AES_key_scrubs_temporaries (hal : HAL) (after_Aes_key : list Z) (m : mem) :
  BootManager.temp_key (snd (BootManager.get_AES_key after_Aes_key m)) = [0; 0; 0; 0] /\
  BootManager.temp_iv (snd (BootManager.get_AES_key after_Aes_key m)) = [0; 0; 0; 0] /\
  BootManager.decrypted_key (snd (BootManager.get_AES_key after_Aes_key m)) = repeat Byte.x00 32.
Proof.
  exact (KeyUnwrap_Facts.get_AES_key_frame after_Aes_key m).
Qed.

(** C9.  [get_AES_key] on a wrapped key that decrypts to sixteen zero bytes.
    The validation loop runs over [AES_KEY_SIZE/sizeof(uint32_t)] = 8 words
    of the 4-word array [Aes_key]: as soon as one of the four words that
    follow the array on the stack is neither 0 nor 0xFFFFFFFF, the all-zero
    key is reported valid and handed to the caller with status OK. *)
Theorem get_AES_key_accepts_zero_key (hal : HAL) (after_Aes_key : list Z) (m : mem) :
  HAL_CRYP_Init = HAL_OK ->
  HAL_CRYP_DeInit = HAL_OK ->
  HAL_CRYP_Decrypt [u32 HAL_GetUIDw0; u32 HAL_GetUIDw1; u32 HAL_GetUIDw2; FW_MAGIC_NUMBER]
                   (load_words m AES_IV_OFFSET 4) (load_words m AES_KEY_OFFSET 8)
  = (HAL_OK, zero_key_plaintext) ->
  (exists w, In w (fit 0 4 after_Aes_key) /\ w <> 0 /\ w <> 0xFFFFFFFF) ->
  fst (fst (BootManager.get_AES_key after_Aes_key m)) = SECBOOT_AES_OK /\
  BootManager.AES_key (snd (fst (BootManager.get_AES_key after_Aes_key m))) = [0; 0; 0; 0].
Proof.
  intros Hinit Hdeinit Hdec [w [Hin [Hz Hf]]].
  destruct (KeyUnwrap_Facts.get_AES_key_zero_key after_Aes_key m Hinit Hdeinit Hdec) as [Hst Hkey].
  split; [|exact Hkey].
  rewrite Hst.
  replace (existsb nondegenerate (fit 0 4 after_Aes_key)) with true; [reflexivity|].
  symmetry. apply existsb_exists. exists w. split; [exact Hin|].
  unfold nondegenerate.
  apply andb_true_intro. split; apply negb_true_iff, Z.eqb_neq; assumption.
Qed.

(** The blank key on the reference peripherals, with [Aes_iv] (declared
    right after [Aes_key]) following the array: the zero key is accepted. *)
Lemma get_AES_key_accepts_zero_key_witness :
  fst (fst (@BootManager.get_AES_key Bench.bench_HAL
              (load_words Fixture.flash_with_blank_key AES_IV_OFFSET 4)
              Fixture.flash_with_blank_key)) = SECBOOT_AES_OK /\
  BootManager.AES_key
    (snd (fst (@BootManager.get_AES_key Bench.bench_HAL
                 (load_words Fixture.flash_with_blank_key AES_IV_OFFSET 4)
                 Fixture.flash_with_blank_key))) = [0; 0; 0; 0].
Proof.
  apply (get_AES_key_accepts_zero_key Bench.bench_HAL
           (load_words Fixture.flash_with_blank_key AES_IV_OFFSET 4)
           Fixture.flash_with_blank_key).
  - reflexivity.
  - reflexivity.
  - vm_compute. reflexivity.
  - exists 0xA3A2A1A0. vm_compute. split; [left; reflexivity|split; discriminate].
Defined.

(** Where the words after the array are themselves all-zero or all-one the
    same key is refused: the outcome of the check rests on memory that is
    not the key. *)
Lemma get_AES_key_zero_key_refused_by_chance (hal : HAL) (after_Aes_key : list Z) (m : mem) :
  HAL_CRYP_Init = HAL_OK ->
  HAL_CRYP_DeInit = HAL_OK ->
  HAL_CRYP_Decrypt [u32 HAL_GetUIDw0; u32 HAL_GetUIDw1; u32 HAL_GetUIDw2; FW_MAGIC_NUMBER]
                   (load_words m AES_IV_OFFSET 4) (load_words m AES_KEY_OFFSET 8)
  = (HAL_OK, zero_key_plaintext) ->
  Forall (fun w => w = 0 \/ w = 0xFFFFFFFF) (fit 0 4 after_Aes_key) ->
  fst (fst (BootManager.get_AES_key after_Aes_key m)) = SECBOOT_AES_ERROR.
Proof.
  intros Hinit Hdeinit Hdec Hall.
  destruct (KeyUnwrap_Facts.get_AES_key_zero_key after_Aes_key m Hinit Hdeinit Hdec) as [Hst _].
  rewrite Hst.
  replace (existsb nondegenerate (fit 0 4 after_Aes_key)) with false; [reflexivity|].
  symmetry. apply not_true_is_false. intros Hex.
  apply existsb_exists in Hex. destruct Hex as [w [Hin Hnd]].
  rewrite Forall_forall in Hall. specialize (Hall w Hin).
  unfold nondegenerate in Hnd.
  destruct Hall as [-> | ->]; discriminate.
Qed.

(** Both statuses of [get_AES_key] occur on the reference peripherals: a
    well-provisioned key gives OK, erased flash (bad padding) an error. *)
Example get_AES_key_statuses :
  fst (fst (@BootManager.get_AES_key Bench.bench_HAL [0; 0; 0; 0]
              (store_bytes Bench.erased_mem AES_KEY_OFFSET
                 (map byte.of_Z [1; 2; 3; 4; 5; 6; 7; 8; 9; 10; 11; 12; 13; 14; 15; 16]
                  ++ repeat (byte.of_Z 0x10) 16)))) = SECBOOT_AES_OK /\
  fst (fst (@BootManager.get_AES_key Bench.bench_HAL [0; 0; 0; 0] Bench.erased_mem))
  = SECBOOT_AES_ERROR.
Proof. split; vm_compute; reflexivity. Qed.

(** ** Image verification (secboot_bootmanager.c) *)

Module Verify_Facts.
Import BootManager.

Lemma hw_since_app (s s' : machine) (new : list hw_op) :
  hw s' = new ++ hw s -> hw_since s s' = new.
Proof.
  intros H. unfold hw_since. rewrite H, length_app.
  replace (length new + length (hw s) - length (hw s))%nat with (length new) by lia.
  rewrite firstn_app, Nat.sub_diag, firstn_all. cbn [firstn]. apply app_nil_r.
Qed.

Lemma calls_since_app (s s' : machine) (new : list call) :
  calls s' = new ++ calls s -> calls_since s s' = new.
Proof.
  intros H. unfold calls_since. rewrite H, length_app.
  replace (length new + length (calls s) - length (calls s))%nat with (length new) by lia.
  rewrite firstn_app, Nat.sub_diag, firstn_all. cbn [firstn]. apply app_nil_r.
Qed.

Section WithHAL.
Context {hal : HAL}.

(** The hash wrapper: what it leaves in the machine. *)
Lemma SHA256_Compute_machine (p n : Z) (out : list byte) (s : machine) :
  snd (SECBOOT_SHA256_Compute p n out s) = s \/
  snd (SECBOOT_SHA256_Compute p n out s) = record_hw (OpHash p n) s.
Proof.
  unfold SECBOOT_SHA256_Compute.
  destruct (p =? 0); [left; reflexivity|].
  destruct (n =? 0); [left; reflexivity|].
  destruct (HAL_HASHEx_SHA256_Start _); try (right; reflexivity).
  destruct (HAL_HASHEx_SHA256_Finish _) as [[] d]; right; reflexivity.
Qed.

Lemma SHA256_Compute_ok_machine (p n : Z) (out : list byte) (s : machine) :
  fst (fst (SECBOOT_SHA256_Compute p n out s)) = SECBOOT_SHA256_OK ->
  snd (SECBOOT_SHA256_Compute p n out s) = record_hw (OpHash p n) s.
Proof.
  unfold SECBOOT_SHA256_Compute.
  destruct (p =? 0); [discriminate|].
  destruct (n =? 0); [discriminate|].
  destruct (HAL_HASHEx_SHA256_Start _); try discriminate.
  destruct (HAL_HASHEx_SHA256_Finish _) as [[] d]; try discriminate. reflexivity.
Qed.

(** Status and digest depend on the memory only. *)
Lemma SHA256_Compute_memory (p n : Z) (out : list byte) (s1 s2 : machine) :
  memory s1 = memory s2 ->
  fst (SECBOOT_SHA256_Compute p n out s1) = fst (SECBOOT_SHA256_Compute p n out s2).
Proof.
  intros Hm. unfold SECBOOT_SHA256_Compute. rewrite Hm.
  destruct (p =? 0); [reflexivity|].
  destruct (n =? 0); [reflexivity|].
  destruct (HAL_HASHEx_SHA256_Start _); try reflexivity.
  destruct (HAL_HASHEx_SHA256_Finish _) as [[] d]; reflexivity.
Qed.

Lemma ECDSA_Verify_machine (d : list byte) (l sg pk : Z) (s : machine) :
  snd (SECBOOT_ECDSA_Verify_Signature d l sg pk s) = s \/
  snd (SECBOOT_ECDSA_Verify_Signature d l sg pk s) = record_hw (OpEcdsaVerif d) s.
Proof.
  unfold SECBOOT_ECDSA_Verify_Signature.
  destruct ((sg =? 0) || (pk =? 0)); [left; reflexivity|].
  destruct (negb (l =? SECBOOT_ECDSA_SHA256_DIGEST_SIZE)); [left; reflexivity|].
  destruct HAL_PKA_GetState; try (left; reflexivity).
  destruct (negb get_prime256v1_curve); [left; reflexivity|].
  destruct (HAL_PKA_ECDSAVerif _ _ _ _ _); try (right; reflexivity).
  destruct (HAL_PKA_ECDSAVerif_IsValidSignature _ _ _ _ _); right; reflexivity.
Qed.

Lemma ECDSA_Verify_success_machine (d : list byte) (l sg pk : Z) (s : machine) :
  fst (SECBOOT_ECDSA_Verify_Signature d l sg pk s) = SECBOOT_ECDSA_VERIFICATION_SUCCESS ->
  snd (SECBOOT_ECDSA_Verify_Signature d l sg pk s) = record_hw (OpEcdsaVerif d) s.
Proof.
  unfold SECBOOT_ECDSA_Verify_Signature.
  destruct ((sg =? 0) || (pk =? 0)); [discriminate|].
  destruct (negb (l =? SECBOOT_ECDSA_SHA256_DIGEST_SIZE)); [discriminate|].
  destruct HAL_PKA_GetState; try discriminate.
  destruct (negb get_prime256v1_curve); [discriminate|].
  destruct (HAL_PKA_ECDSAVerif _ _ _ _ _); try discriminate.
  destruct (HAL_PKA_ECDSAVerif_IsValidSignature _ _ _ _ _); try discriminate. reflexivity.
Qed.

Lemma ECDSA_Verify_memory (d : list byte) (l sg pk : Z) (s1 s2 : machine) :
  memory s1 = memory s2 ->
  fst (SECBOOT_ECDSA_Verify_Signature d l sg pk s1)
  = fst (SECBOOT_ECDSA_Verify_Signature d l sg pk s2).
Proof.
  intros Hm. unfold SECBOOT_ECDSA_Verify_Signature. rewrite Hm.
  destruct ((sg =? 0) || (pk =? 0)); [reflexivity|].
  destruct (negb (l =? SECBOOT_ECDSA_SHA256_DIGEST_SIZE)); [reflexivity|].
  destruct HAL_PKA_GetState; try reflexivity.
  destruct (negb get_prime256v1_curve); [reflexivity|].
  destruct (HAL_PKA_ECDSAVerif _ _ _ _ _); try reflexivity.
  destruct (HAL_PKA_ECDSAVerif_IsValidSignature _ _ _ _ _); reflexivity.
Qed.

(** [SECBOOT_BootManager_VerifyAppSignature] unfolded along its stages: the
    status and the final machine in terms of the two wrappers' answers on
    the entry machine [s1] (the state once the call is recorded). *)
Lemma VerifyAppSignature_unfold (a : Z) (s : machine) :
  let s1 := record_call (CallVerifyAppSignature a) s in
  let m := memory s in
  let sha := SECBOOT_SHA256_Compute (header_entryPoint m a) (header_imageSize m a)
                                    (repeat Byte.x00 32) s1 in
  let digest := snd (fst sha) in
  let s2 := snd sha in
  let ecdsa := SECBOOT_ECDSA_Verify_Signature digest FW_HASH_SIZE (a + OFS_signature)
                                              ECC_PUBKEY_OFFSET s2 in
  SECBOOT_BootManager_VerifyAppSignature a s =
  if negb (header_magicNumber m a =? FW_MAGIC_NUMBER) then (SECBOOT_BOOTMANAGER_INVALID_HEADER, s1)
  else match fst (fst sha) with
       | SECBOOT_SHA256_OK =>
           if negb (bytes_eqb digest (header_firmwareHash m a))
           then (SECBOOT_BOOTMANAGER_INVALID_HASH, s2)
           else match fst ecdsa with
                | SECBOOT_ECDSA_VERIFICATION_SUCCESS =>
                    (SECBOOT_BOOTMANAGER_OK,
                     set_memory (memset (memset (memory (snd ecdsa)) ECC_PUBKEY_OFFSET Byte.x00 64)
                                        (a + OFS_signature) Byte.x00 64) (snd ecdsa))
                | _ => (SECBOOT_BOOTMANAGER_INVALID_SIGNATURE, snd ecdsa)
                end
       | _ => (SECBOOT_BOOTMANAGER_ERROR, s2)
       end.
Proof.
  intros s1 m sha digest s2 ecdsa.
  unfold SECBOOT_BootManager_VerifyAppSignature.
  fold s1. change (memory s1) with m.
  unfold header_magicNumber, header_firmwareHash.
  destruct (negb (load32 m (a + OFS_magicNumber) =? FW_MAGIC_NUMBER)); [reflexivity|].
  change (Z.to_nat FW_HASH_SIZE) with 32%nat.
  fold (header_entryPoint m a). fold (header_imageSize m a). fold sha.
  assert (Hm2 : memory s2 = m).
  { subst s2. destruct (SHA256_Compute_machine (header_entryPoint m a) (header_imageSize m a)
                          (repeat Byte.x00 32) s1) as [E|E]; fold sha in E; rewrite E; reflexivity. }
  destruct sha as [[hst dg] s2'] eqn:Hsha. cbn [fst snd] in *. subst digest s2.
  destruct hst; try reflexivity.
  rewrite Hm2.
  destruct (negb (bytes_eqb dg (load_bytes m (a + OFS_firmwareHash) 32))); [reflexivity|].
  fold ecdsa. destruct ecdsa as [est s3]. cbn [fst snd].
  destruct est; reflexivity.
Qed.

End WithHAL.
End Verify_Facts.

Module Verify_Stages.
Import BootManager Verify_Facts.

Section WithHAL.
Context {hal : HAL}.

(** The staged description of [VerifyAppSignature_unfold], with the answers
    of the wrappers taken on the caller's machine [s]. *)
Lemma VerifyAppSignature_cases (a : Z) (s : machine) :
  let m := memory s in
  let s1 := record_call (CallVerifyAppSignature a) s in
  let e := header_entryPoint m a in
  let n := header_imageSize m a in
  let sha := SECBOOT_SHA256_Compute e n (repeat Byte.x00 32) s in
  let digest := snd (fst sha) in
  let ecdsa := fst (SECBOOT_ECDSA_Verify_Signature digest FW_HASH_SIZE (a + OFS_signature)
                                                   ECC_PUBKEY_OFFSET s) in
  let r := SECBOOT_BootManager_VerifyAppSignature a s in
  (header_magicNumber m a <> FW_MAGIC_NUMBER /\
   r = (SECBOOT_BOOTMANAGER_INVALID_HEADER, s1))
  \/ (header_magicNumber m a = FW_MAGIC_NUMBER /\ fst (fst sha) <> SECBOOT_SHA256_OK /\
      fst r = SECBOOT_BOOTMANAGER_ERROR /\ memory (snd r) = m /\
      (hw (snd r) = hw s \/ hw (snd r) = OpHash e n :: hw s))
  \/ (header_magicNumber m a = FW_MAGIC_NUMBER /\ fst (fst sha) = SECBOOT_SHA256_OK /\
      digest <> header_firmwareHash m a /\
      r = (SECBOOT_BOOTMANAGER_INVALID_HASH, record_hw (OpHash e n) s1))
  \/ (header_magicNumber m a = FW_MAGIC_NUMBER /\ fst (fst sha) = SECBOOT_SHA256_OK /\
      digest = header_firmwareHash m a /\ ecdsa <> SECBOOT_ECDSA_VERIFICATION_SUCCESS /\
      fst r = SECBOOT_BOOTMANAGER_INVALID_SIGNATURE /\ memory (snd r) = m /\
      (hw (snd r) = OpHash e n :: hw s \/ hw (snd r) = OpEcdsaVerif digest :: OpHash e n :: hw s))
  \/ (header_magicNumber m a = FW_MAGIC_NUMBER /\ fst (fst sha) = SECBOOT_SHA256_OK /\
      digest = header_firmwareHash m a /\ ecdsa = SECBOOT_ECDSA_VERIFICATION_SUCCESS /\
      r = (SECBOOT_BOOTMANAGER_OK,
           set_memory (memset (memset m ECC_PUBKEY_OFFSET Byte.x00 64)
                              (a + OFS_signature) Byte.x00 64)
                      (record_hw (OpEcdsaVerif digest) (record_hw (OpHash e n) s1)))).
Proof.
  intros m s1 e n sha digest ecdsa r.
  subst r. rewrite VerifyAppSignature_unfold. fold m s1 e n.
  destruct (Z.eqb_spec (header_magicNumber m a) FW_MAGIC_NUMBER) as [Hmagic|Hmagic]; cbn [negb];
    [|left; split; [assumption|reflexivity]].
  right.
  pose proof (SHA256_Compute_memory e n (repeat Byte.x00 32) s1 s eq_refl) as Hsame.
  fold sha in Hsame.
  set (sha1 := SECBOOT_SHA256_Compute e n (repeat Byte.x00 32) s1) in *.
  assert (Hst : fst (fst sha1) = fst (fst sha)) by (now rewrite Hsame).
  assert (Hdg : snd (fst sha1) = digest) by (subst digest; now rewrite Hsame).
  rewrite Hdg.
  destruct (fst (fst sha1)) eqn:Hsha1.
  2-5: left; rewrite <- Hst; repeat split; try assumption; try discriminate; cbn [snd];
       destruct (SHA256_Compute_machine e n (repeat Byte.x00 32) s1) as [E|E];
       fold sha1 in E; rewrite E; auto.
  right.
  pose proof (SHA256_Compute_ok_machine e n (repeat Byte.x00 32) s1 Hsha1) as Hs2.
  fold sha1 in Hs2. rewrite Hs2.
  destruct (bytes_eqb digest (header_firmwareHash m a)) eqn:Heq; cbn [negb].
  2:{ left. repeat split; try assumption; try (now rewrite <- Hst).
      intros Habs. apply bytes_eqb_eq in Habs. congruence. }
  right. apply bytes_eqb_eq in Heq.
  set (s2 := record_hw (OpHash e n) s1) in *.
  pose proof (ECDSA_Verify_memory digest FW_HASH_SIZE (a + OFS_signature) ECC_PUBKEY_OFFSET
                s2 s eq_refl) as Hest.
  fold ecdsa in Hest.
  set (ev := SECBOOT_ECDSA_Verify_Signature digest FW_HASH_SIZE (a + OFS_signature)
               ECC_PUBKEY_OFFSET s2) in *.
  destruct (fst ev) eqn:Hev.
  8:{ right. repeat split; try assumption; try (now rewrite <- Hst); try (now rewrite <- Hest).
      pose proof (ECDSA_Verify_success_machine _ _ _ _ _ Hev) as E. fold ev in E.
      rewrite E. reflexivity. }
  all: left; rewrite <- Hest; repeat split; try assumption; try (now rewrite <- Hst);
       try discriminate; cbn [snd];
       destruct (ECDSA_Verify_machine digest FW_HASH_SIZE (a + OFS_signature)
                   ECC_PUBKEY_OFFSET s2) as [E|E];
       fold ev in E; rewrite E; auto.
Qed.

End WithHAL.
End Verify_Stages.

(** C5 (amended).  [SECBOOT_BootManager_VerifyAppSignature] checks in order
    and stops at the first failure: a wrong magic number gives
    INVALID_HEADER and no hash is computed; then, if the hash wrapper itself
    fails (null entry point, [imageSize] = 0, or an error of the engine),
    the result is ERROR (a fourth failure status) and no signature is
    verified; then a digest different from the stored hash gives INVALID_HASH
    and no signature is verified; then a signature that does not verify
    gives INVALID_SIGNATURE; otherwise the result is OK. *)
Theorem VerifyAppSignature_stages (hal : HAL) (a : Z) (s : machine) :
  let m := memory s in
  let e := header_entryPoint m a in
  let n := header_imageSize m a in
  let sha := SECBOOT_SHA256_Compute e n (repeat Byte.x00 32) s in
  let digest := snd (fst sha) in
  let ecdsa := fst (SECBOOT_ECDSA_Verify_Signature digest FW_HASH_SIZE (a + OFS_signature)
                                                   ECC_PUBKEY_OFFSET s) in
  let r := BootManager.SECBOOT_BootManager_VerifyAppSignature a s in
  (header_magicNumber m a <> FW_MAGIC_NUMBER ->
     fst r = SECBOOT_BOOTMANAGER_INVALID_HEADER /\ hw_since s (snd r) = []) /\
  (header_magicNumber m a = FW_MAGIC_NUMBER ->
     (fst (fst sha) <> SECBOOT_SHA256_OK ->
        fst r = SECBOOT_BOOTMANAGER_ERROR /\
        forall d, ~ In (OpEcdsaVerif d) (hw_since s (snd r))) /\
     (fst (fst sha) = SECBOOT_SHA256_OK -> digest <> header_firmwareHash m a ->
        fst r = SECBOOT_BOOTMANAGER_INVALID_HASH /\ hw_since s (snd r) = [OpHash e n]) /\
     (fst (fst sha) = SECBOOT_SHA256_OK -> digest = header_firmwareHash m a ->
        ecdsa <> SECBOOT_ECDSA_VERIFICATION_SUCCESS ->
        fst r = SECBOOT_BOOTMANAGER_INVALID_SIGNATURE) /\
     (fst (fst sha) = SECBOOT_SHA256_OK -> digest = header_firmwareHash m a ->
        ecdsa = SECBOOT_ECDSA_VERIFICATION_SUCCESS ->
        fst r = SECBOOT_BOOTMANAGER_OK)) /\
  (e = 0 \/ n = 0 -> fst (fst sha) <> SECBOOT_SHA256_OK).
Proof.
  intros m e n sha digest ecdsa r.
  pose proof (Verify_Stages.VerifyAppSignature_cases a s) as H.
  cbv zeta in H. fold m e n sha digest ecdsa r in H.
  split; [|split].
  - intros Hmagic.
    destruct H as [[_ Hr]|[H|[H|[H|H]]]]; try (exfalso; apply Hmagic, H).
    rewrite Hr. split; [reflexivity|].
    apply Verify_Facts.hw_since_app. reflexivity.
  - intros Hmagic.
    destruct H as [[Hm _]|[H|[H|[H|H]]]]; [contradiction| | | |].
    + destruct H as (_ & Hsha & Hr & _ & Hhw).
      split; [|split; [|split]]; intros; try contradiction.
      split; [exact Hr|]. intros d Hin.
      destruct Hhw as [Hhw|Hhw].
      * rewrite (Verify_Facts.hw_since_app s (snd r) []) in Hin by (now rewrite Hhw). exact Hin.
      * rewrite (Verify_Facts.hw_since_app s (snd r) [OpHash e n]) in Hin by (now rewrite Hhw).
        destruct Hin as [Hin|[]]. discriminate.
    + destruct H as (_ & Hsha & Hne & Hr).
      split; [|split; [|split]]; intros; try contradiction.
      rewrite Hr. split; [reflexivity|]. apply Verify_Facts.hw_since_app. reflexivity.
    + destruct H as (_ & Hsha & Heq & Hne & Hr & _).
      split; [|split; [|split]]; intros; try contradiction. exact Hr.
    + destruct H as (_ & Hsha & Heq & Hok & Hr).
      split; [|split; [|split]]; intros; try contradiction. rewrite Hr. reflexivity.
  - intros Hzero. subst sha. unfold SECBOOT_SHA256_Compute.
    destruct Hzero as [-> | ->].
    + cbn. discriminate.
    + destruct (e =? 0); cbn; discriminate.
Qed.

(** C5, as stated, fails on an image with a good magic number whose header
    announces a payload of zero bytes: the digest of that (empty) payload
    differs from the stored hash, and the status is not INVALID_HASH (nor
    INVALID_SIGNATURE or OK), it is ERROR. *)
Lemma VerifyAppSignature_zero_imageSize :
  header_magicNumber (Fixture.flash_with_image 0 0) Fixture.image_addr = FW_MAGIC_NUMBER /\
  Bench.toy_digest (load_bytes (Fixture.flash_with_image 0 0) Fixture.entry_point 0)
  <> header_firmwareHash (Fixture.flash_with_image 0 0) Fixture.image_addr /\
  fst (@BootManager.SECBOOT_BootManager_VerifyAppSignature Bench.bench_HAL Fixture.image_addr
         (Bench.reset_machine (Fixture.flash_with_image 0 0)))
  = SECBOOT_BOOTMANAGER_ERROR.
Proof.
  split; [vm_compute; reflexivity|].
  split; [vm_compute; discriminate|vm_compute; reflexivity].
Qed.

(** The four statuses of the three checks on the reference peripherals. *)
Example VerifyAppSignature_statuses :
  fst (@BootManager.SECBOOT_BootManager_VerifyAppSignature Bench.bench_HAL Fixture.image_addr
         (Bench.reset_machine Bench.erased_mem)) = SECBOOT_BOOTMANAGER_INVALID_HEADER /\
  fst (@BootManager.SECBOOT_BootManager_VerifyAppSignature Bench.bench_HAL Fixture.image_addr
         (Bench.reset_machine (Fixture.flash_with_image 31 0))) = SECBOOT_BOOTMANAGER_INVALID_HASH /\
  fst (@BootManager.SECBOOT_BootManager_VerifyAppSignature Bench.bench_HAL Fixture.image_addr
         (Bench.reset_machine
            (store_byte (Fixture.flash_with_image 32 0) (Fixture.image_addr + OFS_signature)
                        Byte.xff))) = SECBOOT_BOOTMANAGER_INVALID_SIGNATURE /\
  fst (@BootManager.SECBOOT_BootManager_VerifyAppSignature Bench.bench_HAL Fixture.image_addr
         (Bench.reset_machine (Fixture.flash_with_image 32 0))) = SECBOOT_BOOTMANAGER_OK.
Proof. repeat split; vm_compute; reflexivity. Qed.

Module Verify_Frame.
Import BootManager Verify_Facts.

Lemma load_bytes_const (m : mem) (c : byte) (n : nat) (a : Z) :
  (forall x, a <= x < a + Z.of_nat n -> m x = c) -> load_bytes m a n = repeat c n.
Proof.
  revert a. induction n as [|n IH]; intros a H; simpl; [reflexivity|].
  rewrite (H a) by lia. f_equal. apply IH. intros x Hx. apply H. lia.
Qed.

Lemma load32_store32_disjoint (m : mem) (a b v : Z) :
  b + 4 <= a \/ a + 4 <= b -> load32 (store32 m a v) b = load32 m b.
Proof.
  intros H. unfold load32, store32. f_equal.
  apply load_store_disjoint. rewrite length_le_split. lia.
Qed.

Section WithHAL.
Context {hal : HAL}.

(** The hash wrapper reads the [n] bytes at [p] and nothing else. *)
Lemma SHA256_Compute_reads (p n : Z) (out : list byte) (s1 s2 : machine) :
  load_bytes (memory s1) p (Z.to_nat n) = load_bytes (memory s2) p (Z.to_nat n) ->
  hw s1 = hw s2 ->
  fst (SECBOOT_SHA256_Compute p n out s1) = fst (SECBOOT_SHA256_Compute p n out s2) /\
  hw (snd (SECBOOT_SHA256_Compute p n out s1)) = hw (snd (SECBOOT_SHA256_Compute p n out s2)).
Proof.
  intros Hd Hhw. unfold SECBOOT_SHA256_Compute. rewrite Hd.
  destruct (p =? 0); [split; [reflexivity|exact Hhw]|].
  destruct (n =? 0); [split; [reflexivity|exact Hhw]|].
  destruct (HAL_HASHEx_SHA256_Start _);
    try (split; [reflexivity|cbn [snd hw record_hw]; now rewrite Hhw]).
  destruct (HAL_HASHEx_SHA256_Finish _) as [[] d];
    (split; [reflexivity|cbn [snd hw record_hw]; now rewrite Hhw]).
Qed.

(** The signature wrapper reads R, S, Qx and Qy and nothing else. *)
Lemma ECDSA_Verify_reads (d : list byte) (l sg pk : Z) (s1 s2 : machine) :
  load_bytes (memory s1) sg 32 = load_bytes (memory s2) sg 32 ->
  load_bytes (memory s1) (sg + 32) 32 = load_bytes (memory s2) (sg + 32) 32 ->
  load_bytes (memory s1) pk 32 = load_bytes (memory s2) pk 32 ->
  load_bytes (memory s1) (pk + 32) 32 = load_bytes (memory s2) (pk + 32) 32 ->
  hw s1 = hw s2 ->
  fst (SECBOOT_ECDSA_Verify_Signature d l sg pk s1)
  = fst (SECBOOT_ECDSA_Verify_Signature d l sg pk s2) /\
  hw (snd (SECBOOT_ECDSA_Verify_Signature d l sg pk s1))
  = hw (snd (SECBOOT_ECDSA_Verify_Signature d l sg pk s2)).
Proof.
  intros H1 H2 H3 H4 Hhw. unfold SECBOOT_ECDSA_Verify_Signature. rewrite H1, H2, H3, H4.
  destruct ((sg =? 0) || (pk =? 0)); [split; [reflexivity|exact Hhw]|].
  destruct (negb (l =? SECBOOT_ECDSA_SHA256_DIGEST_SIZE)); [split; [reflexivity|exact Hhw]|].
  destruct HAL_PKA_GetState; try (split; [reflexivity|exact Hhw]).
  destruct (negb get_prime256v1_curve); [split; [reflexivity|exact Hhw]|].
  destruct (HAL_PKA_ECDSAVerif _ _ _ _ _);
    try (split; [reflexivity|cbn [snd hw record_hw]; now rewrite Hhw]).
  destruct (HAL_PKA_ECDSAVerif_IsValidSignature _ _ _ _ _);
    (split; [reflexivity|cbn [snd hw record_hw]; now rewrite Hhw]).
Qed.

(** Verification leaves the memory alone unless it succeeds. *)
Lemma VerifyAppSignature_failure_memory (a : Z) (s : machine) :
  fst (SECBOOT_BootManager_VerifyAppSignature a s) <> SECBOOT_BOOTMANAGER_OK ->
  memory (snd (SECBOOT_BootManager_VerifyAppSignature a s)) = memory s.
Proof.
  intros Hne.
  pose proof (Verify_Stages.VerifyAppSignature_cases a s) as H. cbv zeta in H.
  destruct H as [[_ Hr]|[H|[H|[H|H]]]].
  - rewrite Hr. reflexivity.
  - apply H.
  - destruct H as (_ & _ & _ & Hr). rewrite Hr. reflexivity.
  - apply H.
  - destruct H as (_ & _ & _ & _ & Hr). rewrite Hr in Hne. contradiction Hne. reflexivity.
Qed.

(** Verification never moves the log index and records one call. *)
Lemma VerifyAppSignature_calls (a : Z) (s : machine) :
  calls (snd (SECBOOT_BootManager_VerifyAppSignature a s)) = CallVerifyAppSignature a :: calls s
  /\ log_index (snd (SECBOOT_BootManager_VerifyAppSignature a s)) = log_index s
  /\ uwTick (snd (SECBOOT_BootManager_VerifyAppSignature a s)) = uwTick s
  /\ stack_residue (snd (SECBOOT_BootManager_VerifyAppSignature a s)) = stack_residue s.
Proof.
  rewrite VerifyAppSignature_unfold. cbv zeta.
  set (s1 := record_call (CallVerifyAppSignature a) s).
  set (sha := SECBOOT_SHA256_Compute _ _ _ s1).
  set (ev := SECBOOT_ECDSA_Verify_Signature _ _ _ _ (snd sha)).
  assert (Hs2 : calls (snd sha) = calls s1 /\ log_index (snd sha) = log_index s1 /\
                uwTick (snd sha) = uwTick s1 /\ stack_residue (snd sha) = stack_residue s1).
  { subst sha. destruct (SHA256_Compute_machine (header_entryPoint (memory s) a)
                           (header_imageSize (memory s) a) (repeat Byte.x00 32) s1) as [E|E];
      rewrite E; repeat split. }
  assert (Hs3 : calls (snd ev) = calls s1 /\ log_index (snd ev) = log_index s1 /\
                uwTick (snd ev) = uwTick s1 /\ stack_residue (snd ev) = stack_residue s1).
  { subst ev. destruct (ECDSA_Verify_machine (snd (fst sha)) FW_HASH_SIZE (a + OFS_signature)
                          ECC_PUBKEY_OFFSET (snd sha)) as [E|E];
      rewrite E; cbn [calls log_index uwTick stack_residue record_hw]; exact Hs2. }
  destruct (negb _); [repeat split|].
  destruct (fst (fst sha)); try exact Hs2.
  destruct (negb _); [exact Hs2|].
  destruct (fst ev); exact Hs3.
Qed.

End WithHAL.
End Verify_Frame.

(** C3.  What the success path of [SECBOOT_BootManager_VerifyAppSignature]
    does to the stored material: [public_key] and [signature] are not local
    copies but pointers to the provisioned key and into the header, so when
    the function returns OK the 64 bytes of the stored public key and the 64
    bytes of the header's signature field have been overwritten with zero. *)
Theorem VerifyAppSignature_success_overwrites_key_and_signature
  (hal : HAL) (a : Z) (s : machine) :
  fst (BootManager.SECBOOT_BootManager_VerifyAppSignature a s) = SECBOOT_BOOTMANAGER_OK ->
  stored_public_key (memory (snd (BootManager.SECBOOT_BootManager_VerifyAppSignature a s)))
  = repeat Byte.x00 64 /\
  header_signature (memory (snd (BootManager.SECBOOT_BootManager_VerifyAppSignature a s))) a
  = repeat Byte.x00 64.
Proof.
  intros Hok.
  pose proof (Verify_Stages.VerifyAppSignature_cases a s) as H. cbv zeta in H.
  destruct H as [[_ Hr]|[H|[H|[H|H]]]].
  - rewrite Hr in Hok. discriminate.
  - destruct H as (_ & _ & Hr & _). rewrite Hr in Hok. discriminate.
  - destruct H as (_ & _ & _ & Hr). rewrite Hr in Hok. discriminate.
  - destruct H as (_ & _ & _ & _ & Hr & _). rewrite Hr in Hok. discriminate.
  - destruct H as (_ & _ & _ & _ & Hr). rewrite Hr. cbn [snd memory set_memory].
    unfold stored_public_key, header_signature.
    split; apply Verify_Frame.load_bytes_const; intros x Hx; rewrite !memset_read;
    zcases; reflexivity.
Qed.

(** The test image verifies, and the call leaves neither the provisioned
    key nor the signature behind. *)
Lemma VerifyAppSignature_success_overwrites_witness :
  stored_public_key
    (memory (snd (@BootManager.SECBOOT_BootManager_VerifyAppSignature Bench.bench_HAL
                    Fixture.image_addr (Bench.reset_machine (Fixture.flash_with_image 32 0)))))
  = repeat Byte.x00 64 /\
  header_signature
    (memory (snd (@BootManager.SECBOOT_BootManager_VerifyAppSignature Bench.bench_HAL
                    Fixture.image_addr (Bench.reset_machine (Fixture.flash_with_image 32 0)))))
    Fixture.image_addr
  = repeat Byte.x00 64.
Proof.
  apply (VerifyAppSignature_success_overwrites_key_and_signature Bench.bench_HAL
           Fixture.image_addr (Bench.reset_machine (Fixture.flash_with_image 32 0))).
  vm_compute. reflexivity.
Defined.

(** Before that call the flash held the key and the signature. *)
Example stored_material_before_verification :
  stored_public_key (Fixture.flash_with_image 32 0) = Fixture.public_key /\
  Fixture.public_key <> repeat Byte.x00 64 /\
  header_signature (Fixture.flash_with_image 32 0) Fixture.image_addr
  = Bench.toy_digest Fixture.payload ++ repeat (byte.of_Z 0x5A) 32.
Proof.
  split; [vm_compute; reflexivity|].
  split; [vm_compute; discriminate|vm_compute; reflexivity].
Qed.

Module Verify_HeaderCRC.
Import BootManager Verify_Facts Verify_Frame.

Section WithHAL.
Context {hal : HAL}.

(** The peripherals a verification uses: nothing, the hash engine, or the
    hash engine then the PKA.  The CRC unit is never among them. *)
Lemma VerifyAppSignature_hw (a : Z) (s : machine) :
  let e := header_entryPoint (memory s) a in
  let n := header_imageSize (memory s) a in
  let r := SECBOOT_BootManager_VerifyAppSignature a s in
  hw_since s (snd r) = [] \/ hw_since s (snd r) = [OpHash e n] \/
  exists d, hw_since s (snd r) = [OpEcdsaVerif d; OpHash e n].
Proof.
  intros e n r.
  pose proof (Verify_Stages.VerifyAppSignature_cases a s) as H. cbv zeta in H.
  fold e n r in H.
  destruct H as [[_ Hr]|[H|[H|[H|H]]]].
  - left. rewrite Hr. apply hw_since_app. reflexivity.
  - destruct H as (_ & _ & _ & _ & [Hhw|Hhw]).
    + left. apply hw_since_app. now rewrite Hhw.
    + right. left. apply hw_since_app. now rewrite Hhw.
  - destruct H as (_ & _ & _ & Hr). right. left. rewrite Hr. apply hw_since_app. reflexivity.
  - destruct H as (_ & _ & _ & _ & _ & _ & [Hhw|Hhw]).
    + right. left. apply hw_since_app. now rewrite Hhw.
    + right. right. eexists. apply hw_since_app. now rewrite Hhw.
  - destruct H as (_ & _ & _ & _ & Hr). right. right. eexists. rewrite Hr.
    apply hw_since_app. reflexivity.
Qed.

Lemma header_imageSize_nonneg (m : mem) (a : Z) : 0 <= header_imageSize m a.
Proof. unfold header_imageSize, load32. apply le_combine_bound. Qed.

(** Status and peripheral use of a verification are those of the same
    verification with any other value in the [headerCRC] field. *)
Lemma VerifyAppSignature_headerCRC_irrelevant (a v : Z) (s : machine) :
  let m := memory s in
  let e := header_entryPoint m a in
  let n := header_imageSize m a in
  (e + n <= a + OFS_headerCRC \/ a + OFS_headerCRC + 4 <= e) ->
  (ECC_PUBKEY_OFFSET + 64 <= a + OFS_headerCRC \/ a + OFS_headerCRC + 4 <= ECC_PUBKEY_OFFSET) ->
  let s' := set_memory (store32 m (a + OFS_headerCRC) v) s in
  fst (SECBOOT_BootManager_VerifyAppSignature a s')
  = fst (SECBOOT_BootManager_VerifyAppSignature a s) /\
  hw (snd (SECBOOT_BootManager_VerifyAppSignature a s'))
  = hw (snd (SECBOOT_BootManager_VerifyAppSignature a s)).
Proof.
  intros m e n Hpayload Hkey s'.
  pose proof (header_imageSize_nonneg m a) as Hn. fold n in Hn.
  unfold OFS_headerCRC in *.
  assert (Hmem' : memory s' = store32 m (a + 112) v) by reflexivity.
  assert (Hmagic : header_magicNumber (memory s') a = header_magicNumber m a).
  { rewrite Hmem'. apply load32_store32_disjoint. unfold OFS_magicNumber. lia. }
  assert (He : header_entryPoint (memory s') a = e).
  { rewrite Hmem'. apply load32_store32_disjoint. unfold OFS_entryPoint. lia. }
  assert (Hsz : header_imageSize (memory s') a = n).
  { rewrite Hmem'. apply load32_store32_disjoint. unfold OFS_imageSize. lia. }
  assert (Hhash : header_firmwareHash (memory s') a = header_firmwareHash m a).
  { rewrite Hmem'. apply load_store_disjoint. rewrite length_le_split.
    unfold OFS_firmwareHash. lia. }
  rewrite !VerifyAppSignature_unfold. cbv zeta.
  rewrite Hmagic, He, Hsz, Hhash. fold m e n.
  destruct (negb (header_magicNumber m a =? FW_MAGIC_NUMBER)); [split; reflexivity|].
  set (s1' := record_call (CallVerifyAppSignature a) s').
  set (s1 := record_call (CallVerifyAppSignature a) s).
  destruct (SHA256_Compute_reads e n (repeat Byte.x00 32) s1' s1) as [Hsha Hshw].
  { change (memory s1') with (store32 m (a + 112) v). change (memory s1) with m.
    apply load_store_disjoint. rewrite length_le_split. lia. }
  { reflexivity. }
  set (sha' := SECBOOT_SHA256_Compute e n (repeat Byte.x00 32) s1') in *.
  set (sha := SECBOOT_SHA256_Compute e n (repeat Byte.x00 32) s1) in *.
  assert (Hm2' : memory (snd sha') = store32 m (a + 112) v).
  { subst sha'. destruct (SHA256_Compute_machine e n (repeat Byte.x00 32) s1') as [E|E];
      rewrite E; reflexivity. }
  assert (Hm2 : memory (snd sha) = m).
  { subst sha. destruct (SHA256_Compute_machine e n (repeat Byte.x00 32) s1) as [E|E];
      rewrite E; reflexivity. }
  rewrite Hsha.
  destruct (fst (fst sha)); try (split; [reflexivity|exact Hshw]).
  destruct (negb _); [split; [reflexivity|exact Hshw]|].
  destruct (ECDSA_Verify_reads (snd (fst sha)) FW_HASH_SIZE (a + OFS_signature)
              ECC_PUBKEY_OFFSET (snd sha') (snd sha)) as [Hev Hehw].
  { rewrite Hm2', Hm2. apply load_store_disjoint. rewrite length_le_split.
    unfold OFS_signature. lia. }
  { rewrite Hm2', Hm2. apply load_store_disjoint. rewrite length_le_split.
    unfold OFS_signature. lia. }
  { rewrite Hm2', Hm2. apply load_store_disjoint. rewrite length_le_split. lia. }
  { rewrite Hm2', Hm2. apply load_store_disjoint. rewrite length_le_split. lia. }
  { exact Hshw. }
  rewrite Hev.
  destruct (fst (SECBOOT_ECDSA_Verify_Signature _ _ _ _ (snd sha)));
    (split; [reflexivity|exact Hehw]).
Qed.

(** Once the magic number is accepted, [entryPoint] and [imageSize] are
    used as they stand to hash the payload. *)
Lemma VerifyAppSignature_hashes_payload (a : Z) (s : machine) :
  let m := memory s in
  let e := header_entryPoint m a in
  let n := header_imageSize m a in
  header_magicNumber m a = FW_MAGIC_NUMBER -> e <> 0 -> n <> 0 ->
  exists ops, hw (snd (SECBOOT_BootManager_VerifyAppSignature a s)) = ops ++ OpHash e n :: hw s.
Proof.
  intros m e n Hmagic He Hn.
  rewrite VerifyAppSignature_unfold. cbv zeta. fold m e n.
  replace (header_magicNumber m a =? FW_MAGIC_NUMBER) with true
    by (symmetry; apply Z.eqb_eq; exact Hmagic).
  cbn [negb].
  set (s1 := record_call (CallVerifyAppSignature a) s).
  assert (Hs2 : snd (SECBOOT_SHA256_Compute e n (repeat Byte.x00 32) s1)
                = record_hw (OpHash e n) s1).
  { unfold SECBOOT_SHA256_Compute.
    replace (e =? 0) with false by (symmetry; apply Z.eqb_neq; exact He).
    replace (n =? 0) with false by (symmetry; apply Z.eqb_neq; exact Hn).
    destruct (HAL_HASHEx_SHA256_Start _); try reflexivity.
    destruct (HAL_HASHEx_SHA256_Finish _) as [[] dg]; reflexivity. }
  set (sha := SECBOOT_SHA256_Compute e n (repeat Byte.x00 32) s1) in *.
  rewrite Hs2.
  destruct (fst (fst sha)); try (exists []; reflexivity).
  destruct (negb _); [exists []; reflexivity|].
  set (ev := SECBOOT_ECDSA_Verify_Signature _ _ _ _ _).
  destruct (ECDSA_Verify_machine (snd (fst sha)) FW_HASH_SIZE (a + OFS_signature)
              ECC_PUBKEY_OFFSET (record_hw (OpHash e n) s1)) as [E|E];
    fold ev in E; destruct (fst ev); rewrite E;
    first [ exists []; reflexivity | eexists [_]; reflexivity ].
Qed.

End WithHAL.
End Verify_HeaderCRC.

(** C2 (amended).  [SECBOOT_BootManager_VerifyAppSignature] does not verify
    [headerCRC]: whatever value the field holds, the status and the use of
    the peripherals are the same (the field lying outside the payload and
    the provisioned key), and the CRC unit is not used at all.  The one
    header gate passed before [entryPoint] and [imageSize] locate the payload
    is the magic number. *)
Theorem VerifyAppSignature_does_not_check_headerCRC (hal : HAL) (a v : Z) (s : machine) :
  let m := memory s in
  let e := header_entryPoint m a in
  let n := header_imageSize m a in
  (e + n <= a + OFS_headerCRC \/ a + OFS_headerCRC + 4 <= e) ->
  (ECC_PUBKEY_OFFSET + 64 <= a + OFS_headerCRC \/ a + OFS_headerCRC + 4 <= ECC_PUBKEY_OFFSET) ->
  let s' := set_memory (store32 m (a + OFS_headerCRC) v) s in
  fst (BootManager.SECBOOT_BootManager_VerifyAppSignature a s')
  = fst (BootManager.SECBOOT_BootManager_VerifyAppSignature a s) /\
  hw (snd (BootManager.SECBOOT_BootManager_VerifyAppSignature a s'))
  = hw (snd (BootManager.SECBOOT_BootManager_VerifyAppSignature a s)) /\
  (forall d, ~ In (OpCrc d)
                  (hw_since s (snd (BootManager.SECBOOT_BootManager_VerifyAppSignature a s)))) /\
  (header_magicNumber m a = FW_MAGIC_NUMBER -> e <> 0 -> n <> 0 ->
   exists ops, hw_since s (snd (BootManager.SECBOOT_BootManager_VerifyAppSignature a s))
               = ops ++ [OpHash e n]).
Proof.
  intros m e n Hpayload Hkey s'.
  destruct (Verify_HeaderCRC.VerifyAppSignature_headerCRC_irrelevant a v s Hpayload Hkey)
    as [Hst Hhw].
  split; [exact Hst|]. split; [exact Hhw|]. split.
  - intros d Hin.
    destruct (Verify_HeaderCRC.VerifyAppSignature_hw a s) as [E|[E|[d' E]]];
      rewrite E in Hin; cbn [In] in Hin;
      repeat match goal with H : _ \/ _ |- _ => destruct H end;
      try discriminate; contradiction.
  - intros Hmagic He Hn.
    destruct (Verify_HeaderCRC.VerifyAppSignature_hashes_payload a s Hmagic He Hn) as [ops Hops].
    exists ops. apply Verify_Facts.hw_since_app. rewrite Hops.
    rewrite <- app_assoc. reflexivity.
Qed.

(** The test image with 0xCAFEBABE written over its header CRC field
    verifies like the image itself. *)
Lemma VerifyAppSignature_does_not_check_headerCRC_witness :
  fst (@BootManager.SECBOOT_BootManager_VerifyAppSignature Bench.bench_HAL Fixture.image_addr
         (set_memory (store32 (memory Fixture.good_machine)
                              (Fixture.image_addr + OFS_headerCRC) 0xCAFEBABE)
                     Fixture.good_machine))
  = fst (@BootManager.SECBOOT_BootManager_VerifyAppSignature Bench.bench_HAL Fixture.image_addr
           Fixture.good_machine) /\
  hw (snd (@BootManager.SECBOOT_BootManager_VerifyAppSignature Bench.bench_HAL Fixture.image_addr
             (set_memory (store32 (memory Fixture.good_machine)
                                  (Fixture.image_addr + OFS_headerCRC) 0xCAFEBABE)
                         Fixture.good_machine)))
  = hw (snd (@BootManager.SECBOOT_BootManager_VerifyAppSignature Bench.bench_HAL
               Fixture.image_addr Fixture.good_machine)) /\
  (forall d, ~ In (OpCrc d)
      (hw_since Fixture.good_machine
         (snd (@BootManager.SECBOOT_BootManager_VerifyAppSignature Bench.bench_HAL
                 Fixture.image_addr Fixture.good_machine)))) /\
  (header_magicNumber (memory Fixture.good_machine) Fixture.image_addr = FW_MAGIC_NUMBER ->
   header_entryPoint (memory Fixture.good_machine) Fixture.image_addr <> 0 ->
   header_imageSize (memory Fixture.good_machine) Fixture.image_addr <> 0 ->
   exists ops,
     hw_since Fixture.good_machine
       (snd (@BootManager.SECBOOT_BootManager_VerifyAppSignature Bench.bench_HAL
               Fixture.image_addr Fixture.good_machine))
     = ops ++ [OpHash (header_entryPoint (memory Fixture.good_machine) Fixture.image_addr)
                      (header_imageSize (memory Fixture.good_machine) Fixture.image_addr)]).
Proof.
  apply (VerifyAppSignature_does_not_check_headerCRC Bench.bench_HAL Fixture.image_addr
           0xCAFEBABE Fixture.good_machine).
  - right. vm_compute. discriminate.
  - right. vm_compute. discriminate.
Defined.

(** C2, as stated, fails on the test image: the CRC stored in its header is
    not the CRC-32 of the 112 bytes before it, and still the payload is
    located through [entryPoint] and [imageSize], hashed, the signature
    checked and the image accepted. *)
Lemma VerifyAppSignature_accepts_wrong_headerCRC :
  header_headerCRC (memory Fixture.good_machine) Fixture.image_addr
  <> Bench.crc32_unit (load_bytes (memory Fixture.good_machine) Fixture.image_addr 112) /\
  fst (@BootManager.SECBOOT_BootManager_VerifyAppSignature Bench.bench_HAL Fixture.image_addr
         Fixture.good_machine) = SECBOOT_BOOTMANAGER_OK /\
  hw (snd (@BootManager.SECBOOT_BootManager_VerifyAppSignature Bench.bench_HAL Fixture.image_addr
             Fixture.good_machine))
  = [OpEcdsaVerif (Bench.toy_digest Fixture.payload); OpHash Fixture.entry_point 32].
Proof.
  split; [vm_compute; discriminate|].
  split; vm_compute; reflexivity.
Qed.

(** ** The flash log (secboot_diag.c, SECBOOT_Diag_LogEvent) *)

Module Log_Facts.
Import Diag.

Section WithHAL.
Context {hal : HAL}.

(** The programming loop touches memory and the record of operations only. *)
Lemma program_entry_frame (log_addr : Z) (pData : list Z) :
  forall (i : Z) (s : machine),
    let s' := snd (program_entry log_addr pData i s) in
    calls s' = calls s /\ log_index s' = log_index s /\ uwTick s' = uwTick s /\
    stack_residue s' = stack_residue s.
Proof.
  induction pData as [|d rest IH]; intros i s; cbv zeta; cbn [program_entry].
  - repeat split.
  - destruct (HAL_FLASH_Program (memory s) (log_addr + i * 8) d) as [st m'].
    set (s1 := set_memory m' (record_hw (OpFlashProgram (log_addr + i * 8) d) s)).
    destruct st; [exact (IH (i + 1) s1) | | | ]; cbn [snd]; repeat split; reflexivity.
Qed.

(** [SECBOOT_Diag_LogEvent] records its call, and leaves the tick counter
    and the stack residue as they were. *)
Lemma LogEvent_frame (event code data : Z) (s : machine) :
  let s' := snd (SECBOOT_Diag_LogEvent event code data s) in
  calls s' = CallLogEvent event code data :: calls s /\ uwTick s' = uwTick s /\
  stack_residue s' = stack_residue s.
Proof.
  unfold SECBOOT_Diag_LogEvent.
  set (s0 := record_call (CallLogEvent event code data) s).
  destruct (event >? SECBOOT_DIAG_ROLLBACK_ATTEMPT); [repeat split; reflexivity|].
  unfold SECBOOT_CRC_Calculate.
  set (sa := record_hw _ s0).
  destruct (negb (load32 (memory sa) _ =? 0xFFFFFFFF)); [repeat split; reflexivity|].
  set (log_addr := u32 _).
  set (pData := doublewords _ _).
  pose proof (program_entry_frame log_addr pData 0 sa) as Hp. cbv zeta in Hp.
  destruct (program_entry log_addr pData 0 sa) as [st sb]. cbn [snd] in Hp.
  destruct Hp as (Hc & _ & Ht & Hr).
  destruct st; try (cbn [snd]; repeat split; assumption).
  destruct (negb _); cbn [snd calls uwTick stack_residue record_hw set_log_index];
    repeat split; assumption.
Qed.

(** The first-word check of step 4.2. *)
Lemma LogEvent_first_word_programmed (event code data : Z) (s : machine) :
  event <= SECBOOT_DIAG_ROLLBACK_ATTEMPT ->
  load32 (memory s) (next_log_addr s) <> 0xFFFFFFFF ->
  SECBOOT_Diag_LogEvent event code data s =
  (SECBOOT_DIAG_TAMPERED,
   record_hw (OpCrc (crc_covered (entry_bytes (stack_residue s)
                                    (mkEntry (HAL_GetTick s) event (u8 code) (u32 data) 0))))
             (record_call (CallLogEvent event code data) s)).
Proof.
  intros Hev Hword. unfold SECBOOT_Diag_LogEvent.
  replace (event >? SECBOOT_DIAG_ROLLBACK_ATTEMPT) with false
    by (symmetry; rewrite Z.gtb_ltb; apply Z.ltb_ge; exact Hev).
  unfold SECBOOT_CRC_Calculate at 1.
  cbn [memory log_index record_hw record_call].
  fold (next_log_addr s).
  replace (load32 (memory s) (next_log_addr s) =? 0xFFFFFFFF) with false
    by (symmetry; apply Z.eqb_neq; exact Hword).
  reflexivity.
Qed.

End WithHAL.
End Log_Facts.

(** The guard of step 4.2 as it is written: it reads the first 32-bit word
    of the target slot.  If that word is not 0xFFFFFFFF,
    [SECBOOT_Diag_LogEvent] (called with a valid event type) returns
    TAMPERED and programs nothing: the flash controller is not called,
    memory and the log index are unchanged. *)
Theorem LogEvent_rejects_slot_with_programmed_first_word
  (hal : HAL) (event code data : Z) (s : machine) :
  event <= SECBOOT_DIAG_ROLLBACK_ATTEMPT ->
  load32 (memory s) (next_log_addr s) <> 0xFFFFFFFF ->
  fst (Diag.SECBOOT_Diag_LogEvent event code data s) = SECBOOT_DIAG_TAMPERED /\
  memory (snd (Diag.SECBOOT_Diag_LogEvent event code data s)) = memory s /\
  log_index (snd (Diag.SECBOOT_Diag_LogEvent event code data s)) = log_index s /\
  (forall addr d,
      ~ In (OpFlashProgram addr d)
           (hw_since s (snd (Diag.SECBOOT_Diag_LogEvent event code data s)))).
Proof.
  intros Hev Hword.
  rewrite (Log_Facts.LogEvent_first_word_programmed event code data s Hev Hword).
  cbn [fst snd memory log_index record_hw record_call].
  repeat split.
  intros addr d Hin.
  rewrite (Verify_Facts.hw_since_app s _ [OpCrc _]) in Hin by reflexivity.
  destruct Hin as [Hin|[]]. discriminate.
Qed.

(** A slot whose first word was programmed before: the entry is refused. *)
Lemma LogEvent_rejects_slot_witness :
  fst (@Diag.SECBOOT_Diag_LogEvent Bench.bench_HAL SECBOOT_DIAG_CRC_FAIL 4 0
         (Bench.reset_machine (store32 Bench.erased_mem SECBOOT_DIAG_LOG_BASE 0x12345678)))
  = SECBOOT_DIAG_TAMPERED /\
  memory (snd (@Diag.SECBOOT_Diag_LogEvent Bench.bench_HAL SECBOOT_DIAG_CRC_FAIL 4 0
         (Bench.reset_machine (store32 Bench.erased_mem SECBOOT_DIAG_LOG_BASE 0x12345678))))
  = memory (Bench.reset_machine (store32 Bench.erased_mem SECBOOT_DIAG_LOG_BASE 0x12345678)) /\
  log_index (snd (@Diag.SECBOOT_Diag_LogEvent Bench.bench_HAL SECBOOT_DIAG_CRC_FAIL 4 0
         (Bench.reset_machine (store32 Bench.erased_mem SECBOOT_DIAG_LOG_BASE 0x12345678))))
  = log_index (Bench.reset_machine (store32 Bench.erased_mem SECBOOT_DIAG_LOG_BASE 0x12345678)) /\
  (forall addr d,
      ~ In (OpFlashProgram addr d)
           (hw_since (Bench.reset_machine (store32 Bench.erased_mem SECBOOT_DIAG_LOG_BASE 0x12345678))
              (snd (@Diag.SECBOOT_Diag_LogEvent Bench.bench_HAL SECBOOT_DIAG_CRC_FAIL 4 0
                 (Bench.reset_machine
                    (store32 Bench.erased_mem SECBOOT_DIAG_LOG_BASE 0x12345678)))))).
Proof.
  apply (LogEvent_rejects_slot_with_programmed_first_word Bench.bench_HAL
           SECBOOT_DIAG_CRC_FAIL 4 0
           (Bench.reset_machine (store32 Bench.erased_mem SECBOOT_DIAG_LOG_BASE 0x12345678))).
  - vm_compute. discriminate.
  - vm_compute. discriminate.
Defined.

(** A slot erased except for one byte of its second double word, on the
    reference peripherals: the guard lets it through, the first double word
    is programmed and the call returns ERROR. *)
Lemma LogEvent_partly_programmed_slot :
  erased Fixture.flash_with_dirty_slot SECBOOT_DIAG_LOG_BASE 64 = false /\
  fst (@Diag.SECBOOT_Diag_LogEvent Bench.bench_HAL SECBOOT_DIAG_CRC_FAIL 4 0
         (Bench.reset_machine Fixture.flash_with_dirty_slot)) = SECBOOT_DIAG_ERROR /\
  load_bytes Fixture.flash_with_dirty_slot SECBOOT_DIAG_LOG_BASE 8 = repeat Byte.xff 8 /\
  load_bytes
    (memory (snd (@Diag.SECBOOT_Diag_LogEvent Bench.bench_HAL SECBOOT_DIAG_CRC_FAIL 4 0
                    (Bench.reset_machine Fixture.flash_with_dirty_slot))))
    SECBOOT_DIAG_LOG_BASE 8
  = map byte.of_Z [0; 0; 0; 0; 0x10; 0; 0; 0].
Proof.
  repeat split; vm_compute; reflexivity.
Qed.

Module Log_Write.
Import Diag.

Lemma store_bytes_app (l1 l2 : list byte) (m : mem) (a : Z) :
  store_bytes m a (l1 ++ l2) = store_bytes (store_bytes m a l1) (a + Z.of_nat (length l1)) l2.
Proof.
  revert m a. induction l1 as [|b l1 IH]; intros m a; cbn [app store_bytes length].
  - f_equal. lia.
  - rewrite IH. f_equal. lia.
Qed.

Lemma erased_iff (m : mem) (n : nat) (a : Z) :
  erased m a n = true <-> (forall x, a <= x < a + Z.of_nat n -> m x = Byte.xff).
Proof.
  unfold erased. revert a. induction n as [|n IH]; intros a; cbn [load_bytes forallb].
  - split; [intros _ x Hx; lia|reflexivity].
  - rewrite andb_true_iff, IH. split.
    + intros [H1 H2] x Hx. destruct (Z.eq_dec x a) as [->|Hne].
      * apply Byte.byte_dec_bl in H1. now symmetry.
      * apply H2. lia.
    + intros H. split.
      * apply Byte.byte_dec_lb. symmetry. apply H. lia.
      * intros x Hx. apply H. lia.
Qed.

Lemma load_store_prefix (bs : list byte) (m : mem) (a : Z) (n : nat) :
  (n <= length bs)%nat -> load_bytes (store_bytes m a bs) a n = firstn n bs.
Proof.
  intros Hn.
  rewrite <- (firstn_skipn n bs) at 1. rewrite store_bytes_app.
  rewrite load_store_disjoint by (rewrite length_firstn; lia).
  replace n with (length (firstn n bs)) at 2 by (rewrite length_firstn; lia).
  apply load_store_same.
Qed.

Lemma entry_window_length (residue : nat -> byte) (e : SECBOOT_Diag_LogEntry) :
  length (entry_window residue e) = 64%nat.
Proof. reflexivity. Qed.

Lemma entry_window_prefix (residue : nat -> byte) (e : SECBOOT_Diag_LogEntry) :
  firstn sizeof_entry (entry_window residue e) = entry_bytes residue e.
Proof. reflexivity. Qed.

(** The CRC field of an entry's bytes is the entry's [crc] (as a 32-bit
    word). *)
Lemma stored_crc_entry_bytes (residue : nat -> byte) (e : SECBOOT_Diag_LogEntry) :
  stored_crc (entry_bytes residue e) = u32 (crc e).
Proof.
  unfold stored_crc.
  change (firstn sizeof_crc (skipn (sizeof_entry - sizeof_crc) (entry_bytes residue e)))
    with (le_split 4 (crc e)).
  rewrite le_combine_split. reflexivity.
Qed.

Section WithHAL.
Context {hal : HAL}.

(** The flash controller of the device: see [Bench.flash_program_doubleword]. *)
Hypothesis flash_controller :
  forall m a d, HAL_FLASH_Program m a d = Bench.flash_program_doubleword m a d.

(** On erased flash the programming loop succeeds and stores the bytes of
    the double words it was given. *)
Lemma program_entry_erased (log_addr : Z) :
  forall (k : nat) (bs : list byte) (i : Z) (s : machine),
    length bs = (8 * k)%nat ->
    erased (memory s) (log_addr + i * 8) (8 * k) = true ->
    fst (program_entry log_addr (doublewords bs k) i s) = HAL_OK /\
    memory (snd (program_entry log_addr (doublewords bs k) i s))
    = store_bytes (memory s) (log_addr + i * 8) bs.
Proof.
  induction k as [|k IH]; intros bs i s Hlen Her.
  - destruct bs; [|discriminate]. split; reflexivity.
  - cbn [doublewords program_entry]. rewrite flash_controller.
    unfold Bench.flash_program_doubleword.
    assert (Hfirst : length (firstn 8 bs) = 8%nat) by (rewrite length_firstn; lia).
    assert (Her8 : erased (memory s) (log_addr + i * 8) 8 = true).
    { apply erased_iff. intros x Hx. rewrite erased_iff in Her. apply Her. lia. }
    rewrite Her8.
    replace (le_split 8 (le_combine (firstn 8 bs))) with (firstn 8 bs)
      by (rewrite <- Hfirst at 2; symmetry; apply split_le_combine).
    set (s1 := set_memory _ _).
    destruct (IH (skipn 8 bs) (i + 1) s1) as [Hst Hmem].
    + rewrite length_skipn. lia.
    + apply erased_iff. intros x Hx. subst s1. cbn [memory set_memory].
      rewrite store_bytes_other by lia.
      rewrite erased_iff in Her. apply Her. lia.
    + split; [exact Hst|]. rewrite Hmem. subst s1. cbn [memory set_memory record_hw].
      rewrite <- (firstn_skipn 8 bs) at 3. rewrite store_bytes_app, Hfirst.
      f_equal. lia.
Qed.

(** [SECBOOT_Diag_LogEvent] on an erased slot. *)
Lemma LogEvent_erased_slot (event code data : Z) (s : machine) :
  event <= SECBOOT_DIAG_ROLLBACK_ATTEMPT ->
  erased (memory s) (next_log_addr s) 64 = true ->
  let entry := mkEntry (HAL_GetTick s) event (u8 code) (u32 data) 0 in
  let r := SECBOOT_Diag_LogEvent event code data s in
  memory (snd r) = store_bytes (memory s) (next_log_addr s) (entry_window (stack_residue s) entry)
  /\ log_index (snd r) = (log_index s + 1) mod SECBOOT_DIAG_MAX_LOGS
  /\ fst r = (if u32 (HAL_CRC_Calculate (crc_covered (entry_bytes (stack_residue s) entry))) =? 0
              then SECBOOT_DIAG_OK else SECBOOT_DIAG_TAMPERED).
Proof.
  intros Hev Her entry r. subst r. unfold SECBOOT_Diag_LogEvent.
  replace (event >? SECBOOT_DIAG_ROLLBACK_ATTEMPT) with false
    by (symmetry; rewrite Z.gtb_ltb; apply Z.ltb_ge; exact Hev).
  unfold SECBOOT_CRC_Calculate.
  cbn [memory log_index stack_residue record_hw record_call].
  change (HAL_GetTick (record_call (CallLogEvent event code data) s)) with (HAL_GetTick s).
  fold entry. fold (next_log_addr s).
  assert (Hword : load32 (memory s) (next_log_addr s) = 0xFFFFFFFF).
  { unfold load32.
    replace (load_bytes (memory s) (next_log_addr s) 4) with (repeat Byte.xff 4); [reflexivity|].
    symmetry. apply Verify_Frame.load_bytes_const. intros x Hx.
    rewrite erased_iff in Her. apply Her. lia. }
  rewrite Hword. cbn [Z.eqb Pos.eqb negb].
  change (Z.to_nat (SECBOOT_DIAG_LOG_SIZE / 8)) with 8%nat.
  set (sa := record_hw _ _).
  destruct (program_entry_erased (next_log_addr s) 8 (entry_window (stack_residue s) entry) 0 sa)
    as [Hst Hmem].
  { apply entry_window_length. }
  { replace (next_log_addr s + 0 * 8) with (next_log_addr s) by lia. exact Her. }
  replace (next_log_addr s + 0 * 8) with (next_log_addr s) in Hmem by lia.
  pose proof (Log_Facts.program_entry_frame (next_log_addr s)
                (doublewords (entry_window (stack_residue s) entry) 8) 0 sa) as Hfr.
  cbv zeta in Hfr.
  destruct (program_entry (next_log_addr s) (doublewords (entry_window (stack_residue s) entry) 8)
              0 sa) as [st sb].
  cbn [fst snd] in *. subst st. destruct Hfr as (_ & Hidx & _ & _).
  cbn [memory log_index set_log_index record_hw].
  rewrite Hmem. subst sa. cbn [memory log_index record_hw record_call] in *.
  rewrite load_store_prefix by (rewrite entry_window_length; unfold sizeof_entry; lia).
  rewrite entry_window_prefix, stored_crc_entry_bytes.
  change (u32 (crc entry)) with 0.
  rewrite Hidx.
  set (c := u32 (HAL_CRC_Calculate _)).
  rewrite (Z.eqb_sym 0 c).
  destruct (c =? 0); cbn [negb fst snd memory log_index record_hw set_log_index];
    rewrite ?Hmem; repeat split; reflexivity.
Qed.

End WithHAL.
End Log_Write.

(** The read-back of step 6 is in place: whatever the peripherals do, a call
    that returns OK has read back an entry whose stored CRC is the CRC of
    the fields before it. *)
Lemma LogEvent_OK_read_back (hal : HAL) (event code data : Z) (s : machine) :
  fst (Diag.SECBOOT_Diag_LogEvent event code data s) = SECBOOT_DIAG_OK ->
  Diag.stored_crc
    (load_bytes (memory (snd (Diag.SECBOOT_Diag_LogEvent event code data s)))
                (next_log_addr s) Diag.sizeof_entry)
  = u32 (HAL_CRC_Calculate
           (Diag.crc_covered
              (load_bytes (memory (snd (Diag.SECBOOT_Diag_LogEvent event code data s)))
                          (next_log_addr s) Diag.sizeof_entry))).
Proof.
  unfold Diag.SECBOOT_Diag_LogEvent.
  destruct (event >? SECBOOT_DIAG_ROLLBACK_ATTEMPT); [discriminate|].
  unfold SECBOOT_CRC_Calculate.
  cbn [memory log_index stack_residue record_hw record_call].
  fold (next_log_addr s).
  destruct (negb (load32 (memory s) (next_log_addr s) =? 0xFFFFFFFF)); [discriminate|].
  destruct (Diag.program_entry _ _ _ _) as [st sb].
  destruct st; try discriminate.
  cbn [memory set_log_index record_hw].
  destruct (Diag.stored_crc _ =? _) eqn:E; cbn [negb fst snd memory record_hw]; [|discriminate].
  intros _. apply Z.eqb_eq. exact E.
Qed.

(** C1.  What [SECBOOT_Diag_LogEvent] programs into an erased slot.  The
    CRC of the entry is computed into [temp_crc] and never copied to
    [entry.crc]: the entry goes to flash with a CRC field of 0.  Unless the
    CRC of the covered fields happens to be 0, the stored CRC differs from
    the recomputed one, the call answers TAMPERED, and the index has moved
    on to the next slot all the same. *)
Theorem LogEvent_programs_entry_with_zero_crc
  (hal : HAL) (event code data : Z) (s : machine) :
  (forall m a d, HAL_FLASH_Program m a d = Bench.flash_program_doubleword m a d) ->
  event <= SECBOOT_DIAG_ROLLBACK_ATTEMPT ->
  erased (memory s) (next_log_addr s) 64 = true ->
  u32 (HAL_CRC_Calculate
         (Diag.crc_covered
            (Diag.entry_bytes (stack_residue s)
               (Diag.mkEntry (HAL_GetTick s) event (u8 code) (u32 data) 0)))) <> 0 ->
  fst (Diag.SECBOOT_Diag_LogEvent event code data s) = SECBOOT_DIAG_TAMPERED /\
  log_index (snd (Diag.SECBOOT_Diag_LogEvent event code data s))
  = (log_index s + 1) mod SECBOOT_DIAG_MAX_LOGS /\
  load_bytes (memory (snd (Diag.SECBOOT_Diag_LogEvent event code data s)))
             (next_log_addr s) Diag.sizeof_entry
  = Diag.entry_bytes (stack_residue s)
      (Diag.mkEntry (HAL_GetTick s) event (u8 code) (u32 data) 0) /\
  Diag.stored_crc
    (load_bytes (memory (snd (Diag.SECBOOT_Diag_LogEvent event code data s)))
                (next_log_addr s) Diag.sizeof_entry) = 0 /\
  Diag.stored_crc
    (load_bytes (memory (snd (Diag.SECBOOT_Diag_LogEvent event code data s)))
                (next_log_addr s) Diag.sizeof_entry)
  <> u32 (HAL_CRC_Calculate
            (Diag.crc_covered
               (load_bytes (memory (snd (Diag.SECBOOT_Diag_LogEvent event code data s)))
                           (next_log_addr s) Diag.sizeof_entry))).
Proof.
  intros Hflash Hev Her Hcrc.
  destruct (Log_Write.LogEvent_erased_slot Hflash event code data s Hev Her)
    as (Hmem & Hidx & Hst).
  assert (Hwritten :
    load_bytes (memory (snd (Diag.SECBOOT_Diag_LogEvent event code data s)))
               (next_log_addr s) Diag.sizeof_entry
    = Diag.entry_bytes (stack_residue s)
        (Diag.mkEntry (HAL_GetTick s) event (u8 code) (u32 data) 0)).
  { rewrite Hmem. rewrite Log_Write.load_store_prefix
      by (rewrite Log_Write.entry_window_length; unfold Diag.sizeof_entry; lia).
    apply Log_Write.entry_window_prefix. }
  rewrite Hwritten, Log_Write.stored_crc_entry_bytes.
  repeat split.
  - rewrite Hst.
    destruct (Z.eqb_spec
                (u32 (HAL_CRC_Calculate
                        (Diag.crc_covered
                           (Diag.entry_bytes (stack_residue s)
                              (Diag.mkEntry (HAL_GetTick s) event (u8 code) (u32 data) 0))))) 0);
      [contradiction|reflexivity].
  - exact Hidx.
  - intros Habs. apply Hcrc. symmetry. exact Habs.
Qed.

(** The first entry of a boot (a CRC failure, code 4) on the reference
    peripherals with an erased log region. *)
Lemma LogEvent_programs_entry_with_zero_crc_witness :
  fst (@Diag.SECBOOT_Diag_LogEvent Bench.bench_HAL SECBOOT_DIAG_CRC_FAIL 4 0
         (Bench.reset_machine Bench.erased_mem)) = SECBOOT_DIAG_TAMPERED /\
  log_index (snd (@Diag.SECBOOT_Diag_LogEvent Bench.bench_HAL SECBOOT_DIAG_CRC_FAIL 4 0
                    (Bench.reset_machine Bench.erased_mem)))
  = (log_index (Bench.reset_machine Bench.erased_mem) + 1) mod SECBOOT_DIAG_MAX_LOGS /\
  load_bytes (memory (snd (@Diag.SECBOOT_Diag_LogEvent Bench.bench_HAL SECBOOT_DIAG_CRC_FAIL 4 0
                             (Bench.reset_machine Bench.erased_mem))))
             (next_log_addr (Bench.reset_machine Bench.erased_mem)) Diag.sizeof_entry
  = Diag.entry_bytes (stack_residue (Bench.reset_machine Bench.erased_mem))
      (Diag.mkEntry (HAL_GetTick (Bench.reset_machine Bench.erased_mem))
                    SECBOOT_DIAG_CRC_FAIL (u8 4) (u32 0) 0) /\
  Diag.stored_crc
    (load_bytes (memory (snd (@Diag.SECBOOT_Diag_LogEvent Bench.bench_HAL SECBOOT_DIAG_CRC_FAIL 4 0
                                (Bench.reset_machine Bench.erased_mem))))
                (next_log_addr (Bench.reset_machine Bench.erased_mem)) Diag.sizeof_entry) = 0 /\
  Diag.stored_crc
    (load_bytes (memory (snd (@Diag.SECBOOT_Diag_LogEvent Bench.bench_HAL SECBOOT_DIAG_CRC_FAIL 4 0
                                (Bench.reset_machine Bench.erased_mem))))
                (next_log_addr (Bench.reset_machine Bench.erased_mem)) Diag.sizeof_entry)
  <> u32 (@HAL_CRC_Calculate Bench.bench_HAL
            (Diag.crc_covered
               (load_bytes
                  (memory (snd (@Diag.SECBOOT_Diag_LogEvent Bench.bench_HAL
                                  SECBOOT_DIAG_CRC_FAIL 4 0
                                  (Bench.reset_machine Bench.erased_mem))))
                  (next_log_addr (Bench.reset_machine Bench.erased_mem)) Diag.sizeof_entry))).
Proof.
  apply (LogEvent_programs_entry_with_zero_crc Bench.bench_HAL SECBOOT_DIAG_CRC_FAIL 4 0
           (Bench.reset_machine Bench.erased_mem)).
  - intros m a d. reflexivity.
  - vm_compute. discriminate.
  - vm_compute. reflexivity.
  - vm_compute. discriminate.
Defined.

(** The same call in numbers: status, next index, the 20 bytes found in
    slot 0 and the CRC-32 the unit computes over the first 16 of them. *)
Example LogEvent_first_entry :
  fst (@Diag.SECBOOT_Diag_LogEvent Bench.bench_HAL SECBOOT_DIAG_CRC_FAIL 4 0
         (Bench.reset_machine Bench.erased_mem)) = SECBOOT_DIAG_TAMPERED /\
  log_index (snd (@Diag.SECBOOT_Diag_LogEvent Bench.bench_HAL SECBOOT_DIAG_CRC_FAIL 4 0
                    (Bench.reset_machine Bench.erased_mem))) = 1 /\
  load_bytes (memory (snd (@Diag.SECBOOT_Diag_LogEvent Bench.bench_HAL SECBOOT_DIAG_CRC_FAIL 4 0
                             (Bench.reset_machine Bench.erased_mem))))
             SECBOOT_DIAG_LOG_BASE 20
  = map byte.of_Z [0; 0; 0; 0;  0x10; 0; 0; 0;  4; 0; 0; 0;  0; 0; 0; 0;  0; 0; 0; 0] /\
  Bench.crc32_unit
    (map byte.of_Z [0; 0; 0; 0;  0x10; 0; 0; 0;  4; 0; 0; 0;  0; 0; 0; 0]) = 0x40057C37.
Proof.
  repeat split; vm_compute; reflexivity.
Qed.

(** ** Response escalation (secboot_diag.c) *)

Module Escalation_Facts.
Import BootManager Diag.

Section WithHAL.
Context {hal : HAL}.

Lemma LogEvent_tick (event code data : Z) (s : machine) :
  HAL_GetTick (snd (SECBOOT_Diag_LogEvent event code data s)) = HAL_GetTick s.
Proof.
  unfold HAL_GetTick. f_equal. apply (Log_Facts.LogEvent_frame event code data s).
Qed.

Lemma LogEvent_calls (event code data : Z) (s : machine) :
  calls (snd (SECBOOT_Diag_LogEvent event code data s)) = CallLogEvent event code data :: calls s.
Proof. apply (Log_Facts.LogEvent_frame event code data s). Qed.

Lemma VerifyAppSignature_tick (a : Z) (s : machine) :
  HAL_GetTick (snd (SECBOOT_BootManager_VerifyAppSignature a s)) = HAL_GetTick s.
Proof.
  unfold HAL_GetTick. f_equal. apply (Verify_Frame.VerifyAppSignature_calls a s).
Qed.

Lemma bind_lift {A B : Type} (f : machine -> A * machine) (k : A -> M B) (s : machine) :
  bind (lift f) k s = k (fst (f s)) (snd (f s)).
Proof. unfold bind, lift. destruct (f s); reflexivity. Qed.

Lemma bind_get_tick {B : Type} (k : Z -> M B) (s : machine) :
  bind get_tick k s = k (HAL_GetTick s) s.
Proof. reflexivity. Qed.

(** The recovery attempt, path by path.  [exec] stands for the executor it
    calls back; only its LOCKDOWN case is used. *)
Lemma try_recovery_from_backup_paths
  (exec : SECBOOT_Diag_ResponseLevel -> M unit) (s : machine) :
  let t := HAL_GetTick s in
  let s2 := snd (SECBOOT_Diag_LogEvent SECBOOT_DIAG_ROLLBACK_ATTEMPT ROLLBACK_NORMAL_RECOVERY t
                   (record_call CallRecovery s)) in
  let v := SECBOOT_BootManager_VerifyAppSignature SECBOOT_BACKUP_IMAGE_ADDR s2 in
  let s3 := snd v in
  let s3j := record_call (CallJumpTo SECBOOT_BACKUP_IMAGE_ADDR) s3 in
  let handler :=
    load32 (memory s3) (load32 (memory s3) (SECBOOT_BACKUP_IMAGE_ADDR + OFS_entryPoint) + 4) in
  try_recovery_from_backup exec s =
  if bootmanager_is_OK (fst v) then
    match NonSecureApp_ResetHandler handler (memory s3) with
    | None => Transferred handler s3j
    | Some m' =>
        match exec SECBOOT_DIAG_RESP_LOCKDOWN
                (snd (SECBOOT_Diag_LogEvent SECBOOT_DIAG_ROLLBACK_ATTEMPT ROOLBACK_JUMP_FAILED t
                        (set_memory m' s3j))) with
        | Returns _ s' => Halted s'
        | Halted s' => Halted s'
        | Transferred h s' => Transferred h s'
        | OutOfFuel => OutOfFuel
        end
    end
  else
    match exec SECBOOT_DIAG_RESP_LOCKDOWN
            (snd (SECBOOT_Diag_LogEvent SECBOOT_DIAG_ROLLBACK_ATTEMPT SIG_FAIL_BACKUP_IMAGE 0 s3)) with
    | Returns _ s' => Returns tt s'
    | Halted s' => Halted s'
    | Transferred h s' => Transferred h s'
    | OutOfFuel => OutOfFuel
    end.
Proof.
  intros t s2 v s3 s3j handler.
  unfold try_recovery_from_backup.
  rewrite bind_get_tick, bind_lift.
  change (HAL_GetTick (record_call CallRecovery s)) with t. fold s2.
  rewrite bind_lift. fold v. fold s3.
  destruct (bootmanager_is_OK (fst v)) eqn:Hst; cbn [negb].
  - unfold bind at 1. unfold SECBOOT_BootManager_JumpTo. fold s3j.
    change (memory s3j) with (memory s3). fold handler.
    destruct (NonSecureApp_ResetHandler handler (memory s3)) as [m'|]; [|reflexivity].
    cbn [bootmanager_is_OK negb].
    assert (Ht : HAL_GetTick (set_memory m' s3j) = t).
    { change (HAL_GetTick (set_memory m' s3j)) with (HAL_GetTick s3).
      subst s3 v. rewrite VerifyAppSignature_tick. subst s2. rewrite LogEvent_tick. reflexivity. }
    unfold bind at 1. rewrite bind_get_tick, bind_lift, Ht. unfold ret.
    unfold bind.
    destruct (exec SECBOOT_DIAG_RESP_LOCKDOWN _); reflexivity.
  - rewrite bind_lift. unfold bind, ret.
    destruct (exec SECBOOT_DIAG_RESP_LOCKDOWN _) as [[] s'|s'|h s'|]; reflexivity.
Qed.

(** One unit of fuel is as good as any: the value of
    [SECBOOT_Diag_ExecuteResponse] does not depend on the encoding. *)
Lemma ExecuteResponse_fuel_enough (f : nat) (level : SECBOOT_Diag_ResponseLevel) (s : machine) :
  ExecuteResponse_fuel (S f) level s = SECBOOT_Diag_ExecuteResponse level s.
Proof.
  unfold SECBOOT_Diag_ExecuteResponse.
  destruct level; try reflexivity.
  cbn [ExecuteResponse_fuel].
  rewrite !try_recovery_from_backup_paths. cbv zeta.
  destruct f; reflexivity.
Qed.

Lemma ExecuteResponse_never_out_of_fuel (level : SECBOOT_Diag_ResponseLevel) (s : machine) :
  SECBOOT_Diag_ExecuteResponse level s <> OutOfFuel.
Proof.
  unfold SECBOOT_Diag_ExecuteResponse. destruct level; try discriminate.
  cbn [ExecuteResponse_fuel]. rewrite try_recovery_from_backup_paths. cbv zeta.
  cbn [ExecuteResponse_fuel]. unfold system_lockdown.
  destruct (bootmanager_is_OK _); [|discriminate].
  destruct (NonSecureApp_ResetHandler _ _); discriminate.
Qed.

End WithHAL.
End Escalation_Facts.

(** C4 (amended).  [SECBOOT_Diag_HandleCrcFail] called with MISMATCH selects
    RECOVER and runs the recovery itself; it does not return to its caller.
    The episode logs the CRC failure, logs the recovery attempt, verifies
    the backup slot exactly once, and then:
    - if that verification fails, logs a further entry with the
      backup-signature-failure code and halts in lockdown;
    - if it succeeds, jumps to the backup image; should the jump come back,
      the failure is logged and the system halts in lockdown.
    No second recovery attempt or verification is made. *)
Theorem HandleCrcFail_mismatch_escalation (hal : HAL) (s : machine) :
  let t := HAL_GetTick s in
  let s1 := snd (Diag.SECBOOT_Diag_LogEvent SECBOOT_DIAG_CRC_FAIL 4 t s) in
  let s2 := snd (Diag.SECBOOT_Diag_LogEvent SECBOOT_DIAG_ROLLBACK_ATTEMPT
                   ROLLBACK_NORMAL_RECOVERY t (record_call CallRecovery s1)) in
  let backup := fst (BootManager.SECBOOT_BootManager_VerifyAppSignature
                       SECBOOT_BACKUP_IMAGE_ADDR s2) in
  let o := Diag.SECBOOT_Diag_HandleCrcFail SECBOOT_CRC_MISMATCH s in
  let attempt := [CallLogEvent SECBOOT_DIAG_CRC_FAIL 4 t;
                  CallRecovery;
                  CallLogEvent SECBOOT_DIAG_ROLLBACK_ATTEMPT ROLLBACK_NORMAL_RECOVERY t;
                  CallVerifyAppSignature SECBOOT_BACKUP_IMAGE_ADDR] in
  returned o = None /\
  o <> OutOfFuel /\
  (backup <> SECBOOT_BOOTMANAGER_OK ->
   exists s', o = Halted s' /\
     rev (calls_since s s')
     = attempt ++ [CallLogEvent SECBOOT_DIAG_ROLLBACK_ATTEMPT SIG_FAIL_BACKUP_IMAGE 0;
                   CallLockdown]) /\
  (backup = SECBOOT_BOOTMANAGER_OK ->
   exists s',
     ((exists h, o = Transferred h s') /\
      rev (calls_since s s') = attempt ++ [CallJumpTo SECBOOT_BACKUP_IMAGE_ADDR])
     \/
     (o = Halted s' /\
      rev (calls_since s s')
      = attempt ++ [CallJumpTo SECBOOT_BACKUP_IMAGE_ADDR;
                    CallLogEvent SECBOOT_DIAG_ROLLBACK_ATTEMPT ROOLBACK_JUMP_FAILED t;
                    CallLockdown])).
Proof.
  intros t s1 s2 backup o attempt.
  assert (Ho : o =
    if bootmanager_is_OK backup then
      match NonSecureApp_ResetHandler
              (load32 (memory (snd (BootManager.SECBOOT_BootManager_VerifyAppSignature
                                      SECBOOT_BACKUP_IMAGE_ADDR s2)))
                 (load32 (memory (snd (BootManager.SECBOOT_BootManager_VerifyAppSignature
                                         SECBOOT_BACKUP_IMAGE_ADDR s2)))
                         (SECBOOT_BACKUP_IMAGE_ADDR + OFS_entryPoint) + 4))
              (memory (snd (BootManager.SECBOOT_BootManager_VerifyAppSignature
                              SECBOOT_BACKUP_IMAGE_ADDR s2))) with
      | None =>
          Transferred
            (load32 (memory (snd (BootManager.SECBOOT_BootManager_VerifyAppSignature
                                    SECBOOT_BACKUP_IMAGE_ADDR s2)))
               (load32 (memory (snd (BootManager.SECBOOT_BootManager_VerifyAppSignature
                                       SECBOOT_BACKUP_IMAGE_ADDR s2)))
                       (SECBOOT_BACKUP_IMAGE_ADDR + OFS_entryPoint) + 4))
            (record_call (CallJumpTo SECBOOT_BACKUP_IMAGE_ADDR)
               (snd (BootManager.SECBOOT_BootManager_VerifyAppSignature
                       SECBOOT_BACKUP_IMAGE_ADDR s2)))
      | Some m' =>
          Halted (record_call CallLockdown
                    (snd (Diag.SECBOOT_Diag_LogEvent SECBOOT_DIAG_ROLLBACK_ATTEMPT
                            ROOLBACK_JUMP_FAILED t
                            (set_memory m'
                               (record_call (CallJumpTo SECBOOT_BACKUP_IMAGE_ADDR)
                                  (snd (BootManager.SECBOOT_BootManager_VerifyAppSignature
                                          SECBOOT_BACKUP_IMAGE_ADDR s2)))))))
      end
    else
      Halted (record_call CallLockdown
                (snd (Diag.SECBOOT_Diag_LogEvent SECBOOT_DIAG_ROLLBACK_ATTEMPT
                        SIG_FAIL_BACKUP_IMAGE 0
                        (snd (BootManager.SECBOOT_BootManager_VerifyAppSignature
                                SECBOOT_BACKUP_IMAGE_ADDR s2)))))).
  { subst o. unfold Diag.SECBOOT_Diag_HandleCrcFail.
    rewrite Escalation_Facts.bind_get_tick, Escalation_Facts.bind_lift.
    change (u8 (crc_status_value SECBOOT_CRC_MISMATCH)) with 4. fold t. fold s1.
    unfold bind at 1. unfold Diag.SECBOOT_Diag_ExecuteResponse.
    cbn [Diag.ExecuteResponse_fuel].
    rewrite Escalation_Facts.try_recovery_from_backup_paths. cbv zeta.
    replace (HAL_GetTick s1) with t by (subst s1; symmetry; apply Escalation_Facts.LogEvent_tick).
    fold s2. fold backup.
    cbn [Diag.ExecuteResponse_fuel]. unfold Diag.system_lockdown.
    destruct (bootmanager_is_OK backup); [|reflexivity].
    destruct (NonSecureApp_ResetHandler _ _); reflexivity. }
  assert (Hc1 : calls s1 = CallLogEvent SECBOOT_DIAG_CRC_FAIL 4 t :: calls s)
    by (subst s1; apply Escalation_Facts.LogEvent_calls).
  assert (Hc2 : calls s2 = CallLogEvent SECBOOT_DIAG_ROLLBACK_ATTEMPT ROLLBACK_NORMAL_RECOVERY t
                           :: CallRecovery :: calls s1)
    by (subst s2; rewrite Escalation_Facts.LogEvent_calls; reflexivity).
  pose proof (Verify_Frame.VerifyAppSignature_calls SECBOOT_BACKUP_IMAGE_ADDR s2) as [Hc3 _].
  set (s3 := snd (BootManager.SECBOOT_BootManager_VerifyAppSignature
                    SECBOOT_BACKUP_IMAGE_ADDR s2)) in *.
  clearbody backup o.
  split; [|split; [|split]].
  - rewrite Ho. destruct (bootmanager_is_OK backup); [|reflexivity].
    destruct (NonSecureApp_ResetHandler _ _); reflexivity.
  - rewrite Ho. destruct (bootmanager_is_OK backup); [|discriminate].
    destruct (NonSecureApp_ResetHandler _ _); discriminate.
  - intros Hfail.
    replace (bootmanager_is_OK backup) with false in Ho
      by (destruct backup; first [reflexivity | contradiction Hfail; reflexivity]).
    eexists. split; [exact Ho|].
    rewrite (Verify_Facts.calls_since_app s _
               (rev (attempt ++ [CallLogEvent SECBOOT_DIAG_ROLLBACK_ATTEMPT SIG_FAIL_BACKUP_IMAGE 0;
                                 CallLockdown]))).
    + apply rev_involutive.
    + cbn [calls record_call]. rewrite Escalation_Facts.LogEvent_calls, Hc3, Hc2, Hc1.
      reflexivity.
  - intros Hok.
    replace (bootmanager_is_OK backup) with true in Ho by (rewrite Hok; reflexivity).
    destruct (NonSecureApp_ResetHandler _ _) as [m'|].
    + eexists. right. split; [exact Ho|].
      rewrite (Verify_Facts.calls_since_app s _
                 (rev (attempt ++ [CallJumpTo SECBOOT_BACKUP_IMAGE_ADDR;
                                   CallLogEvent SECBOOT_DIAG_ROLLBACK_ATTEMPT
                                                ROOLBACK_JUMP_FAILED t;
                                   CallLockdown]))).
      * apply rev_involutive.
      * cbn [calls record_call]. rewrite Escalation_Facts.LogEvent_calls.
        cbn [calls set_memory record_call]. rewrite Hc3, Hc2, Hc1. reflexivity.
    + eexists. left. split; [eexists; exact Ho|].
      rewrite (Verify_Facts.calls_since_app s _
                 (rev (attempt ++ [CallJumpTo SECBOOT_BACKUP_IMAGE_ADDR]))).
      * apply rev_involutive.
      * cbn [calls record_call]. rewrite Hc3, Hc2, Hc1. reflexivity.
Qed.

(** C4, as stated, fails on a device whose backup slot is empty: the call
    with MISMATCH does not return RECOVER, it does not return at all; the
    episode ends halted in lockdown after one recovery attempt. *)
Lemma HandleCrcFail_mismatch_does_not_return :
  returned (@Diag.SECBOOT_Diag_HandleCrcFail Bench.bench_HAL SECBOOT_CRC_MISMATCH
              (Bench.reset_machine Bench.erased_mem))
  <> Some SECBOOT_DIAG_RESP_RECOVER /\
  option_map (fun s' => rev (calls s'))
    (final_state (@Diag.SECBOOT_Diag_HandleCrcFail Bench.bench_HAL SECBOOT_CRC_MISMATCH
                    (Bench.reset_machine Bench.erased_mem)))
  = Some [CallLogEvent SECBOOT_DIAG_CRC_FAIL 4 0;
          CallRecovery;
          CallLogEvent SECBOOT_DIAG_ROLLBACK_ATTEMPT ROLLBACK_NORMAL_RECOVERY 0;
          CallVerifyAppSignature SECBOOT_BACKUP_IMAGE_ADDR;
          CallLogEvent SECBOOT_DIAG_ROLLBACK_ATTEMPT SIG_FAIL_BACKUP_IMAGE 0;
          CallLockdown].
Proof.
  split; [vm_compute; discriminate|vm_compute; reflexivity].
Qed.

(** The other two responses do come back to the caller. *)
Example HandleCrcFail_warn_returns :
  returned (@Diag.SECBOOT_Diag_HandleCrcFail Bench.bench_HAL SECBOOT_CRC_INVALID_PARAM
              (Bench.reset_machine Bench.erased_mem)) = Some SECBOOT_DIAG_RESP_WARN /\
  returned (@Diag.SECBOOT_Diag_HandleCrcFail Bench.bench_HAL SECBOOT_CRC_ERROR
              (Bench.reset_machine Bench.erased_mem)) = None.
Proof. split; vm_compute; reflexivity. Qed.

(** With a valid image in the backup slot the episode ends in the image. *)
Example HandleCrcFail_mismatch_jumps_to_backup :
  option_map (fun s' => rev (calls s'))
    (final_state (@Diag.SECBOOT_Diag_HandleCrcFail Bench.bench_HAL SECBOOT_CRC_MISMATCH
                    Fixture.good_machine))
  = Some [CallLogEvent SECBOOT_DIAG_CRC_FAIL 4 0;
          CallRecovery;
          CallLogEvent SECBOOT_DIAG_ROLLBACK_ATTEMPT ROLLBACK_NORMAL_RECOVERY 0;
          CallVerifyAppSignature SECBOOT_BACKUP_IMAGE_ADDR;
          CallJumpTo SECBOOT_BACKUP_IMAGE_ADDR].
Proof. vm_compute. reflexivity. Qed.

(** ** The AES wrapper (secboot_aes.c): word conversion, padding, encryption *)

Module AES_Facts.
Import AES.

Lemma be_word_le_combine (b0 b1 b2 b3 : byte) :
  be_word b0 b1 b2 b3 = le_combine [b3; b2; b1; b0].
Proof.
  unfold be_word. cbv [le_combine].
  change (Z.shiftl 0 8) with 0. rewrite Z.lor_0_r.
  rewrite !Z.shiftl_lor, !Z.shiftl_shiftl by lia. cbn [Z.add Pos.add Pos.succ].
  rewrite (Z.lor_comm (byte.unsigned b3)).
  rewrite (Z.lor_comm (Z.shiftl (byte.unsigned b2) 8)).
  rewrite (Z.lor_comm (Z.shiftl (byte.unsigned b1) 16)).
  rewrite ?Z.lor_assoc. reflexivity.
Qed.

Lemma le_split_4 (w : Z) :
  le_split 4 w
  = [byte.of_Z w; byte.of_Z (Z.shiftr w 8); byte.of_Z (Z.shiftr w 16); byte.of_Z (Z.shiftr w 24)].
Proof. cbv [le_split]. rewrite !Z.shiftr_shiftr by lia. reflexivity. Qed.

(** The four bytes [uint32_to_bytes_be] takes out of a word built by
    [bytes_to_uint32_be]. *)
Lemma be_word_bytes (b0 b1 b2 b3 : byte) :
  [byte.of_Z (Z.shiftr (be_word b0 b1 b2 b3) 24); byte.of_Z (Z.shiftr (be_word b0 b1 b2 b3) 16);
   byte.of_Z (Z.shiftr (be_word b0 b1 b2 b3) 8); byte.of_Z (be_word b0 b1 b2 b3)]
  = [b0; b1; b2; b3].
Proof.
  pose proof (split_le_combine [b3; b2; b1; b0]) as H.
  rewrite <- be_word_le_combine in H. cbn [length] in H. rewrite le_split_4 in H.
  injection H as H0 H1 H2 H3. congruence.
Qed.

Lemma bytes_be_word (w : Z) :
  0 <= w < 2 ^ 32 ->
  be_word (byte.of_Z (Z.shiftr w 24)) (byte.of_Z (Z.shiftr w 16))
          (byte.of_Z (Z.shiftr w 8)) (byte.of_Z w) = w.
Proof.
  intros Hw. rewrite be_word_le_combine, <- le_split_4, le_combine_split.
  apply Z.mod_small. exact Hw.
Qed.

Local Abbreviation word_at input :=
  (fun j : nat => be_word (nth (4 * j + 0) input Byte.x00) (nth (4 * j + 1) input Byte.x00)
                          (nth (4 * j + 2) input Byte.x00) (nth (4 * j + 3) input Byte.x00)).

Local Abbreviation word_bytes :=
  (fun w : Z => [byte.of_Z (Z.shiftr w 24); byte.of_Z (Z.shiftr w 16);
                 byte.of_Z (Z.shiftr w 8); byte.of_Z w]).

Lemma upd_app (pre post : list Z) (x v : Z) :
  upd (pre ++ x :: post) (length pre) v = pre ++ v :: post.
Proof. induction pre as [|p pre IH]; cbn; [reflexivity|]. now rewrite IH. Qed.

(** The loop stores one word per index from [i] on. *)
Lemma bytes_to_uint32_be_loop_app (input : list byte) :
  forall (n : nat) (pre mid : list Z),
    (n <= length mid)%nat ->
    bytes_to_uint32_be_loop input (pre ++ mid) (length pre) n
    = pre ++ map (word_at input) (seq (length pre) n) ++ skipn n mid.
Proof.
  induction n as [|n IH]; intros pre mid Hn; [reflexivity|].
  destruct mid as [|x mid]; [cbn in Hn; lia|].
  cbn [bytes_to_uint32_be_loop]. cbv zeta. rewrite upd_app.
  cbn [length] in Hn.
  set (w := be_word _ _ _ _).
  replace (pre ++ w :: mid) with ((pre ++ [w]) ++ mid) by (now rewrite <- app_assoc).
  assert (Hl : length (pre ++ [w]) = S (length pre)) by (rewrite length_app; cbn; lia).
  rewrite <- Hl, (IH (pre ++ [w]) mid) by lia.
  rewrite Hl, <- app_assoc. reflexivity.
Qed.

Lemma bytes_to_uint32_be_words (input : list byte) (output : list Z) :
  bytes_to_uint32_be input (4 * Z.of_nat (length output)) output
  = map (word_at input) (seq 0 (length output)).
Proof.
  unfold bytes_to_uint32_be.
  rewrite Z.mul_comm, Z.div_mul, Nat2Z.id by lia.
  pose proof (bytes_to_uint32_be_loop_app input (length output) [] output (le_n _)) as H.
  cbn [app length] in H. rewrite H, skipn_all, app_nil_r. reflexivity.
Qed.

(** Reading a list four bytes at a time gives the list back. *)
Lemma flat_map_chunks :
  forall (k : nat) (bs : list byte),
    length bs = (4 * k)%nat ->
    flat_map (fun j : nat => [nth (4 * j + 0) bs Byte.x00; nth (4 * j + 1) bs Byte.x00;
                              nth (4 * j + 2) bs Byte.x00; nth (4 * j + 3) bs Byte.x00])
             (seq 0 k) = bs.
Proof.
  induction k as [|k IH]; intros bs Hlen.
  - destruct bs; [reflexivity|discriminate].
  - destruct bs as [|b0 [|b1 [|b2 [|b3 rest]]]]; cbn [length] in Hlen; try lia.
    cbn [seq flat_map]. rewrite <- seq_shift, flat_map_concat_map, map_map,
      <- flat_map_concat_map.
    change (4 * 0 + 0)%nat with 0%nat. change (4 * 0 + 1)%nat with 1%nat.
    change (4 * 0 + 2)%nat with 2%nat. change (4 * 0 + 3)%nat with 3%nat.
    cbn [nth app]. do 4 f_equal.
    etransitivity; [|apply (IH rest); lia].
    apply flat_map_ext. intros j.
    replace (4 * S j + 0)%nat with (S (S (S (S (4 * j + 0))))) by lia.
    replace (4 * S j + 1)%nat with (S (S (S (S (4 * j + 1))))) by lia.
    replace (4 * S j + 2)%nat with (S (S (S (S (4 * j + 2))))) by lia.
    replace (4 * S j + 3)%nat with (S (S (S (S (4 * j + 3))))) by lia.
    reflexivity.
Qed.

Lemma uint32_to_bytes_be_words (input : list byte) (k : nat) :
  length input = (4 * k)%nat ->
  uint32_to_bytes_be (map (word_at input) (seq 0 k)) k = input.
Proof.
  intros Hlen. unfold uint32_to_bytes_be.
  rewrite firstn_all2 by (rewrite length_map, length_seq; lia).
  rewrite flat_map_concat_map, map_map, <- flat_map_concat_map.
  etransitivity; [|apply (flat_map_chunks k input Hlen)].
  apply flat_map_ext. intros j. apply be_word_bytes.
Qed.

Lemma words_of_word_bytes :
  forall (ws : list Z),
    Forall (fun w => 0 <= w < 2 ^ 32) ws ->
    map (word_at (flat_map word_bytes ws)) (seq 0 (length ws)) = ws.
Proof.
  induction ws as [|w ws IH]; intros Hws; [reflexivity|].
  inversion Hws as [|? ? Hw Hrest]; subst.
  cbn [length seq map flat_map].
  change (4 * 0 + 0)%nat with 0%nat. change (4 * 0 + 1)%nat with 1%nat.
  change (4 * 0 + 2)%nat with 2%nat. change (4 * 0 + 3)%nat with 3%nat.
  cbn [nth app]. rewrite (bytes_be_word w Hw). f_equal.
  rewrite <- seq_shift, map_map.
  etransitivity; [|apply (IH Hrest)].
  apply map_ext. intros j.
  replace (4 * S j + 0)%nat with (S (S (S (S (4 * j + 0))))) by lia.
  replace (4 * S j + 1)%nat with (S (S (S (S (4 * j + 1))))) by lia.
  replace (4 * S j + 2)%nat with (S (S (S (S (4 * j + 2))))) by lia.
  replace (4 * S j + 3)%nat with (S (S (S (S (4 * j + 3))))) by lia.
  reflexivity.
Qed.

(** What [PKCS7_Pad] writes, and that [PKCS7_Unpad] takes it off again. *)
Lemma PKCS7_Pad_value (input : list byte) :
  Z.of_nat (length input) + AES_BLOCK_SIZE < 2 ^ 32 ->
  let pad_len := AES_BLOCK_SIZE - Z.of_nat (length input) mod AES_BLOCK_SIZE in
  1 <= pad_len <= AES_BLOCK_SIZE /\
  PKCS7_Pad input
  = (PKCS7_PAD_OK, input ++ repeat (byte.of_Z pad_len) (Z.to_nat pad_len),
     Z.of_nat (length input) + pad_len).
Proof.
  intros Hfit pad_len. unfold PKCS7_Pad.
  set (len := Z.of_nat (length input)) in *.
  assert (Hlen : 0 <= len) by (subst len; lia).
  assert (Hsz : size_t len = len) by (apply Z.mod_small; unfold AES_BLOCK_SIZE in Hfit; lia).
  rewrite Hsz.
  destruct (PKCS7_Facts.pad_len_range len Hlen) as [Hu8 Hpad].
  rewrite Hu8. fold pad_len. fold pad_len in Hpad.
  split; [exact Hpad|].
  replace (size_t (len + pad_len)) with (len + pad_len)
    by (symmetry; apply Z.mod_small; unfold AES_BLOCK_SIZE in *; lia).
  reflexivity.
Qed.

Lemma PKCS7_Unpad_padded (input : list byte) (pad_len : Z) :
  Z.of_nat (length input) + AES_BLOCK_SIZE < 2 ^ 32 ->
  pad_len = AES_BLOCK_SIZE - Z.of_nat (length input) mod AES_BLOCK_SIZE ->
  PKCS7_Unpad (Some (input ++ repeat (byte.of_Z pad_len) (Z.to_nat pad_len)))
              (Z.of_nat (length input) + pad_len) false false
  = (PKCS7_UNPAD_OK, Some (input, Z.of_nat (length input))).
Proof.
  intros Hfit Hpl.
  set (len := Z.of_nat (length input)) in *.
  assert (Hlen : 0 <= len) by (subst len; lia).
  destruct (PKCS7_Facts.pad_len_range len Hlen) as [_ Hpad]. rewrite <- Hpl in Hpad.
  assert (Hbyte : byte.unsigned (byte.of_Z pad_len) = pad_len).
  { rewrite byte.unsigned_of_Z. apply Z.mod_small. unfold AES_BLOCK_SIZE in *. lia. }
  assert (Hnat : Z.of_nat (Z.to_nat pad_len) = pad_len) by lia.
  unfold PKCS7_Unpad. cbn [orb].
  assert (Hal : (len + pad_len) mod AES_BLOCK_SIZE = 0)
    by (rewrite Hpl; apply PKCS7_Facts.padded_length_aligned).
  rewrite Hal.
  replace (len + pad_len =? 0) with false by (symmetry; apply Z.eqb_neq; lia).
  cbn [orb negb Z.eqb].
  assert (Hlast :
    nth (Z.to_nat (len + pad_len - 1))
        (input ++ repeat (byte.of_Z pad_len) (Z.to_nat pad_len)) Byte.x00 = byte.of_Z pad_len).
  { rewrite <- Hnat at 1. apply PKCS7_Facts.last_byte_after_pad. lia. }
  rewrite Hlast, Hbyte.
  replace (pad_len =? 0) with false by (symmetry; apply Z.eqb_neq; lia).
  replace (pad_len >? AES_BLOCK_SIZE) with false by (symmetry; rewrite Z.gtb_ltb; apply Z.ltb_ge; lia).
  replace (pad_len >? len + pad_len) with false by (symmetry; rewrite Z.gtb_ltb; apply Z.ltb_ge; lia).
  cbn [orb].
  pose proof (PKCS7_Facts.padding_bytes_ok_after_pad input (byte.of_Z pad_len)
                (Z.to_nat pad_len) (Z.to_nat pad_len) 0 ltac:(lia) ltac:(lia)) as Hok.
  rewrite Hbyte, Hnat in Hok. fold len in Hok. rewrite Hok. cbn [negb].
  replace (len + pad_len - pad_len) with len by lia.
  subst len. rewrite Nat2Z.id, firstn_app, Nat.sub_diag, firstn_all. cbn [firstn].
  rewrite app_nil_r. reflexivity.
Qed.

(** What the validation loop of [PKCS7_Unpad] has looked at when it
    passes. *)
Lemma padding_bytes_ok_true (input : list byte) (input_len pad : Z) :
  forall (n : nat) (i : Z),
    padding_bytes_ok input input_len pad i n = true ->
    forall j, i <= j < i + Z.of_nat n ->
      byte.unsigned (nth (Z.to_nat (input_len - 1 - j)) input Byte.x00) = pad.
Proof.
  induction n as [|n IH]; intros i Hok j Hj; [lia|].
  cbn [padding_bytes_ok] in Hok.
  destruct (Z.eqb_spec (byte.unsigned (nth (Z.to_nat (input_len - 1 - i)) input Byte.x00)) pad)
    as [Heq|]; [|discriminate].
  destruct (Z.eq_dec j i) as [->|Hne]; [exact Heq|].
  apply (IH (i + 1) Hok). lia.
Qed.

End AES_Facts.

(** X1.  Bytes to words and back: converting a buffer whose length is a
    multiple of 4 with [bytes_to_uint32_be] and the words obtained with
    [uint32_to_bytes_be] gives the buffer back, whatever the word array held
    before. *)
Theorem bytes_to_uint32_be_then_uint32_to_bytes_be (input : list byte) (output : list Z) :
  Z.of_nat (length input) = 4 * Z.of_nat (length output) ->
  AES.uint32_to_bytes_be (AES.bytes_to_uint32_be input (Z.of_nat (length input)) output)
                         (length output)
  = input.
Proof.
  intros Hlen. rewrite Hlen, AES_Facts.bytes_to_uint32_be_words.
  apply AES_Facts.uint32_to_bytes_be_words. lia.
Qed.

Lemma bytes_to_uint32_be_then_uint32_to_bytes_be_witness :
  AES.uint32_to_bytes_be
    (AES.bytes_to_uint32_be (map byte.of_Z [0xDE; 0xAD; 0xBE; 0xEF; 1; 2; 3; 4])
       (Z.of_nat (length (map byte.of_Z [0xDE; 0xAD; 0xBE; 0xEF; 1; 2; 3; 4]))) [7; 7])
    (length [7; 7])
  = map byte.of_Z [0xDE; 0xAD; 0xBE; 0xEF; 1; 2; 3; 4].
Proof.
  apply (bytes_to_uint32_be_then_uint32_to_bytes_be
           (map byte.of_Z [0xDE; 0xAD; 0xBE; 0xEF; 1; 2; 3; 4]) [7; 7]).
  reflexivity.
Defined.

(** X2.  Words to bytes and back: for 32-bit words, [uint32_to_bytes_be]
    followed by [bytes_to_uint32_be] gives the words back.  The byte order
    is big-endian: the first byte of a word is its most significant one. *)
Theorem uint32_to_bytes_be_then_bytes_to_uint32_be (input output : list Z) :
  Forall (fun w => 0 <= w < 2 ^ 32) input ->
  length output = length input ->
  AES.bytes_to_uint32_be (AES.uint32_to_bytes_be input (length input))
                         (4 * Z.of_nat (length input)) output
  = input
  /\ (forall w rest, input = w :: rest ->
        nth 0 (AES.uint32_to_bytes_be input (length input)) Byte.x00 = byte.of_Z (w / 2 ^ 24)).
Proof.
  intros Hws Hlen. split.
  - rewrite <- Hlen, AES_Facts.bytes_to_uint32_be_words, Hlen.
    unfold AES.uint32_to_bytes_be. rewrite firstn_all.
    apply AES_Facts.words_of_word_bytes. exact Hws.
  - intros w rest ->. unfold AES.uint32_to_bytes_be. rewrite firstn_all.
    cbn [flat_map app nth]. rewrite Z.shiftr_div_pow2 by lia. reflexivity.
Qed.

Lemma uint32_to_bytes_be_then_bytes_to_uint32_be_witness :
  AES.bytes_to_uint32_be (AES.uint32_to_bytes_be [0xDEADBEEF; 0x01020304] 2) (4 * 2) [0; 0]
  = [0xDEADBEEF; 0x01020304]
  /\ nth 0 (AES.uint32_to_bytes_be [0xDEADBEEF; 0x01020304] 2) Byte.x00 = byte.of_Z 0xDE.
Proof.
  assert (Hws : Forall (fun w => 0 <= w < 2 ^ 32) [0xDEADBEEF; 0x01020304])
    by (repeat constructor; lia).
  destruct (uint32_to_bytes_be_then_bytes_to_uint32_be [0xDEADBEEF; 0x01020304] [0; 0]
              Hws eq_refl) as [Hback Hfirst].
  split; [exact Hback|].
  exact (Hfirst 0xDEADBEEF [0x01020304] eq_refl).
Defined.

(** X3.  What [PKCS7_Unpad] accepts is PKCS#7 padding: when it returns OK
    on a buffer, between 1 and 16 bytes were removed, and padding the
    output again with [PKCS7_Pad] gives exactly the buffer it was given. *)
Theorem PKCS7_Unpad_then_Pad (input output : list byte) (output_len : Z) :
  Z.of_nat (length input) < 2 ^ 32 ->
  AES.PKCS7_Unpad (Some input) (Z.of_nat (length input)) false false
  = (PKCS7_UNPAD_OK, Some (output, output_len)) ->
  output_len = Z.of_nat (length output) /\
  1 <= Z.of_nat (length input) - output_len <= AES_BLOCK_SIZE /\
  AES.PKCS7_Pad output = (PKCS7_PAD_OK, input, Z.of_nat (length input)).
Proof.
  intros Hfit. unfold AES.PKCS7_Unpad. cbn [orb].
  set (L := Z.of_nat (length input)) in *.
  destruct (Z.eqb_spec L 0) as [|HL0]; [discriminate|].
  destruct (Z.eqb_spec (L mod AES_BLOCK_SIZE) 0) as [Hal|]; [|discriminate].
  cbn [orb negb].
  set (pad := byte.unsigned (nth (Z.to_nat (L - 1)) input Byte.x00)).
  destruct (Z.eqb_spec pad 0) as [|Hp0]; [discriminate|].
  destruct (pad >? AES_BLOCK_SIZE) eqn:Hp16; [discriminate|].
  destruct (pad >? L) eqn:HpL; [discriminate|].
  cbn [orb].
  destruct (AES.padding_bytes_ok input L pad 0 (Z.to_nat pad)) eqn:Hok; [|discriminate].
  cbn [negb]. intros H. injection H as <- <-.
  rewrite Z.gtb_ltb in Hp16, HpL. apply Z.ltb_ge in Hp16, HpL.
  pose proof (byte.unsigned_range (nth (Z.to_nat (L - 1)) input Byte.x00)) as Hpr.
  fold pad in Hpr. unfold AES_BLOCK_SIZE in *.
  assert (Hlo : length (firstn (Z.to_nat (L - pad)) input) = Z.to_nat (L - pad))
    by (rewrite length_firstn; subst L; lia).
  split; [rewrite Hlo; lia|].
  split; [lia|].
  assert (HL16 : L + 16 <= 2 ^ 32).
  { pose proof (Z.div_mod L 16 ltac:(lia)) as Hd. rewrite Hal in Hd.
    assert (L / 16 < 2 ^ 28) by (apply Z.div_lt_upper_bound; lia). lia. }
  destruct (AES_Facts.PKCS7_Pad_value (firstn (Z.to_nat (L - pad)) input)) as [_ Hpad].
  { rewrite Hlo. unfold AES_BLOCK_SIZE. lia. }
  rewrite Hpad, Hlo. unfold AES_BLOCK_SIZE.
  assert (Hpl : 16 - Z.of_nat (Z.to_nat (L - pad)) mod 16 = pad).
  { rewrite Z2Nat.id by lia.
    pose proof (Z.div_mod L 16 ltac:(lia)) as Hd. rewrite Hal in Hd.
    pose proof (Z.div_mod (L - pad) 16 ltac:(lia)) as Hd'.
    pose proof (Z.mod_pos_bound (L - pad) 16 ltac:(lia)) as Hr.
    lia. }
  rewrite Hpl. f_equal; [f_equal|lia].
  rewrite <- (firstn_skipn (Z.to_nat (L - pad)) input) at 2. f_equal.
  symmetry. apply (nth_ext _ _ Byte.x00 Byte.x00).
  - rewrite length_skipn, repeat_length. subst L. lia.
  - intros k Hk. rewrite length_skipn in Hk.
    rewrite nth_skipn, nth_repeat_lt by (subst L; lia).
    pose proof (AES_Facts.padding_bytes_ok_true input L pad (Z.to_nat pad) 0 Hok
                  (pad - 1 - Z.of_nat k) ltac:(subst L; lia)) as Hb.
    replace (Z.to_nat (L - 1 - (pad - 1 - Z.of_nat k))) with (Z.to_nat (L - pad) + k)%nat in Hb
      by lia.
    transitivity (byte.of_Z (byte.unsigned (nth (Z.to_nat (L - pad) + k) input Byte.x00)));
      [symmetry; apply byte.of_Z_unsigned | f_equal; exact Hb].
Qed.

Lemma PKCS7_Unpad_then_Pad_witness :
  AES.PKCS7_Pad (map byte.of_Z [1; 2; 3; 4; 5])
  = (PKCS7_PAD_OK,
     map byte.of_Z [1; 2; 3; 4; 5; 11; 11; 11; 11; 11; 11; 11; 11; 11; 11; 11], 16).
Proof.
  refine (proj2 (proj2 (PKCS7_Unpad_then_Pad
    (map byte.of_Z [1; 2; 3; 4; 5; 11; 11; 11; 11; 11; 11; 11; 11; 11; 11; 11])
    (map byte.of_Z [1; 2; 3; 4; 5]) 5 _ _))).
  - vm_compute. reflexivity.
  - vm_compute. reflexivity.
Defined.

(** X4.  Encryption followed by decryption: on an AES engine whose
    decryption inverts its encryption (same key and IV, as many words out
    as in), whatever [SECBOOT_AES_Encrypt] returns for a plaintext is
    decrypted by [SECBOOT_AES_Decrypt] under the same context to that
    plaintext and its length; the ciphertext is a whole number of 16-byte
    blocks, longer than the plaintext.  The padded plaintext is below
    65536 words, the range of the word count handed to the engine. *)
Theorem AES_Encrypt_then_Decrypt {hal : HAL} {hal_init : HAL_init}
  (ctx : AES.SECBOOT_AES_Context) (plaintext : list byte)
  (ciphertext : list Z) (ciphertext_len : Z) :
  (forall key iv ws c,
     HAL_CRYP_Encrypt key iv ws = (HAL_OK, c) ->
     length c = length ws /\ HAL_CRYP_Decrypt key iv c = (HAL_OK, ws)) ->
  Z.of_nat (length plaintext) + AES_BLOCK_SIZE < 2 ^ 18 ->
  AES_Encrypt.SECBOOT_AES_Encrypt (Some ctx) (Some plaintext) false false
  = (SECBOOT_AES_OK, Some (ciphertext, ciphertext_len)) ->
  ciphertext_len = Z.of_nat (length ciphertext) /\
  (4 * ciphertext_len) mod AES_BLOCK_SIZE = 0 /\
  Z.of_nat (length plaintext) < 4 * ciphertext_len <= Z.of_nat (length plaintext) + AES_BLOCK_SIZE /\
  AES.SECBOOT_AES_Decrypt ctx ciphertext ciphertext_len
  = (SECBOOT_AES_OK, Some (plaintext, Z.of_nat (length plaintext))).
Proof.
  intros Hengine Hsize.
  unfold AES_Encrypt.SECBOOT_AES_Encrypt. cbn [orb].
  destruct (AES_Facts.PKCS7_Pad_value plaintext) as [Hpad Hval];
    [unfold AES_BLOCK_SIZE in *; lia|].
  rewrite Hval.
  set (len := Z.of_nat (length plaintext)) in *.
  set (pad_len := AES_BLOCK_SIZE - len mod AES_BLOCK_SIZE) in *.
  set (padded := plaintext ++ repeat (byte.of_Z pad_len) (Z.to_nat pad_len)).
  assert (Hal : (len + pad_len) mod AES_BLOCK_SIZE = 0)
    by (subst pad_len; apply PKCS7_Facts.padded_length_aligned).
  unfold AES_BLOCK_SIZE in *.
  assert (Hlen : 0 <= len) by (subst len; lia).
  assert (Hsz : AES.size_t len = len) by (apply Z.mod_small; lia).
  rewrite Hsz.
  replace (len + 16 - len mod 16) with (len + pad_len) by (subst pad_len; lia).
  replace (AES.size_t (len + pad_len)) with (len + pad_len)
    by (symmetry; apply Z.mod_small; lia).
  pose proof (Z.div_mod (len + pad_len) 16 ltac:(lia)) as Hd16. rewrite Hal in Hd16.
  set (n := (len + pad_len) / 4).
  assert (Hn : len + pad_len = 4 * n).
  { subst n. clear - Hal. Z.to_euclidean_division_equations. lia. }
  assert (Hn0 : 0 <= n < 2 ^ 16) by lia.
  assert (Hplen : length padded = (4 * Z.to_nat n)%nat).
  { subst padded. rewrite length_app, repeat_length. lia. }
  assert (Hwords :
    AES.bytes_to_uint32_be padded (len + pad_len) (AES.zero_words (Z.to_nat n))
    = map (fun j : nat =>
             AES.be_word (nth (4 * j + 0) padded Byte.x00) (nth (4 * j + 1) padded Byte.x00)
                         (nth (4 * j + 2) padded Byte.x00) (nth (4 * j + 3) padded Byte.x00))
          (seq 0 (Z.to_nat n))).
  { pose proof (AES_Facts.bytes_to_uint32_be_words padded (AES.zero_words (Z.to_nat n))) as H.
    unfold AES.zero_words in H at 1 3. rewrite repeat_length in H.
    rewrite Z2Nat.id in H by lia. rewrite <- Hn in H. exact H. }
  rewrite Hwords.
  set (words := map _ (seq 0 (Z.to_nat n))) in *.
  assert (Hwl : length words = Z.to_nat n) by (subst words; now rewrite length_map, length_seq).
  replace (AES.uint16_t n) with n
    by (symmetry; apply Z.mod_small; lia).
  rewrite firstn_all2 by lia.
  destruct (HAL_CRYP_Encrypt (AES.ctx_key ctx) (AES.ctx_iv ctx) words) as [st c] eqn:Henc.
  destruct st; try discriminate.
  destruct (Hengine _ _ _ _ Henc) as [Hcl Hdec].
  rewrite (KeyUnwrap_Facts.fit_exact 0 (Z.to_nat n) c) by lia.
  rewrite firstn_all2 by lia.
  intros H. injection H as <- <-.
  split; [lia|]. split; [rewrite <- Hn; exact Hal|]. split; [lia|].
  unfold AES.SECBOOT_AES_Decrypt.
  replace (AES.uint16_t n) with n by (symmetry; apply Z.mod_small; lia).
  rewrite (firstn_all2 (n := Z.to_nat n) c) by lia. rewrite Hdec.
  rewrite (KeyUnwrap_Facts.fit_exact 0 (Z.to_nat n) words) by lia.
  subst words. rewrite (AES_Facts.uint32_to_bytes_be_words padded (Z.to_nat n) Hplen).
  replace (n * 4) with (len + pad_len) by lia.
  assert (Hu := AES_Facts.PKCS7_Unpad_padded plaintext pad_len).
  fold len in Hu. subst padded. rewrite Hu;
    [reflexivity | unfold AES_BLOCK_SIZE; lia | reflexivity].
Qed.

Lemma AES_Encrypt_then_Decrypt_witness :
  AES.SECBOOT_AES_Decrypt (hal := Bench.bench_HAL)
    (AES.mkCtx [1; 2; 3; 4] [5; 6; 7; 8]) [0x01020304; 0x050B0B0B; 0x0B0B0B0B; 0x0B0B0B0B] 4
  = (SECBOOT_AES_OK, Some (map byte.of_Z [1; 2; 3; 4; 5], 5)).
Proof.
  refine (proj2 (proj2 (proj2 (AES_Encrypt_then_Decrypt
    (hal := Bench.bench_HAL) (hal_init := bench_HAL_init)
    (AES.mkCtx [1; 2; 3; 4] [5; 6; 7; 8]) (map byte.of_Z [1; 2; 3; 4; 5])
    [0x01020304; 0x050B0B0B; 0x0B0B0B0B; 0x0B0B0B0B] 4 _ _ _)))).
  - intros key iv ws c H. injection H as <-. split; reflexivity.
  - vm_compute. reflexivity.
  - vm_compute. reflexivity.
Defined.

(** ** CRC verification and the bootloader self-check
       (secboot_crc.c, secboot_bootmanager.c) *)

(** X5.  [SECBOOT_CRC_Verify] agrees with [SECBOOT_CRC_Calculate]: the
    value [SECBOOT_CRC_Calculate] stores for a buffer is accepted for that
    buffer; any expected value is answered OK exactly when it equals the
    CRC of the buffer and MISMATCH exactly when it does not; a NULL buffer
    is answered INVALID_PARAM before the CRC unit is used. *)
Theorem CRC_Verify_agrees_with_Calculate {hal : HAL}
  (data : list byte) (cell expectedCrc : Z) (s s' : machine) :
  (forall crc,
     snd (fst (SECBOOT_CRC_Calculate (Some data) (Some cell) s)) = Some crc ->
     fst (CRC.SECBOOT_CRC_Verify (Some data) crc s') = SECBOOT_CRC_OK) /\
  (fst (CRC.SECBOOT_CRC_Verify (Some data) expectedCrc s') = SECBOOT_CRC_OK
   <-> u32 expectedCrc = u32 (HAL_CRC_Calculate data)) /\
  (fst (CRC.SECBOOT_CRC_Verify (Some data) expectedCrc s') = SECBOOT_CRC_MISMATCH
   <-> u32 expectedCrc <> u32 (HAL_CRC_Calculate data)) /\
  CRC.SECBOOT_CRC_Verify None expectedCrc s' = (SECBOOT_CRC_INVALID_PARAM, s').
Proof.
  unfold CRC.SECBOOT_CRC_Verify, SECBOOT_CRC_Calculate. cbn [fst snd].
  repeat split.
  - intros crc H. injection H as <-.
    replace (u32 (u32 (HAL_CRC_Calculate data))) with (u32 (HAL_CRC_Calculate data))
      by (unfold u32; now rewrite Z.mod_mod).
    rewrite Z.eqb_refl. reflexivity.
  - destruct (Z.eqb_spec (u32 (HAL_CRC_Calculate data)) (u32 expectedCrc)) as [E|E];
      cbn [negb fst]; [intros _; now symmetry|discriminate].
  - intros E. rewrite E, Z.eqb_refl. reflexivity.
  - destruct (Z.eqb_spec (u32 (HAL_CRC_Calculate data)) (u32 expectedCrc)) as [E|E];
      cbn [negb fst]; [discriminate|intros _ E'; now apply E].
  - intros E. destruct (Z.eqb_spec (u32 (HAL_CRC_Calculate data)) (u32 expectedCrc)) as [E'|E'];
      cbn [negb fst]; [contradiction E; now symmetry|reflexivity].
Qed.

Module SelfCheck_Facts.
Import BootInit.

Lemma Bootloader_size_nat : Z.of_nat (Z.to_nat (u32 BOOTLOADER_SIZE)) = BOOTLOADER_SIZE.
Proof. rewrite Z2Nat.id; [reflexivity|]. vm_compute. discriminate. Qed.

Section WithHAL.
Context {hal : HAL}.

Lemma VerifyBootloaderCRC_unfold (s : machine) :
  let data := load_bytes (memory s) BOOTLOADER_START_ADDR (Z.to_nat (u32 BOOTLOADER_SIZE)) in
  SECBOOT_BootManager_VerifyBootloaderCRC s
  = (if load32 (memory s) BOOTLOADER_CRC_OFFSET =? u32 (HAL_CRC_Calculate data)
     then SECBOOT_BOOTMANAGER_OK else SECBOOT_BOOTMANAGER_INVALID_CRC,
     record_hw (OpCrc data) s).
Proof.
  intros data. unfold SECBOOT_BootManager_VerifyBootloaderCRC, SECBOOT_CRC_Calculate.
  change (BOOTLOADER_START_ADDR =? 0) with false. cbv iota. fold data.
  change (memory (record_hw (OpCrc data) s)) with (memory s).
  destruct (_ =? _); reflexivity.
Qed.

End WithHAL.
End SelfCheck_Facts.

(** X6.  [SECBOOT_BootManager_VerifyBootloaderCRC] looks at the
    [BOOTLOADER_SIZE] bytes from [BOOTLOADER_START_ADDR] and at the stored
    CRC word, and at nothing else: two memories that agree there get the
    same answer.  It never answers ERROR and changes no memory.  The
    provisioned AES key, IV and public key lie between the two ranges, so
    their content has no influence on the self-check. *)
Theorem VerifyBootloaderCRC_depends_on_code_and_crc_word {hal : HAL} (s1 s2 : machine) :
  (forall x, BOOTLOADER_START_ADDR <= x < BOOTLOADER_START_ADDR + BOOTLOADER_SIZE ->
             memory s1 x = memory s2 x) ->
  (forall x, BOOTLOADER_CRC_OFFSET <= x < BOOTLOADER_CRC_OFFSET + 4 ->
             memory s1 x = memory s2 x) ->
  fst (BootInit.SECBOOT_BootManager_VerifyBootloaderCRC s1)
  = fst (BootInit.SECBOOT_BootManager_VerifyBootloaderCRC s2) /\
  fst (BootInit.SECBOOT_BootManager_VerifyBootloaderCRC s1) <> SECBOOT_BOOTMANAGER_ERROR /\
  memory (snd (BootInit.SECBOOT_BootManager_VerifyBootloaderCRC s1)) = memory s1 /\
  BOOTLOADER_START_ADDR + BOOTLOADER_SIZE <= AES_KEY_OFFSET /\
  ECC_PUBKEY_OFFSET + 64 <= BOOTLOADER_CRC_OFFSET.
Proof.
  intros Hcode Hcrc.
  rewrite !SelfCheck_Facts.VerifyBootloaderCRC_unfold. cbn [fst snd].
  repeat split.
  - rewrite (load_bytes_ext (memory s1) (memory s2) _ BOOTLOADER_START_ADDR)
      by (intros x Hx; apply Hcode; rewrite SelfCheck_Facts.Bootloader_size_nat in Hx; exact Hx).
    unfold load32.
    rewrite (load_bytes_ext (memory s1) (memory s2) 4 BOOTLOADER_CRC_OFFSET)
      by (intros x Hx; apply Hcrc; lia).
    reflexivity.
  - destruct (_ =? _); discriminate.
  - vm_compute. discriminate.
  - vm_compute. discriminate.
Qed.

Lemma VerifyBootloaderCRC_depends_on_code_and_crc_word_witness :
  fst (@BootInit.SECBOOT_BootManager_VerifyBootloaderCRC Bench.bench_HAL
         (set_memory (memset (memory Fixture.good_machine) ECC_PUBKEY_OFFSET Byte.x00 64)
                     Fixture.good_machine))
  = fst (@BootInit.SECBOOT_BootManager_VerifyBootloaderCRC Bench.bench_HAL Fixture.good_machine).
Proof.
  refine (proj1 (@VerifyBootloaderCRC_depends_on_code_and_crc_word Bench.bench_HAL
    (set_memory (memset (memory Fixture.good_machine) ECC_PUBKEY_OFFSET Byte.x00 64)
                Fixture.good_machine)
    Fixture.good_machine _ _)).
  - intros x Hx. cbn [memory set_memory]. rewrite memset_read.
    unfold ECC_PUBKEY_OFFSET, BOOTLOADER_START_ADDR, BOOTLOADER_SIZE in *.
    zcases; reflexivity.
  - intros x Hx. cbn [memory set_memory]. rewrite memset_read.
    unfold ECC_PUBKEY_OFFSET, BOOTLOADER_CRC_OFFSET, BOOTLOADER_START_ADDR in *.
    zcases; reflexivity.
Defined.

(** ** Image verification: what OK means, and what a call leaves behind *)

Module Verify_Sound.
Import BootManager Verify_Facts.

Section WithHAL.
Context {hal : HAL}.

Lemma SHA256_Compute_ok_inv (p n : Z) (out : list byte) (s : machine) :
  fst (fst (SECBOOT_SHA256_Compute p n out s)) = SECBOOT_SHA256_OK ->
  p <> 0 /\ n <> 0 /\
  HAL_HASHEx_SHA256_Start (load_bytes (memory s) p (Z.to_nat n)) = HAL_OK /\
  exists d,
    HAL_HASHEx_SHA256_Finish (load_bytes (memory s) p (Z.to_nat n)) = (HAL_OK, d) /\
    snd (fst (SECBOOT_SHA256_Compute p n out s)) = fit Byte.x00 32 d.
Proof.
  unfold SECBOOT_SHA256_Compute.
  destruct (Z.eqb_spec p 0); [discriminate|].
  destruct (Z.eqb_spec n 0); [discriminate|].
  destruct (HAL_HASHEx_SHA256_Start _) eqn:Hs; try discriminate.
  destruct (HAL_HASHEx_SHA256_Finish _) as [[] d] eqn:Hf; try discriminate.
  intros _. repeat split; try assumption. exists d. split; reflexivity.
Qed.

Lemma ECDSA_Verify_success_inv (d : list byte) (l sg pk : Z) (s : machine) :
  fst (SECBOOT_ECDSA_Verify_Signature d l sg pk s) = SECBOOT_ECDSA_VERIFICATION_SUCCESS ->
  HAL_PKA_GetState = HAL_PKA_STATE_READY /\ get_prime256v1_curve = true /\
  HAL_PKA_ECDSAVerif d (load_bytes (memory s) sg 32) (load_bytes (memory s) (sg + 32) 32)
                     (load_bytes (memory s) pk 32) (load_bytes (memory s) (pk + 32) 32) = HAL_OK /\
  HAL_PKA_ECDSAVerif_IsValidSignature d
    (load_bytes (memory s) sg 32) (load_bytes (memory s) (sg + 32) 32)
    (load_bytes (memory s) pk 32) (load_bytes (memory s) (pk + 32) 32) = true.
Proof.
  unfold SECBOOT_ECDSA_Verify_Signature.
  destruct ((sg =? 0) || (pk =? 0)); [discriminate|].
  destruct (negb (l =? SECBOOT_ECDSA_SHA256_DIGEST_SIZE)); [discriminate|].
  destruct HAL_PKA_GetState; try discriminate.
  destruct get_prime256v1_curve; cbn [negb]; [|discriminate].
  destruct (HAL_PKA_ECDSAVerif _ _ _ _ _) eqn:Hv; try discriminate.
  destruct (HAL_PKA_ECDSAVerif_IsValidSignature _ _ _ _ _) eqn:Hok; [|discriminate].
  intros _. repeat split; assumption.
Qed.

(** The memory a successful verification leaves. *)
Lemma VerifyAppSignature_ok_memory (a : Z) (s : machine) :
  fst (SECBOOT_BootManager_VerifyAppSignature a s) = SECBOOT_BOOTMANAGER_OK ->
  memory (snd (SECBOOT_BootManager_VerifyAppSignature a s))
  = memset (memset (memory s) ECC_PUBKEY_OFFSET Byte.x00 64) (a + OFS_signature) Byte.x00 64.
Proof.
  intros Hok.
  pose proof (Verify_Stages.VerifyAppSignature_cases a s) as H. cbv zeta in H.
  destruct H as [[_ Hr]|[H|[H|[H|H]]]].
  - rewrite Hr in Hok. discriminate.
  - destruct H as (_ & _ & Hr & _). rewrite Hr in Hok. discriminate.
  - destruct H as (_ & _ & _ & Hr). rewrite Hr in Hok. discriminate.
  - destruct H as (_ & _ & _ & _ & Hr & _). rewrite Hr in Hok. discriminate.
  - destruct H as (_ & _ & _ & _ & Hr). rewrite Hr. reflexivity.
Qed.

(** The wrappers' answers behind an OK. *)
Lemma VerifyAppSignature_ok_stages (a : Z) (s : machine) :
  fst (SECBOOT_BootManager_VerifyAppSignature a s) = SECBOOT_BOOTMANAGER_OK ->
  let m := memory s in
  let sha := SECBOOT_SHA256_Compute (header_entryPoint m a) (header_imageSize m a)
                                    (repeat Byte.x00 32) s in
  header_magicNumber m a = FW_MAGIC_NUMBER /\
  fst (fst sha) = SECBOOT_SHA256_OK /\
  snd (fst sha) = header_firmwareHash m a /\
  fst (SECBOOT_ECDSA_Verify_Signature (header_firmwareHash m a) FW_HASH_SIZE (a + OFS_signature)
                                      ECC_PUBKEY_OFFSET s)
  = SECBOOT_ECDSA_VERIFICATION_SUCCESS.
Proof.
  intros Hok m sha.
  pose proof (Verify_Stages.VerifyAppSignature_cases a s) as H. cbv zeta in H.
  fold m in H. fold sha in H.
  destruct H as [[_ Hr]|[H|[H|[H|H]]]].
  - rewrite Hr in Hok. discriminate.
  - destruct H as (_ & _ & Hr & _). rewrite Hr in Hok. discriminate.
  - destruct H as (_ & _ & _ & Hr). rewrite Hr in Hok. discriminate.
  - destruct H as (_ & _ & _ & _ & Hr & _). rewrite Hr in Hok. discriminate.
  - destruct H as (Hmagic & Hsha & Hdig & Hec & _).
    rewrite Hdig in Hec. repeat split; assumption.
Qed.

End WithHAL.
End Verify_Sound.

(** X7.  What OK means: when [SECBOOT_BootManager_VerifyAppSignature]
    returns OK, the header carried the magic number, entry point and image
    size were not zero, the hash engine produced for the [imageSize] bytes at
    [entryPoint] a digest equal to the stored hash, and the PKA accepted the
    header's signature (R then S) over that digest under the key stored at
    [ECC_PUBKEY_OFFSET] (Qx then Qy). *)
Theorem VerifyAppSignature_OK_means_all_checks_passed {hal : HAL} (a : Z) (s : machine) :
  fst (BootManager.SECBOOT_BootManager_VerifyAppSignature a s) = SECBOOT_BOOTMANAGER_OK ->
  let m := memory s in
  let payload := load_bytes m (header_entryPoint m a) (Z.to_nat (header_imageSize m a)) in
  let hash := header_firmwareHash m a in
  header_magicNumber m a = FW_MAGIC_NUMBER /\
  header_entryPoint m a <> 0 /\ header_imageSize m a <> 0 /\
  HAL_HASHEx_SHA256_Start payload = HAL_OK /\
  (exists d, HAL_HASHEx_SHA256_Finish payload = (HAL_OK, d) /\ fit Byte.x00 32 d = hash) /\
  HAL_PKA_ECDSAVerif_IsValidSignature hash
    (load_bytes m (a + OFS_signature) 32) (load_bytes m (a + OFS_signature + 32) 32)
    (load_bytes m ECC_PUBKEY_OFFSET 32) (load_bytes m (ECC_PUBKEY_OFFSET + 32) 32) = true.
Proof.
  intros Hok m payload hash.
  destruct (Verify_Sound.VerifyAppSignature_ok_stages a s Hok) as (Hmagic & Hsha & Hdig & Hec).
  destruct (Verify_Sound.SHA256_Compute_ok_inv _ _ _ _ Hsha) as (He & Hn & Hstart & d & Hfin & Hd).
  destruct (Verify_Sound.ECDSA_Verify_success_inv _ _ _ _ _ Hec) as (_ & _ & _ & Hvalid).
  repeat split; try assumption.
  exists d. split; [exact Hfin|]. rewrite <- Hd. exact Hdig.
Qed.

Lemma VerifyAppSignature_OK_means_all_checks_passed_witness :
  header_magicNumber (memory Fixture.good_machine) Fixture.image_addr = FW_MAGIC_NUMBER.
Proof.
  refine (proj1 (@VerifyAppSignature_OK_means_all_checks_passed Bench.bench_HAL
                   Fixture.image_addr Fixture.good_machine _)).
  vm_compute. reflexivity.
Defined.

(** X8.  What a verification writes: on every path the memory outside the
    64 bytes of the stored public key and the 64 bytes of the header's
    signature field is left as it was, and when the status is not OK no byte
    at all is changed.  The log index is not touched, and the only
    peripherals used are the hash engine and the PKA (no CRC, no flash
    programming, no GPIO). *)
Theorem VerifyAppSignature_footprint {hal : HAL} (a : Z) (s : machine) :
  let r := BootManager.SECBOOT_BootManager_VerifyAppSignature a s in
  (forall x, ~ (ECC_PUBKEY_OFFSET <= x < ECC_PUBKEY_OFFSET + 64) ->
             ~ (a + OFS_signature <= x < a + OFS_signature + 64) ->
             memory (snd r) x = memory s x) /\
  (fst r <> SECBOOT_BOOTMANAGER_OK -> memory (snd r) = memory s) /\
  log_index (snd r) = log_index s /\
  (forall op, In op (hw_since s (snd r)) ->
     match op with OpHash _ _ | OpEcdsaVerif _ => True | _ => False end).
Proof.
  intros r. subst r. repeat split.
  - intros x Hpk Hsig.
    destruct (bootmanager_is_OK (fst (BootManager.SECBOOT_BootManager_VerifyAppSignature a s)))
      eqn:Hst.
    + assert (Hok : fst (BootManager.SECBOOT_BootManager_VerifyAppSignature a s)
                    = SECBOOT_BOOTMANAGER_OK)
        by (destruct (fst _); try discriminate; reflexivity).
      rewrite (Verify_Sound.VerifyAppSignature_ok_memory a s Hok), !memset_read.
      change (Z.of_nat 64) with 64.
      destruct (Z.leb_spec (a + OFS_signature) x), (Z.ltb_spec x (a + OFS_signature + 64));
        cbn [andb]; try lia;
      destruct (Z.leb_spec ECC_PUBKEY_OFFSET x), (Z.ltb_spec x (ECC_PUBKEY_OFFSET + 64));
        cbn [andb]; try lia; reflexivity.
    + rewrite Verify_Frame.VerifyAppSignature_failure_memory; [reflexivity|].
      intros Hok. rewrite Hok in Hst. discriminate.
  - apply Verify_Frame.VerifyAppSignature_failure_memory.
  - apply Verify_Frame.VerifyAppSignature_calls.
  - intros op Hin.
    pose proof (Verify_HeaderCRC.VerifyAppSignature_hw a s) as H. cbv zeta in H.
    destruct H as [H|[H|[d H]]]; rewrite H in Hin; cbn [In] in Hin.
    + contradiction.
    + destruct Hin as [<-|[]]. exact I.
    + destruct Hin as [<-|[<-|[]]]; exact I.
Qed.

(** ** Key unwrapping: what OK means, and what stays in the context *)

(** X10.  What OK means for [get_AES_key]: the AES engine was initialised,
    decrypted the wrapped key and was de-initialised, each with HAL_OK, the
    decrypted block carried valid PKCS#7 padding, and the context holding
    the device-derived key has been zeroed.  No failure of the engine is
    masked. *)
Theorem get_AES_key_OK_means_engine_succeeded {hal : HAL} (after_Aes_key : list Z) (m : mem) :
  fst (fst (BootManager.get_AES_key after_Aes_key m)) = SECBOOT_AES_OK ->
  let temp_key := [u32 HAL_GetUIDw0; u32 HAL_GetUIDw1; u32 HAL_GetUIDw2; FW_MAGIC_NUMBER] in
  HAL_CRYP_Init = HAL_OK /\
  HAL_CRYP_DeInit = HAL_OK /\
  (exists out plain n,
     HAL_CRYP_Decrypt temp_key (load_words m AES_IV_OFFSET 4) (load_words m AES_KEY_OFFSET 8)
     = (HAL_OK, out) /\
     AES.PKCS7_Unpad (Some (AES.uint32_to_bytes_be (fit 0 8 out) 8)) 32 false false
     = (PKCS7_UNPAD_OK, Some (plain, n))) /\
  BootManager.AES_ctx (snd (BootManager.get_AES_key after_Aes_key m))
  = AES.mkCtx [0; 0; 0; 0] [0; 0; 0; 0].
Proof.
  unfold BootManager.get_AES_key, AES.SECBOOT_AES_Init, AES.SECBOOT_AES_DeInit,
    AES.SECBOOT_AES_Decrypt.
  change (Z.to_nat (AES_KEY_SIZE / 4)) with 8%nat.
  change (Z.to_nat (AES_IV_SIZE / 4)) with 4%nat.
  change (AES_KEY_SIZE / 4 * 4) with 32.
  change (Z.to_nat KEY_WORD_SIZE) with 4%nat. change (Z.to_nat IV_WORD_SIZE) with 4%nat.
  rewrite (KeyUnwrap_Facts.fit_exact 0 4 (load_words m AES_IV_OFFSET 4))
    by apply KeyUnwrap_Facts.load_words_length.
  change (fit 0 4 [u32 HAL_GetUIDw0; u32 HAL_GetUIDw1; u32 HAL_GetUIDw2; FW_MAGIC_NUMBER])
    with [u32 HAL_GetUIDw0; u32 HAL_GetUIDw1; u32 HAL_GetUIDw2; FW_MAGIC_NUMBER].
  cbn [AES.ctx_key AES.ctx_iv].
  destruct HAL_CRYP_Init;
    try (destruct (HAL_CRYP_Decrypt _ _ _) as [dst out]; destruct dst;
         try (destruct (AES.PKCS7_Unpad _ _ _ _) as [ust [[plain n]|]] eqn:Hun; destruct ust));
    destruct HAL_CRYP_DeInit; cbn [fst snd BootManager.AES_ctx]; try discriminate.
  intros _. repeat split.
  exists out, plain, n. split; [reflexivity|exact Hun].
Qed.

Lemma get_AES_key_OK_means_engine_succeeded_witness :
  BootManager.AES_ctx
    (snd (@BootManager.get_AES_key Bench.bench_HAL [0xA0A1A2A3; 0; 0; 0]
            Fixture.flash_with_blank_key))
  = AES.mkCtx [0; 0; 0; 0] [0; 0; 0; 0].
Proof.
  refine (proj2 (proj2 (proj2 (@get_AES_key_OK_means_engine_succeeded Bench.bench_HAL
            [0xA0A1A2A3; 0; 0; 0] Fixture.flash_with_blank_key _)))).
  vm_compute. reflexivity.
Defined.

(** X11.  The copy of the device-derived key inside [AES_ctx] is scrubbed
    by [SECBOOT_AES_DeInit] only: when [HAL_CRYP_DeInit] does not answer
    HAL_OK, [get_AES_key] returns ERROR and its context still holds the key
    made of the device UID and the IV, although the three scrub loops have
    run; the IV is copied to the caller's structure also on this path.
    This is for wrapped keys whose plaintext, if the decryption succeeds, is
    shorter than 20 bytes: [bytes_to_uint32_be] then stores no word past the
    4-word array [Aes_key], and the words that follow the array are as they
    were. *)
Theorem get_AES_key_context_after_failed_DeInit {hal : HAL} (after_Aes_key : list Z) (m : mem) :
  HAL_CRYP_DeInit <> HAL_OK ->
  (forall plain n,
     AES.SECBOOT_AES_Decrypt
       (AES.mkCtx [u32 HAL_GetUIDw0; u32 HAL_GetUIDw1; u32 HAL_GetUIDw2; FW_MAGIC_NUMBER]
                  (load_words m AES_IV_OFFSET 4))
       (load_words m AES_KEY_OFFSET 8) (AES_KEY_SIZE / 4)
     = (SECBOOT_AES_OK, Some (plain, n)) ->
     n / 4 <= KEY_WORD_SIZE) ->
  fst (fst (BootManager.get_AES_key after_Aes_key m)) = SECBOOT_AES_ERROR /\
  BootManager.AES_ctx (snd (BootManager.get_AES_key after_Aes_key m))
  = AES.mkCtx [u32 HAL_GetUIDw0; u32 HAL_GetUIDw1; u32 HAL_GetUIDw2; FW_MAGIC_NUMBER]
              (load_words m AES_IV_OFFSET 4) /\
  BootManager.temp_key (snd (BootManager.get_AES_key after_Aes_key m)) = [0; 0; 0; 0] /\
  BootManager.AES_iv (snd (fst (BootManager.get_AES_key after_Aes_key m)))
  = load_words m AES_IV_OFFSET 4 /\
  skipn 4 (BootManager.Aes_key_region (snd (BootManager.get_AES_key after_Aes_key m)))
  = fit 0 4 after_Aes_key.
Proof.
  intros Hde Hshort.
  unfold BootManager.get_AES_key, AES.SECBOOT_AES_Init, AES.SECBOOT_AES_DeInit.
  change (Z.to_nat (AES_KEY_SIZE / 4)) with 8%nat.
  change (Z.to_nat (AES_IV_SIZE / 4)) with 4%nat.
  change (Z.to_nat KEY_WORD_SIZE) with 4%nat. change (Z.to_nat IV_WORD_SIZE) with 4%nat.
  rewrite (KeyUnwrap_Facts.fit_exact 0 4 (load_words m AES_IV_OFFSET 4))
    by apply KeyUnwrap_Facts.load_words_length.
  change (fit 0 4 [u32 HAL_GetUIDw0; u32 HAL_GetUIDw1; u32 HAL_GetUIDw2; FW_MAGIC_NUMBER])
    with [u32 HAL_GetUIDw0; u32 HAL_GetUIDw1; u32 HAL_GetUIDw2; FW_MAGIC_NUMBER].
  assert (Hiv : firstn 4 (load_words m AES_IV_OFFSET 4
                          ++ AES.zero_words (Z.to_nat (AES_IV_SIZE - AES_IV_SIZE / 4)))
                = load_words m AES_IV_OFFSET 4).
  { rewrite firstn_app, KeyUnwrap_Facts.load_words_length, Nat.sub_diag, firstn_O, app_nil_r.
    apply firstn_all2. rewrite KeyUnwrap_Facts.load_words_length. lia. }
  assert (Hregion : forall dk n, n / 4 <= KEY_WORD_SIZE ->
            skipn 4 (AES.bytes_to_uint32_be dk n (AES.zero_words 4 ++ fit 0 4 after_Aes_key))
            = fit 0 4 after_Aes_key).
  { intros dk n Hn. unfold AES.bytes_to_uint32_be, KEY_WORD_SIZE in *.
    pose proof (AES_Facts.bytes_to_uint32_be_loop_app dk (Z.to_nat (n / 4)) []
                  (AES.zero_words 4 ++ fit 0 4 after_Aes_key)) as Hloop.
    cbn [app length] in Hloop. rewrite Hloop
      by (rewrite length_app, fit_length; cbn [AES.zero_words repeat length]; lia).
    rewrite skipn_app, length_map, length_seq, skipn_skipn.
    rewrite skipn_all2 by (rewrite length_map, length_seq; lia).
    replace (4 - Z.to_nat (n / 4) + Z.to_nat (n / 4))%nat with 4%nat by lia.
    reflexivity. }
  destruct HAL_CRYP_Init;
    try (destruct (AES.SECBOOT_AES_Decrypt _ _ _) as [dst [[plain n]|]] eqn:Hdec; destruct dst);
    destruct HAL_CRYP_DeInit; try (contradiction Hde; reflexivity);
    cbn [fst snd BootManager.AES_ctx BootManager.temp_key BootManager.AES_iv
         BootManager.Aes_key_region map];
    rewrite Hiv; repeat split; try reflexivity;
    apply Hregion; exact (Hshort _ _ eq_refl).
Qed.

Lemma get_AES_key_context_after_failed_DeInit_witness :
  AES.ctx_key
    (BootManager.AES_ctx
       (snd (@BootManager.get_AES_key (bench_HAL_CRYP HAL_OK HAL_ERROR) [0; 0; 0; 0]
               Fixture.flash_with_blank_key)))
  = [0x00330041; 0x3436510A; 0x20373538; 0xDEADBEEF].
Proof.
  refine (f_equal AES.ctx_key
            (proj1 (proj2 (@get_AES_key_context_after_failed_DeInit
                             (bench_HAL_CRYP HAL_OK HAL_ERROR)
                             [0; 0; 0; 0] Fixture.flash_with_blank_key _ _)))).
  - discriminate.
  - intros plain n H. vm_compute in H. injection H as _ <-. vm_compute. discriminate.
Defined.

(** X23.  No key without the engine: when [HAL_CRYP_Init] or the
    decryption of the wrapped key does not answer HAL_OK, [get_AES_key]
    returns ERROR and the key words it writes to the caller's structure are
    all zero (the IV is still copied).  *)
Theorem get_AES_key_engine_failure_gives_zero_key {hal : HAL} (after_Aes_key : list Z) (m : mem) :
  HAL_CRYP_Init <> HAL_OK \/
  fst (HAL_CRYP_Decrypt [u32 HAL_GetUIDw0; u32 HAL_GetUIDw1; u32 HAL_GetUIDw2; FW_MAGIC_NUMBER]
                        (load_words m AES_IV_OFFSET 4) (load_words m AES_KEY_OFFSET 8))
  <> HAL_OK ->
  fst (fst (BootManager.get_AES_key after_Aes_key m)) = SECBOOT_AES_ERROR /\
  BootManager.AES_key (snd (fst (BootManager.get_AES_key after_Aes_key m))) = [0; 0; 0; 0] /\
  BootManager.AES_iv (snd (fst (BootManager.get_AES_key after_Aes_key m)))
  = load_words m AES_IV_OFFSET 4.
Proof.
  intros Hfail.
  unfold BootManager.get_AES_key, AES.SECBOOT_AES_Init, AES.SECBOOT_AES_DeInit,
    AES.SECBOOT_AES_Decrypt.
  change (Z.to_nat (AES_KEY_SIZE / 4)) with 8%nat.
  change (Z.to_nat (AES_IV_SIZE / 4)) with 4%nat.
  change (Z.to_nat KEY_WORD_SIZE) with 4%nat. change (Z.to_nat IV_WORD_SIZE) with 4%nat.
  rewrite (KeyUnwrap_Facts.fit_exact 0 4 (load_words m AES_IV_OFFSET 4))
    by apply KeyUnwrap_Facts.load_words_length.
  change (fit 0 4 [u32 HAL_GetUIDw0; u32 HAL_GetUIDw1; u32 HAL_GetUIDw2; FW_MAGIC_NUMBER])
    with [u32 HAL_GetUIDw0; u32 HAL_GetUIDw1; u32 HAL_GetUIDw2; FW_MAGIC_NUMBER].
  cbn [AES.ctx_key AES.ctx_iv].
  assert (Hiv : firstn 4 (load_words m AES_IV_OFFSET 4
                          ++ AES.zero_words (Z.to_nat (AES_IV_SIZE - AES_IV_SIZE / 4)))
                = load_words m AES_IV_OFFSET 4).
  { rewrite firstn_app, KeyUnwrap_Facts.load_words_length, Nat.sub_diag, firstn_O, app_nil_r.
    apply firstn_all2. rewrite KeyUnwrap_Facts.load_words_length. lia. }
  destruct HAL_CRYP_Init;
    try (destruct (HAL_CRYP_Decrypt _ _ _) as [dst out]; destruct dst;
         try (destruct Hfail as [Hfail|Hfail]; contradiction Hfail; reflexivity));
    destruct HAL_CRYP_DeInit;
    cbn [fst snd BootManager.AES_key BootManager.AES_iv];
    rewrite Hiv; repeat split; reflexivity.
Qed.

Lemma get_AES_key_engine_failure_gives_zero_key_witness :
  BootManager.AES_key
    (snd (fst (@BootManager.get_AES_key (bench_HAL_CRYP HAL_TIMEOUT HAL_OK) [0; 0; 0; 0]
                 Fixture.flash_with_blank_key)))
  = [0; 0; 0; 0].
Proof.
  refine (proj1 (proj2 (@get_AES_key_engine_failure_gives_zero_key
                          (bench_HAL_CRYP HAL_TIMEOUT HAL_OK) [0; 0; 0; 0]
                          Fixture.flash_with_blank_key _))).
  left. discriminate.
Defined.

(** ** Initialisation (secboot_bootmanager.c, secboot_ecdsa.c) *)

Module Init_Facts.
Import CryptoInit CRC BootInit.

(** The two MPCBB configurations handed to the HAL. *)
Local Abbreviation SRAM1_SecConfig := (repeat 0xFFFFFFFF 12 ++ repeat 0 12).
Local Abbreviation SRAM2_SecConfig := (repeat 0 8 ++ repeat 0xFFFFFFFF 4 ++ repeat 0 12).

Section WithHAL.
Context {hal : HAL} {hal_init : HAL_init}.

(** The loop of step 1: either every peripheral was configured, or it
    stopped at the first one the HAL refused. *)
Lemma configure_peripherals_spec (ps : list secure_peripheral) :
  (Forall (fun p => HAL_GTZC_TZSC_ConfigPeriphAttributes p = HAL_OK) ps /\
   configure_peripherals ps = (SECBOOT_BOOTMANAGER_OK, map StepPeriph ps))
  \/ (exists pre p post,
        ps = pre ++ p :: post /\
        Forall (fun q => HAL_GTZC_TZSC_ConfigPeriphAttributes q = HAL_OK) pre /\
        HAL_GTZC_TZSC_ConfigPeriphAttributes p <> HAL_OK /\
        configure_peripherals ps
        = (SECBOOT_BOOTMANAGER_SECURE_VIOLATION, map StepPeriph (pre ++ [p]))).
Proof.
  induction ps as [|p ps IH].
  - left. split; [constructor|reflexivity].
  - cbn [configure_peripherals].
    destruct (HAL_GTZC_TZSC_ConfigPeriphAttributes p) eqn:Hp.
    2-4: right; exists [], p, ps; repeat split;
         [constructor | rewrite Hp; discriminate].
    destruct IH as [[Hall Hr]|(pre & q & post & Hps & Hpre & Hq & Hr)]; rewrite Hr.
    + left. split; [constructor; assumption|reflexivity].
    + right. exists (p :: pre), q, post. subst ps.
      repeat split; [constructor; assumption|assumption].
Qed.

Ltac init_stage := cbv beta iota zeta delta [bootmanager_is_OK].

Lemma Init_peripheral_failure (st : ecdsa_statics) (steps : list init_step) :
  configure_peripherals secure_peripherals = (SECBOOT_BOOTMANAGER_SECURE_VIOLATION, steps) ->
  SECBOOT_BootManager_Init st = (SECBOOT_BOOTMANAGER_SECURE_VIOLATION, st, steps).
Proof.
  intros H. unfold SECBOOT_BootManager_Init. rewrite H. reflexivity.
Qed.

(** The function once the peripherals are configured. *)
Lemma Init_after_peripherals (st : ecdsa_statics) (steps : list init_step) :
  configure_peripherals secure_peripherals = (SECBOOT_BOOTMANAGER_OK, steps) ->
  SECBOOT_BootManager_Init st
  = match HAL_GTZC_MPCBB_ConfigMem SRAM1_BASE SRAM1_SecConfig with
    | HAL_OK =>
        match HAL_GTZC_MPCBB_ConfigMem SRAM2_BASE SRAM2_SecConfig with
        | HAL_OK =>
            let mem_steps := [StepMPCBB SRAM1_BASE SRAM1_SecConfig;
                              StepMPCBB SRAM2_BASE SRAM2_SecConfig] in
            match fst (fst (SECBOOT_ECDSA_Init st)) with
            | SECBOOT_ECDSA_OK =>
                match HAL_CRC_Init with
                | HAL_OK =>
                    (match HAL_HASH_Init with
                     | HAL_OK => SECBOOT_BOOTMANAGER_OK
                     | _ => SECBOOT_BOOTMANAGER_HW_SECURE_FAULT
                     end,
                     snd (fst (SECBOOT_ECDSA_Init st)),
                     steps ++ mem_steps ++ [StepECDSA_Init; StepCRC_Init; StepSHA256_Init])
                | _ => (SECBOOT_BOOTMANAGER_HW_SECURE_FAULT, snd (fst (SECBOOT_ECDSA_Init st)),
                        steps ++ mem_steps ++ [StepECDSA_Init; StepCRC_Init])
                end
            | _ => (SECBOOT_BOOTMANAGER_HW_SECURE_FAULT, snd (fst (SECBOOT_ECDSA_Init st)),
                    steps ++ mem_steps ++ [StepECDSA_Init])
            end
        | _ => (SECBOOT_BOOTMANAGER_SECURE_VIOLATION, st,
                steps ++ [StepMPCBB SRAM1_BASE SRAM1_SecConfig;
                          StepMPCBB SRAM2_BASE SRAM2_SecConfig])
        end
    | _ => (SECBOOT_BOOTMANAGER_SECURE_VIOLATION, st,
            steps ++ [StepMPCBB SRAM1_BASE SRAM1_SecConfig])
    end.
Proof.
  intros H. unfold SECBOOT_BootManager_Init. rewrite H. init_stage.
  change (memset_words (memset_words (repeat 0 MPCBB_NB_VCTR) 0 12 4294967295) 12 12 0)
    with SRAM1_SecConfig.
  destruct (HAL_GTZC_MPCBB_ConfigMem SRAM1_BASE _); init_stage; try reflexivity.
  change (memset_words SRAM1_SecConfig 0 8 0) with SRAM2_SecConfig.
  destruct (HAL_GTZC_MPCBB_ConfigMem SRAM2_BASE _); init_stage;
    try (rewrite <- !app_assoc; reflexivity).
  unfold SECBOOT_CRC_Init, SECBOOT_SHA256_Init.
  destruct (SECBOOT_ECDSA_Init st) as [[est st'] cs]; cbn [fst snd].
  destruct est; init_stage; try (rewrite <- !app_assoc; reflexivity).
  destruct HAL_CRC_Init; init_stage; try (rewrite <- !app_assoc; reflexivity).
  destruct HAL_HASH_Init; init_stage; rewrite <- !app_assoc; reflexivity.
Qed.

Lemma ECDSA_Init_OK_iff (st : ecdsa_statics) :
  fst (fst (SECBOOT_ECDSA_Init st)) = SECBOOT_ECDSA_OK
  <-> Init_is_initialized st = false /\ HAL_PKA_Init = HAL_OK /\
      HAL_PKA_GetState = HAL_PKA_STATE_READY.
Proof.
  unfold SECBOOT_ECDSA_Init.
  destruct (Init_is_initialized st), HAL_PKA_Init, HAL_PKA_GetState; cbn [fst];
    split; try discriminate; try (intros (? & ? & ?); discriminate);
    intros _; repeat split.
Qed.

Lemma ECDSA_Init_flag (st : ecdsa_statics) :
  Init_is_initialized (snd (fst (SECBOOT_ECDSA_Init st)))
  = Init_is_initialized st || match fst (fst (SECBOOT_ECDSA_Init st)) with
                               | SECBOOT_ECDSA_OK => true
                               | _ => false
                               end.
Proof.
  unfold SECBOOT_ECDSA_Init.
  destruct (Init_is_initialized st) eqn:E; [cbn [fst snd]; rewrite E; reflexivity|].
  destruct HAL_PKA_Init, HAL_PKA_GetState; cbn [fst snd Init_is_initialized]; rewrite ?E;
    reflexivity.
Qed.

End WithHAL.

(** Serving a request keeps a set [SECBOOT_ECDSA_Init] flag set and a clear
    [SECBOOT_ECDSA_DeInit] flag clear. *)
Lemma serve_flags (rq : ecdsa_request) (st : ecdsa_statics) :
  (Init_is_initialized st = true ->
   Init_is_initialized (snd (fst (serve rq st))) = true /\
   match rq with
   | RequestInit _ _ => fst (fst (serve rq st)) = SECBOOT_ECDSA_INVALID_STATE
   | RequestDeInit _ => True
   end) /\
  (DeInit_is_initialized st = false ->
   DeInit_is_initialized (snd (fst (serve rq st))) = false /\
   match rq with
   | RequestDeInit _ =>
       fst (fst (serve rq st)) = SECBOOT_ECDSA_INVALID_STATE /\ snd (serve rq st) = []
   | RequestInit _ _ => True
   end).
Proof.
  destruct rq as [h hi|hi]; cbn [serve]; unfold SECBOOT_ECDSA_Init, SECBOOT_ECDSA_DeInit.
  - split; intros E.
    + rewrite E. cbn [fst snd]. auto.
    + destruct (Init_is_initialized st); [cbn [fst snd]; auto|].
      destruct HAL_PKA_Init, HAL_PKA_GetState; cbn [fst snd DeInit_is_initialized]; auto.
  - split; intros E.
    + destruct (negb (DeInit_is_initialized st)); [cbn [fst snd]; auto|].
      destruct HAL_PKA_DeInit; cbn [fst snd Init_is_initialized]; auto.
    + rewrite E. cbn [negb fst snd]. auto.
Qed.

Lemma serve_all_cons (rq : ecdsa_request) (rest : list ecdsa_request) (st : ecdsa_statics) :
  serve_all (rq :: rest) st
  = ((rq, fst (fst (serve rq st))) :: fst (serve_all rest (snd (fst (serve rq st)))),
     snd (serve_all rest (snd (fst (serve rq st))))).
Proof.
  cbn [serve_all]. destruct (serve rq st) as [[status st'] cs]. cbn [fst snd].
  destruct (serve_all rest st'). reflexivity.
Qed.

Lemma serve_all_DeInit :
  forall (rqs : list ecdsa_request) (st : ecdsa_statics),
    DeInit_is_initialized st = false ->
    DeInit_is_initialized (snd (serve_all rqs st)) = false /\
    forall hi status, In (RequestDeInit hi, status) (fst (serve_all rqs st)) ->
                      status = SECBOOT_ECDSA_INVALID_STATE.
Proof.
  induction rqs as [|rq rest IH]; intros st E.
  - split; [exact E|]. intros hi status [].
  - rewrite serve_all_cons. cbn [fst snd].
    destruct (proj2 (serve_flags rq st) E) as [E' Hrq].
    destruct (IH _ E') as [Hfin Hin]. split; [exact Hfin|].
    intros hi status [Heq|Hin']; [|exact (Hin hi status Hin')].
    injection Heq as -> <-. apply Hrq.
Qed.

Lemma serve_all_Init_flag_set :
  forall (rqs : list ecdsa_request) (st : ecdsa_statics),
    Init_is_initialized st = true ->
    forall h hi status, In (RequestInit h hi, status) (fst (serve_all rqs st)) ->
                        status = SECBOOT_ECDSA_INVALID_STATE.
Proof.
  induction rqs as [|rq rest IH]; intros st E h hi status Hin.
  - destruct Hin.
  - rewrite serve_all_cons in Hin. cbn [fst] in Hin.
    destruct (proj1 (serve_flags rq st) E) as [E' Hrq].
    destruct Hin as [Heq|Hin]; [|exact (IH _ E' h hi status Hin)].
    injection Heq as -> <-. apply Hrq.
Qed.

Lemma serve_all_after_OK :
  forall (rqs : list ecdsa_request) (st : ecdsa_statics) pre h hi post,
    fst (serve_all rqs st) = pre ++ (RequestInit h hi, SECBOOT_ECDSA_OK) :: post ->
    forall h' hi' status, In (RequestInit h' hi', status) post ->
                          status = SECBOOT_ECDSA_INVALID_STATE.
Proof.
  induction rqs as [|rq rest IH]; intros st pre h hi post Heq.
  - destruct pre; discriminate.
  - rewrite serve_all_cons in Heq. cbn [fst] in Heq.
    destruct pre as [|x pre]; cbn [app] in Heq.
    + injection Heq as -> Hok Hpost. subst post.
      apply serve_all_Init_flag_set.
      cbn [serve]. rewrite ECDSA_Init_flag. cbn [serve] in Hok. rewrite Hok.
      apply orb_true_r.
    + injection Heq as _ Hrest. exact (IH _ _ _ _ _ Hrest).
Qed.


Lemma configure_peripherals_stop {hal : HAL} {hal_init : HAL_init} :
  forall (pre : list secure_peripheral) (p : secure_peripheral) (post : list secure_peripheral),
    Forall (fun q => HAL_GTZC_TZSC_ConfigPeriphAttributes q = HAL_OK) pre ->
    HAL_GTZC_TZSC_ConfigPeriphAttributes p <> HAL_OK ->
    configure_peripherals (pre ++ p :: post)
    = (SECBOOT_BOOTMANAGER_SECURE_VIOLATION, map StepPeriph (pre ++ [p])).
Proof.
  induction pre as [|q pre IH]; intros p post Hpre Hp; cbn [app configure_peripherals map].
  - destruct (HAL_GTZC_TZSC_ConfigPeriphAttributes p); [contradiction Hp|..]; reflexivity.
  - inversion Hpre as [|? ? Hq Hrest]; subst. rewrite Hq, (IH p post Hrest Hp). reflexivity.
Qed.

(** No cryptographic module is initialised among peripheral and MPCBB
    steps. *)
Lemma no_crypto_step (ps : list secure_peripheral) (mem_steps : list (Z * list Z)) :
  let steps := map StepPeriph ps ++ map (fun bc => StepMPCBB (fst bc) (snd bc)) mem_steps in
  ~ In StepECDSA_Init steps /\ ~ In StepCRC_Init steps /\ ~ In StepSHA256_Init steps.
Proof.
  intros steps. subst steps.
  repeat split; intros Hin; apply in_app_or in Hin;
    destruct Hin as [Hin|Hin]; apply in_map_iff in Hin;
    destruct Hin as (x & Hx & _); discriminate Hx.
Qed.

(** [SECBOOT_BootManager_Init] returns OK exactly when every step succeeded. *)
Lemma Init_OK_iff {hal : HAL} {hal_init : HAL_init}
  (st : ecdsa_statics) :
  let r := SECBOOT_BootManager_Init st in
  let SRAM1_SecConfig := repeat 0xFFFFFFFF 12 ++ repeat 0 12 in
  let SRAM2_SecConfig := repeat 0 8 ++ repeat 0xFFFFFFFF 4 ++ repeat 0 12 in
  (fst (fst r) = SECBOOT_BOOTMANAGER_OK
   <-> (forall p, In p secure_peripherals -> HAL_GTZC_TZSC_ConfigPeriphAttributes p = HAL_OK) /\
       HAL_GTZC_MPCBB_ConfigMem SRAM1_BASE SRAM1_SecConfig = HAL_OK /\
       HAL_GTZC_MPCBB_ConfigMem SRAM2_BASE SRAM2_SecConfig = HAL_OK /\
       Init_is_initialized st = false /\
       HAL_PKA_Init = HAL_OK /\ HAL_PKA_GetState = HAL_PKA_STATE_READY /\
       HAL_CRC_Init = HAL_OK /\ HAL_HASH_Init = HAL_OK) /\
  (fst (fst r) = SECBOOT_BOOTMANAGER_OK ->
   snd r = map StepPeriph secure_peripherals
           ++ [StepMPCBB SRAM1_BASE SRAM1_SecConfig;
               StepMPCBB SRAM2_BASE SRAM2_SecConfig;
               StepECDSA_Init; StepCRC_Init; StepSHA256_Init] /\
   Init_is_initialized (snd (fst r)) = true).
Proof.
  intros r SRAM1_SecConfig SRAM2_SecConfig. subst r.
  destruct (configure_peripherals_spec secure_peripherals)
    as [[Hall Hr]|(pre & q & post & Hps & Hpre & Hq & Hr)].
  - rewrite (Init_after_peripherals st _ Hr).
    fold SRAM1_SecConfig SRAM2_SecConfig.
    pose proof (ECDSA_Init_OK_iff st) as Hec.
    pose proof (ECDSA_Init_flag st) as Hfl.
    rewrite Forall_forall in Hall.
    destruct (HAL_GTZC_MPCBB_ConfigMem SRAM1_BASE SRAM1_SecConfig);
      try (split; [split; [discriminate|intros (_ & ? & _); discriminate]|discriminate]).
    destruct (HAL_GTZC_MPCBB_ConfigMem SRAM2_BASE SRAM2_SecConfig);
      try (split; [split; [discriminate|intros (_ & _ & ? & _); discriminate]|discriminate]).
    cbv zeta.
    destruct (fst (fst (SECBOOT_ECDSA_Init st))) eqn:Hst;
      try (split; [split; [discriminate
                          |intros (_ & _ & _ & H1 & H2 & H3 & _);
                           pose proof (proj2 Hec (conj H1 (conj H2 H3))) as Hy; discriminate Hy]
                  |discriminate]).
    destruct (proj1 Hec eq_refl) as (H1 & H2 & H3).
    destruct HAL_CRC_Init;
      try (split; [split; [discriminate|intros (_ & _ & _ & _ & _ & _ & ? & _); discriminate]
                  |discriminate]).
    destruct HAL_HASH_Init; cbn [fst snd];
      try (split; [split; [discriminate|intros (_ & _ & _ & _ & _ & _ & _ & ?); discriminate]
                  |discriminate]).
    split.
    + split; [intros _|reflexivity]. repeat split; auto.
    + intros _. split; [reflexivity|]. rewrite Hfl, H1. reflexivity.
  - rewrite (Init_peripheral_failure st _ Hr). cbn [fst snd].
    split; [split; [discriminate|]|discriminate].
    intros (Hall & _). contradiction Hq. apply Hall. rewrite Hps.
    apply in_or_app. right. left. reflexivity.
Qed.

End Init_Facts.

(** X12.  [SECBOOT_BootManager_Init] returns OK exactly when every step
    succeeded: the seven peripherals were made secure, both MPCBB
    configurations were accepted, the PKA was initialised for the first
    time and reads READY, and the CRC and hash units were initialised.  On
    OK the steps were taken in that order, each once; SRAM1 is configured
    with twelve secure and twelve non-secure blocks, and the array passed
    for SRAM2 has its first eight words cleared, words 8 to 11 still
    holding the secure pattern written for SRAM1. *)
Theorem BootManager_Init_OK_iff_every_step_succeeded {hal : HAL} {hal_init : HAL_init}
  (st : CryptoInit.ecdsa_statics) :
  let r := BootInit.SECBOOT_BootManager_Init st in
  let SRAM1_SecConfig := repeat 0xFFFFFFFF 12 ++ repeat 0 12 in
  let SRAM2_SecConfig := repeat 0 8 ++ repeat 0xFFFFFFFF 4 ++ repeat 0 12 in
  (fst (fst r) = SECBOOT_BOOTMANAGER_OK
   <-> (forall p, In p secure_peripherals -> HAL_GTZC_TZSC_ConfigPeriphAttributes p = HAL_OK) /\
       HAL_GTZC_MPCBB_ConfigMem SRAM1_BASE SRAM1_SecConfig = HAL_OK /\
       HAL_GTZC_MPCBB_ConfigMem SRAM2_BASE SRAM2_SecConfig = HAL_OK /\
       CryptoInit.Init_is_initialized st = false /\
       HAL_PKA_Init = HAL_OK /\ HAL_PKA_GetState = HAL_PKA_STATE_READY /\
       HAL_CRC_Init = HAL_OK /\ HAL_HASH_Init = HAL_OK) /\
  (fst (fst r) = SECBOOT_BOOTMANAGER_OK ->
   snd r = map BootInit.StepPeriph secure_peripherals
           ++ [BootInit.StepMPCBB SRAM1_BASE SRAM1_SecConfig;
               BootInit.StepMPCBB SRAM2_BASE SRAM2_SecConfig;
               BootInit.StepECDSA_Init; BootInit.StepCRC_Init; BootInit.StepSHA256_Init] /\
   CryptoInit.Init_is_initialized (snd (fst r)) = true).
Proof.
  exact (Init_Facts.Init_OK_iff st).
Qed.

(** X13.  How [SECBOOT_BootManager_Init] fails: its status is OK,
    SECURE_VIOLATION or HW_SECURE_FAULT.  The peripheral loop stops at the
    first peripheral the HAL refuses: the function then returns
    SECURE_VIOLATION having configured nothing further.  Whenever the status
    is SECURE_VIOLATION no cryptographic module has been initialised and the
    ECDSA module's state is as before. *)
Theorem BootManager_Init_failure_modes {hal : HAL} {hal_init : HAL_init}
  (st : CryptoInit.ecdsa_statics) :
  let r := BootInit.SECBOOT_BootManager_Init st in
  (fst (fst r) = SECBOOT_BOOTMANAGER_OK \/
   fst (fst r) = SECBOOT_BOOTMANAGER_SECURE_VIOLATION \/
   fst (fst r) = SECBOOT_BOOTMANAGER_HW_SECURE_FAULT) /\
  (forall pre p post,
     secure_peripherals = pre ++ p :: post ->
     Forall (fun q => HAL_GTZC_TZSC_ConfigPeriphAttributes q = HAL_OK) pre ->
     HAL_GTZC_TZSC_ConfigPeriphAttributes p <> HAL_OK ->
     r = (SECBOOT_BOOTMANAGER_SECURE_VIOLATION, st, map BootInit.StepPeriph (pre ++ [p]))) /\
  (fst (fst r) = SECBOOT_BOOTMANAGER_SECURE_VIOLATION ->
   snd (fst r) = st /\
   ~ In BootInit.StepECDSA_Init (snd r) /\ ~ In BootInit.StepCRC_Init (snd r) /\
   ~ In BootInit.StepSHA256_Init (snd r)).
Proof.
  intros r. subst r. split; [|split].
  - destruct (Init_Facts.configure_peripherals_spec secure_peripherals)
      as [[Hall Hr]|(pre & q & post & Hps & Hpre & Hq & Hr)].
    + rewrite (Init_Facts.Init_after_peripherals st _ Hr).
      destruct (HAL_GTZC_MPCBB_ConfigMem SRAM1_BASE _); cbn [fst]; auto.
      destruct (HAL_GTZC_MPCBB_ConfigMem SRAM2_BASE _); cbn [fst]; auto.
      cbv zeta. destruct (fst (fst (CryptoInit.SECBOOT_ECDSA_Init st))); cbn [fst]; auto.
      destruct HAL_CRC_Init; cbn [fst]; auto.
      destruct HAL_HASH_Init; cbn [fst]; auto.
    + rewrite (Init_Facts.Init_peripheral_failure st _ Hr). auto.
  - intros pre p post Hps Hpre Hp.
    apply Init_Facts.Init_peripheral_failure. rewrite Hps.
    apply Init_Facts.configure_peripherals_stop; assumption.
  - destruct (Init_Facts.configure_peripherals_spec secure_peripherals)
      as [[Hall Hr]|(pre & q & post & Hps & Hpre & Hq & Hr)].
    + rewrite (Init_Facts.Init_after_peripherals st _ Hr).
      destruct (HAL_GTZC_MPCBB_ConfigMem SRAM1_BASE _) eqn:H1; cbn [fst snd].
      2-4: intros _; split; [reflexivity|];
           exact (Init_Facts.no_crypto_step secure_peripherals [(SRAM1_BASE, _)]).
      destruct (HAL_GTZC_MPCBB_ConfigMem SRAM2_BASE _) eqn:H2; cbn [fst snd].
      2-4: intros _; split; [reflexivity|];
           exact (Init_Facts.no_crypto_step secure_peripherals
                    [(SRAM1_BASE, _); (SRAM2_BASE, _)]).
      cbv zeta. destruct (fst (fst (CryptoInit.SECBOOT_ECDSA_Init st))); cbn [fst];
        try discriminate.
      destruct HAL_CRC_Init; cbn [fst]; try discriminate.
      destruct HAL_HASH_Init; cbn [fst]; discriminate.
    + rewrite (Init_Facts.Init_peripheral_failure st _ Hr). cbn [fst snd].
      intros _. split; [reflexivity|].
      pose proof (Init_Facts.no_crypto_step (pre ++ [q]) []) as H. cbv zeta in H.
      cbn [map] in H. rewrite app_nil_r in H. exact H.
Qed.

(** X14.  [SECBOOT_BootManager_Init] succeeds at most once per reset: once
    it has returned OK, a second call (the HAL answering as before) is
    stopped by the double-initialisation guard of [SECBOOT_ECDSA_Init] and
    returns HW_SECURE_FAULT, after configuring the peripherals and both
    SRAMs again and without reaching the CRC and hash units. *)
Theorem BootManager_Init_second_call_fails {hal : HAL} {hal_init : HAL_init}
  (st : CryptoInit.ecdsa_statics) :
  fst (fst (BootInit.SECBOOT_BootManager_Init st)) = SECBOOT_BOOTMANAGER_OK ->
  let st' := snd (fst (BootInit.SECBOOT_BootManager_Init st)) in
  fst (fst (BootInit.SECBOOT_BootManager_Init st')) = SECBOOT_BOOTMANAGER_HW_SECURE_FAULT /\
  snd (fst (BootInit.SECBOOT_BootManager_Init st')) = st' /\
  snd (BootInit.SECBOOT_BootManager_Init st')
  = map BootInit.StepPeriph secure_peripherals
    ++ [BootInit.StepMPCBB SRAM1_BASE (repeat 0xFFFFFFFF 12 ++ repeat 0 12);
        BootInit.StepMPCBB SRAM2_BASE (repeat 0 8 ++ repeat 0xFFFFFFFF 4 ++ repeat 0 12);
        BootInit.StepECDSA_Init].
Proof.
  intros Hok st'.
  destruct (Init_Facts.Init_OK_iff st) as [Hiff Hsteps]. cbv zeta in Hiff, Hsteps.
  destruct (proj1 Hiff Hok) as (Hall & Hm1 & Hm2 & _).
  destruct (Hsteps Hok) as [_ Hflag]. fold st' in Hflag.
  destruct (Init_Facts.configure_peripherals_spec secure_peripherals)
    as [[_ Hr]|(pre & q & post & Hps & Hpre & Hq & Hr)].
  2:{ contradiction Hq. apply Hall. rewrite Hps. apply in_or_app. right. left. reflexivity. }
  rewrite (Init_Facts.Init_after_peripherals st' _ Hr), Hm1, Hm2. cbv zeta.
  assert (Hinit : CryptoInit.SECBOOT_ECDSA_Init st' = (SECBOOT_ECDSA_INVALID_STATE, st', []))
    by (unfold CryptoInit.SECBOOT_ECDSA_Init; rewrite Hflag; reflexivity).
  rewrite Hinit. cbn [fst snd]. repeat split.
Qed.

Lemma BootManager_Init_second_call_fails_witness :
  fst (fst (@BootInit.SECBOOT_BootManager_Init Bench.bench_HAL bench_HAL_init
              (snd (fst (@BootInit.SECBOOT_BootManager_Init Bench.bench_HAL bench_HAL_init
                           CryptoInit.statics_at_reset)))))
  = SECBOOT_BOOTMANAGER_HW_SECURE_FAULT.
Proof.
  refine (proj1 (@BootManager_Init_second_call_fails Bench.bench_HAL bench_HAL_init
                   CryptoInit.statics_at_reset _)).
  vm_compute. reflexivity.
Defined.

(** X15.  The state tracking of the ECDSA module, for every sequence of
    calls to [SECBOOT_ECDSA_Init] and [SECBOOT_ECDSA_DeInit] after reset and
    every behaviour of the PKA driver: [SECBOOT_ECDSA_DeInit] answers
    INVALID_STATE each time (its own [is_initialized] flag is never set, so
    the PKA is never de-initialised through it), and once a call to
    [SECBOOT_ECDSA_Init] has answered OK every later one answers
    INVALID_STATE. *)
Theorem ECDSA_state_tracking (rqs : list CryptoInit.ecdsa_request) :
  let answers := fst (CryptoInit.serve_all rqs CryptoInit.statics_at_reset) in
  (forall hi status,
     In (CryptoInit.RequestDeInit hi, status) answers -> status = SECBOOT_ECDSA_INVALID_STATE) /\
  (forall pre h hi post,
     answers = pre ++ (CryptoInit.RequestInit h hi, SECBOOT_ECDSA_OK) :: post ->
     forall h' hi' status,
       In (CryptoInit.RequestInit h' hi', status) post -> status = SECBOOT_ECDSA_INVALID_STATE) /\
  CryptoInit.DeInit_is_initialized (snd (CryptoInit.serve_all rqs CryptoInit.statics_at_reset))
  = false.
Proof.
  intros answers. subst answers.
  destruct (Init_Facts.serve_all_DeInit rqs CryptoInit.statics_at_reset eq_refl) as [Hfin Hde].
  split; [exact Hde|]. split; [|exact Hfin].
  intros pre h hi post Heq. exact (Init_Facts.serve_all_after_OK rqs _ pre h hi post Heq).
Qed.

(** The reference sequence: initialise, de-initialise, initialise again. *)
Example ECDSA_Init_DeInit_Init :
  map snd (fst (CryptoInit.serve_all
                  [CryptoInit.RequestInit Bench.bench_HAL bench_HAL_init;
                   CryptoInit.RequestDeInit bench_HAL_init;
                   CryptoInit.RequestInit Bench.bench_HAL bench_HAL_init]
                  CryptoInit.statics_at_reset))
  = [SECBOOT_ECDSA_OK; SECBOOT_ECDSA_INVALID_STATE; SECBOOT_ECDSA_INVALID_STATE].
Proof. vm_compute. reflexivity. Qed.

(** ** The failure handlers (secboot_diag.c) *)

Module Handler_Facts.
Import BootManager Diag.

Section WithHAL.
Context {hal : HAL}.

(** The RECOVER response from any state: it does not come back, and the
    calls it makes are one recovery attempt with one verification of the
    backup slot, ending in lockdown or in the backup image. *)
Lemma ExecuteResponse_RECOVER_calls (s1 : machine) :
  let t := HAL_GetTick s1 in
  let o := SECBOOT_Diag_ExecuteResponse SECBOOT_DIAG_RESP_RECOVER s1 in
  (forall a s', o <> Returns a s') /\ o <> OutOfFuel /\
  exists s' rest,
    final_state o = Some s' /\
    calls s' = rev rest ++ CallVerifyAppSignature SECBOOT_BACKUP_IMAGE_ADDR
                        :: CallLogEvent SECBOOT_DIAG_ROLLBACK_ATTEMPT ROLLBACK_NORMAL_RECOVERY t
                        :: CallRecovery :: calls s1 /\
    (rest = [CallLogEvent SECBOOT_DIAG_ROLLBACK_ATTEMPT SIG_FAIL_BACKUP_IMAGE 0; CallLockdown] \/
     rest = [CallJumpTo SECBOOT_BACKUP_IMAGE_ADDR] \/
     rest = [CallJumpTo SECBOOT_BACKUP_IMAGE_ADDR;
             CallLogEvent SECBOOT_DIAG_ROLLBACK_ATTEMPT ROOLBACK_JUMP_FAILED t;
             CallLockdown]).
Proof.
  intros t o. subst o. unfold SECBOOT_Diag_ExecuteResponse.
  cbn [ExecuteResponse_fuel].
  rewrite Escalation_Facts.try_recovery_from_backup_paths. cbv zeta. fold t.
  set (s2 := snd (SECBOOT_Diag_LogEvent SECBOOT_DIAG_ROLLBACK_ATTEMPT ROLLBACK_NORMAL_RECOVERY t
                    (record_call CallRecovery s1))).
  assert (Hc2 : calls s2 = CallLogEvent SECBOOT_DIAG_ROLLBACK_ATTEMPT ROLLBACK_NORMAL_RECOVERY t
                           :: CallRecovery :: calls s1)
    by (subst s2; rewrite Escalation_Facts.LogEvent_calls; reflexivity).
  pose proof (Verify_Frame.VerifyAppSignature_calls SECBOOT_BACKUP_IMAGE_ADDR s2) as [Hc3 _].
  set (v := SECBOOT_BootManager_VerifyAppSignature SECBOOT_BACKUP_IMAGE_ADDR s2) in *.
  cbn [ExecuteResponse_fuel]. unfold system_lockdown.
  destruct (bootmanager_is_OK (fst v)).
  - destruct (NonSecureApp_ResetHandler _ _) as [m'|].
    + split; [discriminate|]. split; [discriminate|].
      eexists. eexists. split; [reflexivity|]. split; [|right; right; reflexivity].
      cbn [calls record_call]. rewrite Escalation_Facts.LogEvent_calls.
      cbn [calls set_memory record_call]. rewrite Hc3, Hc2. reflexivity.
    + split; [discriminate|]. split; [discriminate|].
      eexists. eexists. split; [reflexivity|]. split; [|right; left; reflexivity].
      cbn [calls record_call]. rewrite Hc3, Hc2. reflexivity.
  - split; [discriminate|]. split; [discriminate|].
    eexists. eexists. split; [reflexivity|]. split; [|left; reflexivity].
    cbn [calls record_call]. rewrite Escalation_Facts.LogEvent_calls, Hc3, Hc2. reflexivity.
Qed.

End WithHAL.
End Handler_Facts.

(** X16.  [SECBOOT_Diag_HandleSigFail] never returns to its caller: for
    every status it logs one SIG_FAIL entry carrying the error code of its
    table and the raw status, and then either halts in lockdown at once
    (every status but the two hardware ones, VERIFICATION_SUCCESS and OK
    included, which get the code 0x2F), or, for PKA_TIMEOUT and
    PKA_COMP_ERROR, makes one recovery attempt with one verification of the
    backup slot, which ends in lockdown or in the backup image. *)
Theorem HandleSigFail_never_returns {hal : HAL}
  (status : SECBOOT_ECDSA_StatusTypeDef) (s : machine) :
  let o := DiagSig.SECBOOT_Diag_HandleSigFail status s in
  let logged := CallLogEvent SECBOOT_DIAG_SIG_FAIL (fst (DiagSig.sig_fail_policy status))
                             (ecdsa_status_value status) in
  returned o = None /\ o <> OutOfFuel /\
  (status <> SECBOOT_ECDSA_PKA_TIMEOUT -> status <> SECBOOT_ECDSA_PKA_COMP_ERROR ->
   exists s', o = Halted s' /\ rev (calls_since s s') = [logged; CallLockdown]) /\
  (status = SECBOOT_ECDSA_PKA_TIMEOUT \/ status = SECBOOT_ECDSA_PKA_COMP_ERROR ->
   exists s' rest,
     final_state o = Some s' /\
     rev (calls_since s s')
     = [logged; CallRecovery;
        CallLogEvent SECBOOT_DIAG_ROLLBACK_ATTEMPT ROLLBACK_NORMAL_RECOVERY (HAL_GetTick s);
        CallVerifyAppSignature SECBOOT_BACKUP_IMAGE_ADDR] ++ rest /\
     (rest = [CallLogEvent SECBOOT_DIAG_ROLLBACK_ATTEMPT SIG_FAIL_BACKUP_IMAGE 0; CallLockdown] \/
      rest = [CallJumpTo SECBOOT_BACKUP_IMAGE_ADDR] \/
      rest = [CallJumpTo SECBOOT_BACKUP_IMAGE_ADDR;
              CallLogEvent SECBOOT_DIAG_ROLLBACK_ATTEMPT ROOLBACK_JUMP_FAILED (HAL_GetTick s);
              CallLockdown])).
Proof.
  intros o logged.
  set (s1 := snd (Diag.SECBOOT_Diag_LogEvent SECBOOT_DIAG_SIG_FAIL
                    (fst (DiagSig.sig_fail_policy status)) (ecdsa_status_value status) s)).
  assert (Hc1 : calls s1 = logged :: calls s)
    by (subst s1 logged; apply Escalation_Facts.LogEvent_calls).
  assert (Ht : HAL_GetTick s1 = HAL_GetTick s)
    by (subst s1; apply Escalation_Facts.LogEvent_tick).
  assert (Ho : o = match Diag.SECBOOT_Diag_ExecuteResponse (snd (DiagSig.sig_fail_policy status)) s1 with
                   | Returns _ s' => Returns (snd (DiagSig.sig_fail_policy status)) s'
                   | Halted s' => Halted s'
                   | Transferred h s' => Transferred h s'
                   | OutOfFuel => OutOfFuel
                   end).
  { subst o. unfold DiagSig.SECBOOT_Diag_HandleSigFail.
    destruct (DiagSig.sig_fail_policy status) as [code response] eqn:Hp.
    rewrite Escalation_Facts.bind_lift. cbn [fst snd] in *. fold s1.
    unfold bind, ret. destruct (Diag.SECBOOT_Diag_ExecuteResponse response s1); reflexivity. }
  clearbody o s1.
  assert (Hlock : snd (DiagSig.sig_fail_policy status) = SECBOOT_DIAG_RESP_LOCKDOWN ->
                  o = Halted (record_call CallLockdown s1)).
  { intros Hl. rewrite Ho, Hl. reflexivity. }
  pose proof (Handler_Facts.ExecuteResponse_RECOVER_calls s1) as Hrec. cbv zeta in Hrec.
  rewrite Ht in Hrec.
  destruct Hrec as (Hnr & Hnf & s' & rest & Hfin & Hcalls & Hrest).
  assert (Hrecover : snd (DiagSig.sig_fail_policy status) = SECBOOT_DIAG_RESP_RECOVER ->
                     returned o = None /\ o <> OutOfFuel /\ final_state o = Some s').
  { intros Hr. rewrite Hr in Ho.
    destruct (Diag.SECBOOT_Diag_ExecuteResponse SECBOOT_DIAG_RESP_RECOVER s1) as [a x|x|h x|];
      subst o; cbn [returned final_state] in *.
    - contradiction (Hnr a x). reflexivity.
    - repeat split; [discriminate|assumption].
    - repeat split; [discriminate|assumption].
    - contradiction Hnf. reflexivity. }
  assert (Hcases : snd (DiagSig.sig_fail_policy status) = SECBOOT_DIAG_RESP_LOCKDOWN /\
                   status <> SECBOOT_ECDSA_PKA_TIMEOUT /\ status <> SECBOOT_ECDSA_PKA_COMP_ERROR
                   \/ snd (DiagSig.sig_fail_policy status) = SECBOOT_DIAG_RESP_RECOVER /\
                      (status = SECBOOT_ECDSA_PKA_TIMEOUT \/ status = SECBOOT_ECDSA_PKA_COMP_ERROR))
    by (destruct status; cbn [DiagSig.sig_fail_policy snd];
        first [left; split; [reflexivity|split; discriminate]
              |right; split; [reflexivity|auto]]).
  destruct Hcases as [(Hl & Hn1 & Hn2)|(Hr & Hhw)].
  - specialize (Hlock Hl). rewrite Hlock.
    split; [reflexivity|]. split; [discriminate|]. split.
    + intros _ _. eexists. split; [reflexivity|].
      rewrite (Verify_Facts.calls_since_app s _ (rev [logged; CallLockdown])).
      * apply rev_involutive.
      * cbn [calls record_call]. rewrite Hc1. reflexivity.
    + intros [E|E]; [contradiction (Hn1 E)|contradiction (Hn2 E)].
  - destruct (Hrecover Hr) as (R1 & R2 & R3).
    split; [exact R1|]. split; [exact R2|]. split.
    + intros Hn1 Hn2. destruct Hhw as [E|E]; [contradiction (Hn1 E)|contradiction (Hn2 E)].
    + intros _. exists s', rest. split; [exact R3|]. split; [|exact Hrest].
      rewrite (Verify_Facts.calls_since_app s _
                 (rev ([logged; CallRecovery;
                        CallLogEvent SECBOOT_DIAG_ROLLBACK_ATTEMPT ROLLBACK_NORMAL_RECOVERY
                                     (HAL_GetTick s);
                        CallVerifyAppSignature SECBOOT_BACKUP_IMAGE_ADDR] ++ rest))).
      * apply rev_involutive.
      * rewrite Hcalls, Hc1, rev_app_distr. cbn [rev app]. rewrite <- !app_assoc. reflexivity.
Qed.

(** X17.  [SECBOOT_Diag_HandleCrcFail] on the statuses other than MISMATCH:
    it always logs one CRC_FAIL entry first, with the status as code and the
    tick as context.  For INVALID_PARAM it then writes the warning pin and
    returns WARN, having changed nothing else; for every other status (OK
    included) it halts in lockdown and does not return. *)
Theorem HandleCrcFail_warn_or_lockdown {hal : HAL}
  (status : SECBOOT_CRC_StatusTypeDef) (s : machine) :
  let o := Diag.SECBOOT_Diag_HandleCrcFail status s in
  let logged := Diag.SECBOOT_Diag_LogEvent SECBOOT_DIAG_CRC_FAIL (crc_status_value status)
                                           (HAL_GetTick s) s in
  (status = SECBOOT_CRC_INVALID_PARAM ->
   o = Returns SECBOOT_DIAG_RESP_WARN (record_hw OpGpioWrite (snd logged))) /\
  (status <> SECBOOT_CRC_INVALID_PARAM -> status <> SECBOOT_CRC_MISMATCH ->
   o = Halted (record_call CallLockdown (snd logged))) /\
  (status <> SECBOOT_CRC_MISMATCH ->
   exists s', final_state o = Some s' /\
     rev (calls_since s s')
     = CallLogEvent SECBOOT_DIAG_CRC_FAIL (crc_status_value status) (HAL_GetTick s)
       :: match status with SECBOOT_CRC_INVALID_PARAM => [] | _ => [CallLockdown] end).
Proof.
  intros o logged. subst o logged.
  assert (Hu8 : u8 (crc_status_value status) = crc_status_value status)
    by (destruct status; reflexivity).
  unfold Diag.SECBOOT_Diag_HandleCrcFail.
  rewrite Escalation_Facts.bind_get_tick, Escalation_Facts.bind_lift, Hu8.
  set (s1 := snd (Diag.SECBOOT_Diag_LogEvent SECBOOT_DIAG_CRC_FAIL (crc_status_value status)
                    (HAL_GetTick s) s)).
  assert (Hc1 : calls s1 = CallLogEvent SECBOOT_DIAG_CRC_FAIL (crc_status_value status)
                                        (HAL_GetTick s) :: calls s)
    by (subst s1; apply Escalation_Facts.LogEvent_calls).
  clearbody s1.
  split; [|split].
  - intros ->. reflexivity.
  - intros Hn1 Hn2. destruct status; try reflexivity;
      [contradiction Hn1; reflexivity | contradiction Hn2; reflexivity].
  - intros Hn.
    destruct status; try (contradiction Hn; reflexivity);
      (eexists; split; [reflexivity|]);
      match goal with
      | |- rev (calls_since s ?x) = ?l =>
          rewrite (Verify_Facts.calls_since_app s x (rev l));
          [apply rev_involutive | cbn [calls record_call record_hw rev app]; rewrite Hc1; reflexivity]
      end.
Qed.

(** ** The flash log: parameter check, footprint, capacity *)

Module Log_Seq.
Import Diag DiagLog.

Section WithHAL.
Context {hal : HAL}.

(** The peripheral operations of the programming loop: flash programming
    only; when the loop stops on a refusal, the last operation is the double
    word the controller refused. *)
Lemma program_entry_hw (log_addr : Z) (pData : list Z) :
  forall (i : Z) (s : machine),
    exists ops,
      hw (snd (program_entry log_addr pData i s)) = ops ++ hw s /\
      Forall (fun op => exists a d, op = OpFlashProgram a d) ops /\
      (fst (program_entry log_addr pData i s) <> HAL_OK ->
       exists a d m0 rest,
         ops = OpFlashProgram a d :: rest /\ fst (HAL_FLASH_Program m0 a d) <> HAL_OK).
Proof.
  induction pData as [|d rest IH]; intros i s; cbn [program_entry].
  - exists []. repeat split; [constructor|]. intros H. contradiction H. reflexivity.
  - destruct (HAL_FLASH_Program (memory s) (log_addr + i * 8) d) as [st m'] eqn:Hprog.
    set (s1 := set_memory m' (record_hw (OpFlashProgram (log_addr + i * 8) d) s)).
    assert (Hone : hw s1 = [OpFlashProgram (log_addr + i * 8) d] ++ hw s) by reflexivity.
    assert (Hrefused : st <> HAL_OK ->
              exists a d0 m0 rest0,
                [OpFlashProgram (log_addr + i * 8) d] = OpFlashProgram a d0 :: rest0 /\
                fst (HAL_FLASH_Program m0 a d0) <> HAL_OK).
    { intros Hst. exists (log_addr + i * 8), d, (memory s), [].
      split; [reflexivity|]. rewrite Hprog. exact Hst. }
    destruct st.
    + destruct (IH (i + 1) s1) as (ops & Hops & Hall & Hne).
      exists (ops ++ [OpFlashProgram (log_addr + i * 8) d]).
      rewrite Hops, Hone, <- app_assoc. repeat split.
      * apply Forall_app. split; [exact Hall|]. constructor; [eauto|constructor].
      * intros Hst. destruct (Hne Hst) as (a & d0 & m0 & rest0 & -> & Hno).
        exists a, d0, m0, (rest0 ++ [OpFlashProgram (log_addr + i * 8) d]).
        split; [reflexivity|exact Hno].
    + exists [OpFlashProgram (log_addr + i * 8) d]. cbn [fst snd]. repeat split.
      * constructor; [eauto|constructor].
      * intros _. apply Hrefused. discriminate.
    + exists [OpFlashProgram (log_addr + i * 8) d]. cbn [fst snd]. repeat split.
      * constructor; [eauto|constructor].
      * intros _. apply Hrefused. discriminate.
    + exists [OpFlashProgram (log_addr + i * 8) d]. cbn [fst snd]. repeat split.
      * constructor; [eauto|constructor].
      * intros _. apply Hrefused. discriminate.
Qed.

End WithHAL.
End Log_Seq.


Module Log_Capacity.
Import Diag DiagLog.

Lemma doublewords_length (n : nat) : forall bs, length (doublewords bs n) = n.
Proof. induction n as [|n IH]; intros bs; cbn [doublewords length]; [reflexivity|now rewrite IH]. Qed.

(** The address of slot [j]. *)
Lemma slot_addr (s : machine) :
  0 <= log_index s < SECBOOT_DIAG_MAX_LOGS ->
  next_log_addr s = SECBOOT_DIAG_LOG_BASE + log_index s * SECBOOT_DIAG_LOG_SIZE.
Proof.
  intros H. unfold next_log_addr, u32.
  unfold SECBOOT_DIAG_LOG_BASE, SECBOOT_DIAG_LOG_SIZE, SECBOOT_DIAG_MAX_LOGS in *.
  apply Z.mod_small. lia.
Qed.

Section WithHAL.
Context {hal : HAL}.

Hypothesis flash_controller :
  forall m a d, HAL_FLASH_Program m a d = Bench.flash_program_doubleword m a d.

(** The programming loop writes inside the double words it is given. *)
Lemma program_entry_footprint (log_addr : Z) (pData : list Z) :
  forall (i : Z) (s : machine) (x : Z),
    x < log_addr + i * 8 \/ log_addr + (i + Z.of_nat (length pData)) * 8 <= x ->
    memory (snd (program_entry log_addr pData i s)) x = memory s x.
Proof.
  induction pData as [|d rest IH]; intros i s x Hx; cbn [program_entry]; [reflexivity|].
  rewrite flash_controller. unfold Bench.flash_program_doubleword.
  cbn [length] in Hx.
  destruct (erased (memory s) (log_addr + i * 8) 8); [|reflexivity].
  rewrite IH by lia. cbn [memory set_memory].
  apply store_bytes_other. rewrite length_le_split. lia.
Qed.

(** One call: the bytes outside the current slot stay, the index stays or
    moves to the next slot. *)
Lemma LogEvent_slot_only (event code data : Z) (s : machine) :
  (forall x, x < next_log_addr s \/ next_log_addr s + 64 <= x ->
             memory (snd (SECBOOT_Diag_LogEvent event code data s)) x = memory s x) /\
  (log_index (snd (SECBOOT_Diag_LogEvent event code data s)) = log_index s \/
   log_index (snd (SECBOOT_Diag_LogEvent event code data s))
   = (log_index s + 1) mod SECBOOT_DIAG_MAX_LOGS).
Proof.
  unfold SECBOOT_Diag_LogEvent.
  set (s0 := record_call (CallLogEvent event code data) s).
  destruct (event >? SECBOOT_DIAG_ROLLBACK_ATTEMPT); [split; [reflexivity|left; reflexivity]|].
  unfold SECBOOT_CRC_Calculate.
  set (sa := record_hw _ s0).
  destruct (negb (load32 (memory sa) _ =? 0xFFFFFFFF)); [split; [reflexivity|left; reflexivity]|].
  change (u32 (SECBOOT_DIAG_LOG_BASE + log_index sa * SECBOOT_DIAG_LOG_SIZE))
    with (next_log_addr s).
  set (pData := doublewords _ _).
  assert (Hlen : length pData = 8%nat) by (subst pData; apply doublewords_length).
  pose proof (program_entry_footprint (next_log_addr s) pData 0 sa) as Hfp.
  pose proof (Log_Facts.program_entry_frame (next_log_addr s) pData 0 sa) as Hfr.
  cbv zeta in Hfr.
  destruct (program_entry (next_log_addr s) pData 0 sa) as [st sb]. cbn [snd] in Hfp, Hfr.
  destruct Hfr as (_ & Hidx & _ & _).
  assert (Hmem : forall x, x < next_log_addr s \/ next_log_addr s + 64 <= x ->
                           memory sb x = memory s x).
  { intros x Hx. rewrite Hfp by (rewrite Hlen; lia). reflexivity. }
  destruct st; try (cbn [snd]; split; [exact Hmem|left; exact Hidx]).
  destruct (negb _); cbn [snd memory log_index record_hw set_log_index];
    (split; [exact Hmem|right; rewrite Hidx; reflexivity]).
Qed.

(** What is found in a slot after an entry was programmed into it. *)
Lemma LogEvent_slot_content (event code data : Z) (s : machine) :
  event <= SECBOOT_DIAG_ROLLBACK_ATTEMPT ->
  erased (memory s) (next_log_addr s) 64 = true ->
  load_bytes (memory (snd (SECBOOT_Diag_LogEvent event code data s))) (next_log_addr s) 64
  = entry_window (stack_residue s) (mkEntry (HAL_GetTick s) event (u8 code) (u32 data) 0).
Proof.
  intros Hev Her.
  destruct (Log_Write.LogEvent_erased_slot flash_controller event code data s Hev Her)
    as (Hmem & _ & _).
  rewrite Hmem.
  rewrite <- (Log_Write.entry_window_length (stack_residue s)
                (mkEntry (HAL_GetTick s) event (u8 code) (u32 data) 0)) at 1.
  apply load_store_same.
Qed.

Lemma log_filled_step (k t event code data : Z) (s : machine) :
  0 <= k < SECBOOT_DIAG_MAX_LOGS ->
  event <= SECBOOT_DIAG_ROLLBACK_ATTEMPT ->
  u32 t <> 0xFFFFFFFF ->
  log_filled k s ->
  log_filled (k + 1) (snd (SECBOOT_Diag_LogEvent event code data (at_tick t s))).
Proof.
  intros Hk Hev Ht (Hidx & Hprog & Her).
  set (s1 := at_tick t s).
  assert (Hidx1 : log_index s1 = k)
    by (subst s1; cbn [log_index at_tick]; rewrite Hidx; apply Z.mod_small; exact Hk).
  assert (Haddr : next_log_addr s1 = SECBOOT_DIAG_LOG_BASE + k * SECBOOT_DIAG_LOG_SIZE)
    by (rewrite slot_addr, Hidx1; [reflexivity|rewrite Hidx1; exact Hk]).
  assert (Her1 : erased (memory s1) (next_log_addr s1) 64 = true)
    by (rewrite Haddr; apply (Her k); lia).
  destruct (Log_Write.LogEvent_erased_slot flash_controller event code data s1 Hev Her1)
    as (Hmem & Hnext & _).
  pose proof (LogEvent_slot_content event code data s1 Hev Her1) as Hslot.
  set (s2 := snd (SECBOOT_Diag_LogEvent event code data s1)) in *.
  unfold log_filled.
  unfold SECBOOT_DIAG_LOG_BASE, SECBOOT_DIAG_LOG_SIZE, SECBOOT_DIAG_MAX_LOGS in *.
  repeat split.
  - rewrite Hnext, Hidx1. reflexivity.
  - intros j Hj. destruct (Z.eq_dec j k) as [->|Hne].
    + unfold load32. rewrite <- Haddr.
      replace (load_bytes (memory s2) (next_log_addr s1) 4)
        with (firstn 4 (load_bytes (memory s2) (next_log_addr s1) 64)).
      * rewrite Hslot.
        change (firstn 4 (entry_window (stack_residue s1)
                            (mkEntry (HAL_GetTick s1) event (u8 code) (u32 data) 0)))
          with (le_split 4 (HAL_GetTick s1)).
        rewrite le_combine_split.
        change (HAL_GetTick s1) with (u32 t). unfold u32 in *.
        change (2 ^ (Z.of_nat 4 * 8)) with (2 ^ 32). rewrite Z.mod_mod by lia. exact Ht.
      * rewrite Hmem.
        rewrite !Log_Write.load_store_prefix
          by (rewrite Log_Write.entry_window_length; lia).
        rewrite firstn_firstn. reflexivity.
    + unfold load32. rewrite Hmem, load_store_disjoint
        by (rewrite Log_Write.entry_window_length, Haddr; lia).
      apply (Hprog j). lia.
  - intros j Hj. apply Log_Write.erased_iff. intros x Hx.
    rewrite Hmem, store_bytes_other
      by (rewrite Log_Write.entry_window_length, Haddr; lia).
    specialize (Her j ltac:(lia)). rewrite Log_Write.erased_iff in Her. apply Her. exact Hx.
Qed.

Lemma log_all_cons (t event code data : Z) (rest : list (Z * Z * Z * Z)) (s : machine) :
  log_all ((t, event, code, data) :: rest) s
  = (fst (SECBOOT_Diag_LogEvent event code data (at_tick t s))
       :: fst (log_all rest (snd (SECBOOT_Diag_LogEvent event code data (at_tick t s)))),
     snd (log_all rest (snd (SECBOOT_Diag_LogEvent event code data (at_tick t s))))).
Proof.
  cbn [log_all]. destruct (SECBOOT_Diag_LogEvent event code data (at_tick t s)) as [st s1].
  cbn [fst snd]. destruct (log_all rest s1). reflexivity.
Qed.

Lemma log_filled_all :
  forall (events : list (Z * Z * Z * Z)) (k : Z) (s : machine),
    0 <= k -> k + Z.of_nat (length events) <= SECBOOT_DIAG_MAX_LOGS ->
    Forall loggable events ->
    log_filled k s ->
    log_filled (k + Z.of_nat (length events)) (snd (log_all events s)).
Proof.
  induction events as [|[[[t event] code] data] rest IH]; intros k s Hk Hlen Hall Hinv.
  - cbn [log_all snd length]. rewrite Z.add_0_r. exact Hinv.
  - rewrite log_all_cons. cbn [snd length] in *.
    inversion Hall as [|? ? [Hev Ht] Hrest]; subst. cbn [fst snd] in Hev, Ht.
    replace (k + Z.of_nat (S (length rest))) with (k + 1 + Z.of_nat (length rest)) by lia.
    apply IH; [lia|lia|exact Hrest|].
    apply log_filled_step; try assumption. lia.
Qed.

(** Once the slot the index points to is programmed, the log takes nothing
    more. *)
Lemma log_jammed :
  forall (events : list (Z * Z * Z * Z)) (s : machine),
    load32 (memory s) (next_log_addr s) <> 0xFFFFFFFF ->
    Forall (fun e => snd (fst (fst e)) <= SECBOOT_DIAG_ROLLBACK_ATTEMPT) events ->
    Forall (eq SECBOOT_DIAG_TAMPERED) (fst (log_all events s)) /\
    memory (snd (log_all events s)) = memory s /\
    log_index (snd (log_all events s)) = log_index s.
Proof.
  induction events as [|[[[t event] code] data] rest IH]; intros s Hword Hall.
  - cbn [log_all fst snd]. repeat split. constructor.
  - rewrite log_all_cons. cbn [fst snd].
    inversion Hall as [|? ? Hev Hrest]; subst. cbn [fst snd] in Hev.
    rewrite (Log_Facts.LogEvent_first_word_programmed event code data (at_tick t s) Hev Hword).
    cbn [fst snd].
    set (s1 := record_hw _ _).
    destruct (IH s1) as (Hst & Hmem & Hidx); [exact Hword|exact Hrest|].
    repeat split; [constructor; [reflexivity|exact Hst]|exact Hmem|exact Hidx].
Qed.

End WithHAL.
End Log_Capacity.

(** X19.  The log is append-only.  On the device's flash controller, with
    the index inside the buffer, a call to [SECBOOT_Diag_LogEvent] changes
    no byte outside the 64-byte slot the index points to, that slot lies
    inside the log region, and the index stays inside the buffer; a slot
    whose first word has been programmed, the current one included, keeps
    all its 64 bytes. *)
Theorem LogEvent_append_only {hal : HAL} (event code data : Z) (s : machine) :
  (forall m a d, HAL_FLASH_Program m a d = Bench.flash_program_doubleword m a d) ->
  0 <= log_index s < SECBOOT_DIAG_MAX_LOGS ->
  let r := Diag.SECBOOT_Diag_LogEvent event code data s in
  (forall x, x < next_log_addr s \/ next_log_addr s + SECBOOT_DIAG_LOG_SIZE <= x ->
             memory (snd r) x = memory s x) /\
  SECBOOT_DIAG_LOG_BASE <= next_log_addr s /\
  next_log_addr s + SECBOOT_DIAG_LOG_SIZE
  <= SECBOOT_DIAG_LOG_BASE + SECBOOT_DIAG_MAX_LOGS * SECBOOT_DIAG_LOG_SIZE /\
  0 <= log_index (snd r) < SECBOOT_DIAG_MAX_LOGS /\
  (forall j, 0 <= j < SECBOOT_DIAG_MAX_LOGS ->
     load32 (memory s) (SECBOOT_DIAG_LOG_BASE + j * SECBOOT_DIAG_LOG_SIZE) <> 0xFFFFFFFF ->
     load_bytes (memory (snd r)) (SECBOOT_DIAG_LOG_BASE + j * SECBOOT_DIAG_LOG_SIZE) 64
     = load_bytes (memory s) (SECBOOT_DIAG_LOG_BASE + j * SECBOOT_DIAG_LOG_SIZE) 64).
Proof.
  intros Hflash Hidx r. subst r.
  destruct (Log_Capacity.LogEvent_slot_only Hflash event code data s) as [Hfoot Hnext].
  pose proof (Log_Capacity.slot_addr s Hidx) as Haddr.
  assert (Hmod : 0 <= (log_index s + 1) mod SECBOOT_DIAG_MAX_LOGS < SECBOOT_DIAG_MAX_LOGS)
    by (apply Z.mod_pos_bound; reflexivity).
  unfold SECBOOT_DIAG_LOG_BASE, SECBOOT_DIAG_LOG_SIZE, SECBOOT_DIAG_MAX_LOGS in *.
  split; [exact Hfoot|]. split; [lia|]. split; [lia|]. split.
  - destruct Hnext as [E|E]; rewrite E; [exact Hidx|exact Hmod].
  - intros j Hj Hword.
    destruct (Z.eq_dec j (log_index s)) as [->|Hne].
    + rewrite <- Haddr in *.
      destruct (Z.leb_spec event SECBOOT_DIAG_ROLLBACK_ATTEMPT) as [Hev|Hev].
      * rewrite (Log_Facts.LogEvent_first_word_programmed event code data s Hev Hword).
        reflexivity.
      * unfold Diag.SECBOOT_Diag_LogEvent.
        replace (event >? SECBOOT_DIAG_ROLLBACK_ATTEMPT) with true
          by (symmetry; rewrite Z.gtb_ltb; apply Z.ltb_lt; exact Hev).
        reflexivity.
    + apply load_bytes_ext. intros x Hx. apply Hfoot. lia.
Qed.

Lemma LogEvent_append_only_witness :
  0 <= log_index (snd (@Diag.SECBOOT_Diag_LogEvent Bench.bench_HAL SECBOOT_DIAG_CRC_FAIL 4 0
                         (Bench.reset_machine Bench.erased_mem)))
  < SECBOOT_DIAG_MAX_LOGS.
Proof.
  refine (proj1 (proj2 (proj2 (proj2
    (@LogEvent_append_only Bench.bench_HAL SECBOOT_DIAG_CRC_FAIL 4 0
       (Bench.reset_machine Bench.erased_mem) _ _))))).
  - intros m a d. reflexivity.
  - vm_compute. split; [discriminate|reflexivity].
Defined.

(** X20.  The capacity of the log.  Starting from an erased log region with
    the index at 0, sixteen calls (valid event, tick other than 0xFFFFFFFF)
    program the sixteen slots and bring the index back to 0; from then on
    the first-word check refuses every call: each one answers TAMPERED, and
    neither memory nor index changes.  The buffer does not wrap over old
    entries. *)
Theorem log_takes_sixteen_entries {hal : HAL}
  (events more : list (Z * Z * Z * Z)) (s : machine) :
  (forall m a d, HAL_FLASH_Program m a d = Bench.flash_program_doubleword m a d) ->
  log_index s = 0 ->
  erased (memory s) SECBOOT_DIAG_LOG_BASE 1024 = true ->
  length events = 16%nat ->
  Forall DiagLog.loggable events ->
  Forall (fun e => snd (fst (fst e)) <= SECBOOT_DIAG_ROLLBACK_ATTEMPT) more ->
  let s16 := snd (DiagLog.log_all events s) in
  log_index s16 = 0 /\
  (forall j, 0 <= j < SECBOOT_DIAG_MAX_LOGS ->
     load32 (memory s16) (SECBOOT_DIAG_LOG_BASE + j * SECBOOT_DIAG_LOG_SIZE) <> 0xFFFFFFFF) /\
  Forall (eq SECBOOT_DIAG_TAMPERED) (fst (DiagLog.log_all more s16)) /\
  memory (snd (DiagLog.log_all more s16)) = memory s16 /\
  log_index (snd (DiagLog.log_all more s16)) = 0.
Proof.
  intros Hflash Hidx Her Hlen Hall Hmore s16.
  assert (Hinit : DiagLog.log_filled 0 s).
  { split; [rewrite Hidx; reflexivity|]. split; [intros j Hj; lia|].
    intros j Hj. apply Log_Write.erased_iff. intros x Hx.
    rewrite Log_Write.erased_iff in Her. apply Her.
    unfold SECBOOT_DIAG_LOG_BASE, SECBOOT_DIAG_LOG_SIZE, SECBOOT_DIAG_MAX_LOGS in *. lia. }
  pose proof (Log_Capacity.log_filled_all Hflash events 0 s ltac:(lia)
                ltac:(rewrite Hlen; vm_compute; discriminate) Hall Hinit) as Hfull.
  rewrite Hlen in Hfull. fold s16 in Hfull.
  destruct Hfull as (Hidx16 & Hprog & _).
  change (Z.of_nat 16) with 16 in *. change (0 + 16) with SECBOOT_DIAG_MAX_LOGS in Hprog.
  change ((0 + 16) mod SECBOOT_DIAG_MAX_LOGS) with 0 in Hidx16.
  assert (Hword : load32 (memory s16) (next_log_addr s16) <> 0xFFFFFFFF).
  { rewrite Log_Capacity.slot_addr by (rewrite Hidx16; vm_compute; split; [discriminate|reflexivity]).
    rewrite Hidx16. apply Hprog. vm_compute. split; [discriminate|reflexivity]. }
  destruct (Log_Capacity.log_jammed more s16 Hword Hmore) as (Hst & Hmem & Hi).
  repeat split; try assumption. rewrite Hi. exact Hidx16.
Qed.

Lemma log_takes_sixteen_entries_witness :
  Forall (eq SECBOOT_DIAG_TAMPERED)
    (fst (@DiagLog.log_all Bench.bench_HAL [(100, SECBOOT_DIAG_SIG_FAIL, 0x20, 8)]
            (snd (@DiagLog.log_all Bench.bench_HAL
                    (repeat (7, SECBOOT_DIAG_CRC_FAIL, 4, 0) 16)
                    (Bench.reset_machine Bench.erased_mem))))).
Proof.
  refine (proj1 (proj2 (proj2
    (@log_takes_sixteen_entries Bench.bench_HAL
       (repeat (7, SECBOOT_DIAG_CRC_FAIL, 4, 0) 16) [(100, SECBOOT_DIAG_SIG_FAIL, 0x20, 8)]
       (Bench.reset_machine Bench.erased_mem) _ _ _ _ _ _)))).
  - intros m a d. reflexivity.
  - reflexivity.
  - vm_compute. reflexivity.
  - reflexivity.
  - apply Forall_forall. intros e He. apply repeat_spec in He. subst e.
    split; vm_compute; discriminate.
  - constructor; [vm_compute; discriminate|constructor].
Defined.

(** X21.  Stack bytes reach the flash.  The programming loop takes
    [SECBOOT_DIAG_LOG_SIZE] = 64 bytes starting at the entry object, which
    is at most 20 bytes long whatever size the compiler gives the event
    enumeration: after a call on an erased slot, the slot begins with the
    tick (little-endian) and its bytes 20 to 63 are the 44 bytes found on
    the stack at offsets 20 to 63 from the entry. *)
Theorem LogEvent_programs_stack_bytes_behind_entry {hal : HAL}
  (event code data : Z) (s : machine) :
  (forall m a d, HAL_FLASH_Program m a d = Bench.flash_program_doubleword m a d) ->
  event <= SECBOOT_DIAG_ROLLBACK_ATTEMPT ->
  erased (memory s) (next_log_addr s) 64 = true ->
  let slot := load_bytes (memory (snd (Diag.SECBOOT_Diag_LogEvent event code data s)))
                         (next_log_addr s) 64 in
  firstn 4 slot = le_split 4 (HAL_GetTick s) /\
  skipn 20 slot = map (stack_residue s) (seq 20 44) /\
  length (skipn 20 slot) = 44%nat.
Proof.
  intros Hflash Hev Her slot. subst slot.
  rewrite (Log_Capacity.LogEvent_slot_content Hflash event code data s Hev Her).
  repeat split.
Qed.

Lemma LogEvent_programs_stack_bytes_behind_entry_witness :
  skipn 20 (load_bytes
              (memory (snd (@Diag.SECBOOT_Diag_LogEvent Bench.bench_HAL SECBOOT_DIAG_CRC_FAIL 4 0
                              (mkMachine Bench.erased_mem 0 0 (fun k => byte.of_Z (Z.of_nat k))
                                         [] []))))
              SECBOOT_DIAG_LOG_BASE 64)
  = map (fun k => byte.of_Z (Z.of_nat k)) (seq 20 44).
Proof.
  refine (proj1 (proj2
    (@LogEvent_programs_stack_bytes_behind_entry Bench.bench_HAL SECBOOT_DIAG_CRC_FAIL 4 0
       (mkMachine Bench.erased_mem 0 0 (fun k => byte.of_Z (Z.of_nat k)) [] []) _ _ _))).
  - intros m a d. reflexivity.
  - vm_compute. discriminate.
  - vm_compute. reflexivity.
Defined.

(** ** Signature verification wrapper (secboot_ecdsa.c) *)

(** X22.  The statuses of [SECBOOT_ECDSA_Verify_Signature].  It answers
    VERIFICATION_SUCCESS exactly when signature and key pointers are not
    NULL, the digest length is 32, the PKA is READY, the curve parameters
    are available, the PKA operation ended with HAL_OK and the PKA reports a
    valid signature.  It never answers OK, PKA_INIT_FAIL, INVALID_SIGNATURE
    or INVALID_PUBKEY, it refuses bad parameters before using the PKA, and
    it changes no memory. *)
Theorem ECDSA_Verify_Signature_statuses {hal : HAL}
  (pDigest : list byte) (DigestLen pSignature pPubKey : Z) (s : machine) :
  let r := SECBOOT_ECDSA_Verify_Signature pDigest DigestLen pSignature pPubKey s in
  let R := load_bytes (memory s) pSignature 32 in
  let S := load_bytes (memory s) (pSignature + 32) 32 in
  let Qx := load_bytes (memory s) pPubKey 32 in
  let Qy := load_bytes (memory s) (pPubKey + 32) 32 in
  (fst r = SECBOOT_ECDSA_VERIFICATION_SUCCESS
   <-> pSignature <> 0 /\ pPubKey <> 0 /\ DigestLen = SECBOOT_ECDSA_SHA256_DIGEST_SIZE /\
       HAL_PKA_GetState = HAL_PKA_STATE_READY /\ get_prime256v1_curve = true /\
       HAL_PKA_ECDSAVerif pDigest R S Qx Qy = HAL_OK /\
       HAL_PKA_ECDSAVerif_IsValidSignature pDigest R S Qx Qy = true) /\
  fst r <> SECBOOT_ECDSA_OK /\ fst r <> SECBOOT_ECDSA_PKA_INIT_FAIL /\
  fst r <> SECBOOT_ECDSA_INVALID_SIGNATURE /\ fst r <> SECBOOT_ECDSA_INVALID_PUBKEY /\
  memory (snd r) = memory s /\
  (pSignature = 0 \/ pPubKey = 0 \/ DigestLen <> SECBOOT_ECDSA_SHA256_DIGEST_SIZE ->
   r = (SECBOOT_ECDSA_INVALID_PARAM, s)).
Proof.
  intros r R S Qx Qy. subst r. unfold SECBOOT_ECDSA_Verify_Signature. fold R S Qx Qy.
  destruct (Z.eqb_spec pSignature 0) as [Hs|Hs]; cbn [orb].
  { cbn [fst snd]. repeat split; try discriminate.
    intros (H & _). contradiction. }
  destruct (Z.eqb_spec pPubKey 0) as [Hp|Hp]; cbn [orb].
  { cbn [fst snd]. repeat split; try discriminate.
    intros (_ & H & _). contradiction. }
  destruct (Z.eqb_spec DigestLen SECBOOT_ECDSA_SHA256_DIGEST_SIZE) as [Hl|Hl]; cbn [negb].
  2:{ cbn [fst snd]. repeat split; try discriminate.
      intros (_ & _ & H & _). contradiction. }
  assert (Hparam : pSignature = 0 \/ pPubKey = 0 \/ DigestLen <> SECBOOT_ECDSA_SHA256_DIGEST_SIZE
                   -> False) by (intros [H|[H|H]]; contradiction).
  destruct HAL_PKA_GetState eqn:Hst;
    try (cbn [fst snd]; repeat split; try discriminate;
         [intros (_ & _ & _ & H & _); discriminate H | intros H; contradiction (Hparam H)]).
  destruct get_prime256v1_curve eqn:Hc; cbn [negb].
  2:{ cbn [fst snd]. repeat split; try discriminate;
        [intros (_ & _ & _ & _ & H & _); discriminate H | intros H; contradiction (Hparam H)]. }
  destruct (HAL_PKA_ECDSAVerif pDigest R S Qx Qy) eqn:Hv;
    try (cbn [fst snd]; repeat split; try discriminate;
         [intros (_ & _ & _ & _ & _ & H & _); discriminate H
         |intros H; contradiction (Hparam H)]).
  destruct (HAL_PKA_ECDSAVerif_IsValidSignature pDigest R S Qx Qy) eqn:Hok;
    cbn [fst snd]; repeat split; try discriminate; try assumption;
    try (intros H; contradiction (Hparam H)).
  intros (_ & _ & _ & _ & _ & _ & H). discriminate H.
Qed.

(** ** The erased check of the flash log (step 4.2) *)

Module Log_Guard.
Import Diag.

Section WithHAL.
Context {hal : HAL}.

Hypothesis flash_controller :
  forall m a d, HAL_FLASH_Program m a d = Bench.flash_program_doubleword m a d.

(** On a region that is not erased the programming loop is refused: it
    stops at the first double word that is not erased. *)
Lemma program_entry_not_erased (log_addr : Z) :
  forall (k : nat) (bs : list byte) (i : Z) (s : machine),
    length bs = (8 * k)%nat ->
    erased (memory s) (log_addr + i * 8) (8 * k) = false ->
    fst (program_entry log_addr (doublewords bs k) i s) = HAL_ERROR.
Proof.
  induction k as [|k IH]; intros bs i s Hlen Hdirty; [discriminate Hdirty|].
  cbn [doublewords program_entry]. rewrite flash_controller.
  unfold Bench.flash_program_doubleword.
  destruct (erased (memory s) (log_addr + i * 8) 8) eqn:E8; [|reflexivity].
  apply IH; [rewrite length_skipn; lia|].
  cbn [memory set_memory].
  destruct (erased _ (log_addr + (i + 1) * 8) (8 * k)) eqn:Erest; [|reflexivity].
  rewrite <- Hdirty. symmetry. apply Log_Write.erased_iff. intros x Hx.
  rewrite Log_Write.erased_iff in E8, Erest.
  destruct (Z_lt_ge_dec x (log_addr + i * 8 + 8)) as [Hlt|Hge]; [apply E8; lia|].
  rewrite <- (Erest x) by lia.
  symmetry. apply store_bytes_other. rewrite length_le_split. lia.
Qed.

(** The first word of the slot once its first double word was programmed. *)
Lemma program_entry_first_word (log_addr : Z) (w : list byte) (s : machine) :
  length w = 64%nat ->
  erased (memory s) log_addr 8 = true ->
  load_bytes (memory (snd (program_entry log_addr (doublewords w 8) 0 s))) log_addr 4
  = firstn 4 w.
Proof.
  intros Hlen E8.
  change (doublewords w 8) with (le_combine (firstn 8 w) :: doublewords (skipn 8 w) 7).
  cbn [program_entry]. rewrite flash_controller. unfold Bench.flash_program_doubleword.
  replace (log_addr + 0 * 8) with log_addr by lia. rewrite E8.
  assert (Hfirst : length (firstn 8 w) = 8%nat) by (rewrite length_firstn; lia).
  replace (le_split 8 (le_combine (firstn 8 w))) with (firstn 8 w)
    by (rewrite <- Hfirst at 2; symmetry; apply split_le_combine).
  set (s1 := set_memory _ _).
  rewrite (load_bytes_ext _ (memory s1)).
  - subst s1. cbn [memory set_memory].
    rewrite Log_Write.load_store_prefix by lia.
    rewrite firstn_firstn. reflexivity.
  - intros x Hx.
    apply (Log_Capacity.program_entry_footprint flash_controller log_addr _ (0 + 1) s1 x).
    left. lia.
Qed.

End WithHAL.
End Log_Guard.

(** C6.  A slot that is not erased is not refused.  The check of step 4.2
    ("verify sector is erased") reads the first 32-bit word of the 64-byte
    slot only.  On a slot whose first word is erased and which holds a
    programmed byte further on, [SECBOOT_Diag_LogEvent] does not answer
    TAMPERED: it goes on to program the slot, the flash controller stops it
    at the first double word that is not erased, and the call answers
    ERROR.  If the first double word was erased it has been programmed: the
    slot now begins with the tick of the new entry. *)
Theorem LogEvent_programs_slot_that_is_not_erased
  (hal : HAL) (event code data : Z) (s : machine) :
  (forall m a d, HAL_FLASH_Program m a d = Bench.flash_program_doubleword m a d) ->
  event <= SECBOOT_DIAG_ROLLBACK_ATTEMPT ->
  load32 (memory s) (next_log_addr s) = 0xFFFFFFFF ->
  erased (memory s) (next_log_addr s) 64 = false ->
  fst (Diag.SECBOOT_Diag_LogEvent event code data s) = SECBOOT_DIAG_ERROR /\
  fst (Diag.SECBOOT_Diag_LogEvent event code data s) <> SECBOOT_DIAG_TAMPERED /\
  (exists a d,
     In (OpFlashProgram a d)
        (hw_since s (snd (Diag.SECBOOT_Diag_LogEvent event code data s)))) /\
  (erased (memory s) (next_log_addr s) 8 = true ->
   load32 (memory (snd (Diag.SECBOOT_Diag_LogEvent event code data s))) (next_log_addr s)
   = HAL_GetTick s).
Proof.
  intros Hflash Hev Hword Hdirty.
  unfold Diag.SECBOOT_Diag_LogEvent.
  replace (event >? SECBOOT_DIAG_ROLLBACK_ATTEMPT) with false
    by (symmetry; rewrite Z.gtb_ltb; apply Z.ltb_ge; exact Hev).
  unfold SECBOOT_CRC_Calculate.
  cbn [memory log_index stack_residue record_hw record_call].
  change (HAL_GetTick (record_call (CallLogEvent event code data) s)) with (HAL_GetTick s).
  fold (next_log_addr s).
  rewrite Hword. cbn [Z.eqb Pos.eqb negb].
  change (Z.to_nat (SECBOOT_DIAG_LOG_SIZE / 8)) with 8%nat.
  set (entry := Diag.mkEntry (HAL_GetTick s) event (u8 code) (u32 data) 0).
  set (w := Diag.entry_window (stack_residue s) entry).
  set (sa := record_hw _ _).
  assert (Hlen : length w = 64%nat) by apply Log_Write.entry_window_length.
  pose proof (Log_Guard.program_entry_not_erased Hflash (next_log_addr s) 8 w 0 sa Hlen) as Hst.
  replace (next_log_addr s + 0 * 8) with (next_log_addr s) in Hst by lia.
  specialize (Hst Hdirty).
  destruct (Log_Seq.program_entry_hw (next_log_addr s) (Diag.doublewords w 8) 0 sa)
    as (ops & Hops & _ & Hne).
  pose proof (Log_Guard.program_entry_first_word Hflash (next_log_addr s) w sa Hlen) as Hfirst.
  destruct (Diag.program_entry (next_log_addr s) (Diag.doublewords w 8) 0 sa) as [st sb].
  cbn [fst snd] in *. subst st. cbn [fst snd].
  split; [reflexivity|]. split; [discriminate|]. split.
  - destruct (Hne ltac:(discriminate)) as (a & d & _ & rest & -> & _).
    exists a, d.
    rewrite (Verify_Facts.hw_since_app s sb ((OpFlashProgram a d :: rest) ++ [OpCrc _]))
      by (rewrite Hops, <- app_assoc; reflexivity).
    left. reflexivity.
  - intros E8. unfold load32. rewrite (Hfirst E8).
    change (firstn 4 w) with (le_split 4 (HAL_GetTick s)).
    rewrite le_combine_split. unfold HAL_GetTick, u32.
    change (2 ^ (Z.of_nat 4 * 8)) with (2 ^ 32). apply Z.mod_mod. lia.
Qed.

(** The slot erased except for one byte of its second double word: the call
    is not refused as TAMPERED, and the slot's first word, erased before,
    now holds the tick (0). *)
Lemma LogEvent_programs_slot_that_is_not_erased_witness :
  fst (@Diag.SECBOOT_Diag_LogEvent Bench.bench_HAL SECBOOT_DIAG_CRC_FAIL 4 0
         (Bench.reset_machine Fixture.flash_with_dirty_slot)) = SECBOOT_DIAG_ERROR /\
  load32 (memory (snd (@Diag.SECBOOT_Diag_LogEvent Bench.bench_HAL SECBOOT_DIAG_CRC_FAIL 4 0
                         (Bench.reset_machine Fixture.flash_with_dirty_slot))))
         (next_log_addr (Bench.reset_machine Fixture.flash_with_dirty_slot))
  = HAL_GetTick (Bench.reset_machine Fixture.flash_with_dirty_slot).
Proof.
  refine ((fun H => conj (proj1 H) (proj2 (proj2 (proj2 H)) _))
            (LogEvent_programs_slot_that_is_not_erased Bench.bench_HAL SECBOOT_DIAG_CRC_FAIL 4 0
               (Bench.reset_machine Fixture.flash_with_dirty_slot) _ _ _ _)).
  - vm_compute. reflexivity.
  - intros m a d. reflexivity.
  - vm_compute. discriminate.
  - vm_compute. reflexivity.
  - vm_compute. reflexivity.
Defined.
